(** * shelflife: the item validation-and-persistence pipeline

    A shallow embedding of [apps/backend/src/routes/items.ts] and of the
    response helpers [successResponse] / [errorResponse], together with the
    parts of the JavaScript runtime, of zod and of the Fetch API that the
    handlers rely on.

    Conventions.
    - A JavaScript string is a [string] holding its UTF-8 bytes.
    - A JavaScript number is a [number]: NaN, an infinity, or a finite
      binary64 value [m * 2^e]; the two zeros are not distinguished.
    - A payload is any JavaScript value built from undefined, null,
      booleans, numbers, strings, dates, arrays and objects; the payloads a
      form can carry are among them.
    - zod is modelled with the semantics of zod 3: [optional] answers an
      undefined input itself (so a [default] below it is not consulted),
      every check of a primitive runs and adds its issue, an object strips
      the keys that are not in its shape, a union returns its first valid
      option.  The test behind [z.string().datetime()] is a parameter.
      zod 4 consults a [default] below [optional]: an Update without
      usedQuantity is then validated to one with ["0.0"].  What is proved
      of the data that Update writes is stated on the validated data and
      holds under either rule.
    - [Response.json] is the one of the Fetch API: it throws a RangeError
      for a status outside 200..599 and a TypeError for a null body
      status; the body of a response is kept as the value that is
      serialised.
    - The ORM client is an interface ([PrismaClient]); every handler is
      defined for an arbitrary client, which may return or throw at every
      call.  [memory] is a reference client over an in-memory table. *)

From Stdlib Require Import ZArith NArith String Ascii List Bool Lia.
Import ListNotations.

Local Open Scope string_scope.
Local Open Scope Z_scope.

Set Implicit Arguments.

(* ================================================================= *)
(** ** JavaScript strings *)

Definition codes (s : string) : list N := map N_of_ascii (list_ascii_of_string s).

Definition of_codes (l : list N) : string := string_of_list_ascii (map ascii_of_N l).

(** White space and line terminators of ECMAScript ([WhiteSpace] and
    [LineTerminator]), as UTF-8 sequences of one, two and three bytes:
    U+0009..U+000D, U+0020; U+00A0; U+1680, U+2000..U+200A, U+2028, U+2029,
    U+202F, U+205F, U+3000, U+FEFF. *)
Definition ws1 (a : N) : bool :=
  ((9 <=? a) && (a <=? 13) || (a =? 32))%N.

Definition ws2 (a b : N) : bool :=
  ((a =? 194) && (b =? 160))%N.

Definition ws3 (a b c : N) : bool :=
  ((a =? 225) && (b =? 154) && (c =? 128)
   || (a =? 226) && (b =? 128) && ((128 <=? c) && (c <=? 138) || (c =? 168) || (c =? 169) || (c =? 175))
   || (a =? 226) && (b =? 129) && (c =? 159)
   || (a =? 227) && (b =? 128) && (c =? 128)
   || (a =? 239) && (b =? 187) && (c =? 191))%N.

(** Removes the white space characters at the front of a byte sequence;
    [w1], [w2], [w3] recognise the characters of one, two and three bytes. *)
Fixpoint strip (w1 : N -> bool) (w2 : N -> N -> bool) (w3 : N -> N -> N -> bool)
    (l : list N) : list N :=
  match l with
  | [] => []
  | a :: r1 =>
      if w1 a then strip w1 w2 w3 r1
      else match r1 with
           | [] => l
           | b :: r2 =>
               if w2 a b then strip w1 w2 w3 r2
               else match r2 with
                    | [] => l
                    | c :: r3 => if w3 a b c then strip w1 w2 w3 r3 else l
                    end
           end
  end.

Definition trimStart_codes (l : list N) : list N := strip ws1 ws2 ws3 l.

Definition trimEnd_codes (l : list N) : list N :=
  rev (strip ws1 (fun a b => ws2 b a) (fun a b c => ws3 c b a) (rev l)).

(** [String.prototype.trim]. *)
Definition trim (s : string) : string :=
  of_codes (trimEnd_codes (trimStart_codes (codes s))).

(** The [length] of a JavaScript string counts UTF-16 code units: one for
    a character of one, two or three UTF-8 bytes, two for one of four. *)
Definition units_of_byte (a : N) : nat :=
  if (a <? 128)%N then 1%nat
  else if (a <? 192)%N then 0%nat
  else if (a <? 240)%N then 1%nat
  else 2%nat.

Definition js_length (s : string) : nat :=
  fold_right (fun a n => (units_of_byte a + n)%nat) 0%nat (codes s).

(* ================================================================= *)
(** ** JavaScript numbers *)

(** [Finite m e] is [m * 2^e], with [m] odd, or [m = 0] and [e = 0]. *)
Inductive number : Type :=
| NaN
| Infinity (negative : bool)
| Finite (m e : Z).

Definition isNaN (n : number) : bool :=
  match n with NaN => true | _ => false end.

(** [n <= 0]. *)
Definition le_zero (n : number) : bool :=
  match n with
  | NaN => false
  | Infinity negative => negative
  | Finite m _ => m <=? 0
  end.

(** [n > 0]. *)
Definition gt_zero (n : number) : bool :=
  match n with
  | NaN => false
  | Infinity negative => negb negative
  | Finite m _ => 0 <? m
  end.

(** [Number.isInteger]. *)
Definition isInteger (n : number) : bool :=
  match n with
  | Finite m e => 0 <=? e
  | _ => false
  end.

(** The odd part of a positive integer and the power of two taken out. *)
Fixpoint odd_part (p : positive) : positive * Z :=
  match p with
  | xO q => let (o, k) := odd_part q in (o, k + 1)
  | _ => (p, 0)
  end.

(** [m * 2^e] in normal form, for [0 <= m]. *)
Definition normal (m e : Z) : number :=
  match m with
  | Zpos p => let (o, k) := odd_part p in Finite (Zpos o) (e + k)
  | _ => Finite 0 0
  end.

(** The binary64 value nearest to the ratio [n / d] of two positive
    integers, ties to even; overflow gives the infinity, underflow 0. *)
Definition round_ratio (n d : Z) : number :=
  let e0 := Z.log2 n - Z.log2 d in
  let above := if 0 <=? e0 then d * 2 ^ e0 <=? n else d <=? n * 2 ^ (- e0) in
  let e := if above then e0 else e0 - 1 in
  let p := Z.max (e - 52) (-1074) in
  let num := if p <? 0 then n * 2 ^ (- p) else n in
  let den := if p <? 0 then d else d * 2 ^ p in
  let q := num / den in
  let r := num mod den in
  let m := if 2 * r <? den then q
           else if den <? 2 * r then q + 1
           else if Z.even q then q else q + 1 in
  if (971 <? p) || ((p =? 971) && (2 ^ 53 <=? m)) then Infinity false
  else normal m p.

Definition negate (n : number) : number :=
  match n with
  | NaN => NaN
  | Infinity negative => Infinity (negb negative)
  | Finite m e => Finite (- m) e
  end.

(** The number denoted by [m * 10^e], for [0 <= m]. *)
Definition decimal (m e : Z) : number :=
  if m =? 0 then Finite 0 0
  else if 0 <=? e then round_ratio (m * 10 ^ e) 1
  else round_ratio m (10 ^ (- e)).

(** *** [Number] applied to a string ([StringToNumber]) *)

Definition digit_of (base : Z) (a : N) : option Z :=
  let v := if (48 <=? a)%N && (a <=? 57)%N then Z.of_N a - 48
           else if (97 <=? a)%N && (a <=? 102)%N then Z.of_N a - 87
           else if (65 <=? a)%N && (a <=? 70)%N then Z.of_N a - 55
           else 99 in
  if v <? base then Some v else None.

(** The longest run of digits at the front, as digit values, and the rest. *)
Fixpoint span_digits (base : Z) (l : list N) : list Z * list N :=
  match l with
  | [] => ([], [])
  | a :: r =>
      match digit_of base a with
      | Some v => let (ds, rest) := span_digits base r in (v :: ds, rest)
      | None => ([], l)
      end
  end.

Definition digits_value (base : Z) (ds : list Z) : Z :=
  fold_left (fun acc v => base * acc + v) ds 0.

(** A non-empty run of digits and nothing else. *)
Definition all_digits (base : Z) (l : list N) : option Z :=
  match span_digits base l with
  | ((_ :: _) as ds, []) => Some (digits_value base ds)
  | _ => None
  end.

(** [ExponentPart], optional: [e] or [E], an optional sign, digits. *)
Definition exponent_part (l : list N) : option Z :=
  match l with
  | [] => Some 0
  | a :: r =>
      if (a =? 101)%N || (a =? 69)%N then
        match r with
        | s :: r' =>
            if (s =? 43)%N then all_digits 10 r'
            else if (s =? 45)%N then option_map Z.opp (all_digits 10 r')
            else all_digits 10 r
        | [] => None
        end
      else None
  end.

(** [StrUnsignedDecimalLiteral] without [Infinity]. *)
Definition unsigned_decimal (l : list N) : option number :=
  let (ip, r1) := span_digits 10 l in
  let '(fp, r2) := match r1 with
                   | 46%N :: r => span_digits 10 r
                   | _ => ([], r1)
                   end in
  match (ip ++ fp)%list with
  | [] => None
  | ds =>
      match exponent_part r2 with
      | Some ex => Some (decimal (digits_value 10 ds) (ex - Z.of_nat (length fp)))
      | None => None
      end
  end.

Definition unsigned_literal (l : list N) : option number :=
  if list_eq_dec N.eq_dec l (codes "Infinity") then Some (Infinity false)
  else unsigned_decimal l.

(** [NonDecimalIntegerLiteral]: [0x], [0o], [0b] in either case. *)
Definition non_decimal (l : list N) : option number :=
  match l with
  | 48%N :: p :: r =>
      let base := if (p =? 120)%N || (p =? 88)%N then Some 16
                  else if (p =? 111)%N || (p =? 79)%N then Some 8
                  else if (p =? 98)%N || (p =? 66)%N then Some 2
                  else None in
      match base with
      | Some b => option_map (fun v => decimal v 0) (all_digits b r)
      | None => None
      end
  | _ => None
  end.

Definition Number (s : string) : number :=
  match trimEnd_codes (trimStart_codes (codes s)) with
  | [] => Finite 0 0
  | (a :: r) as l =>
      match non_decimal l with
      | Some n => n
      | None =>
          let signed := if (a =? 43)%N then unsigned_literal r
                        else if (a =? 45)%N then option_map negate (unsigned_literal r)
                        else unsigned_literal l in
          match signed with
          | Some n => n
          | None => NaN
          end
      end
  end.

(* ================================================================= *)
(** ** JavaScript values *)

(** The values a request payload, a validated payload and a query are
    made of.  [DateOf v] is the object [new Date(v)].  An object is the
    list of its properties in insertion order; a property is found by
    its first occurrence. *)
#[warnings="-register-all"]
Inductive value : Type :=
| Undefined
| Null
| Bool (b : bool)
| Num (n : number)
| Str (s : string)
| DateOf (v : value)
| Arr (items : list value)
| Obj (props : list (string * value)).

(** Induction on values, with the hypothesis for every item of an array
    and every property of an object. *)
Section ValueInduction.

Variable P : value -> Prop.
Hypothesis P_undefined : P Undefined.
Hypothesis P_null : P Null.
Hypothesis P_bool : forall b, P (Bool b).
Hypothesis P_num : forall n, P (Num n).
Hypothesis P_str : forall s, P (Str s).
Hypothesis P_date : forall v, P v -> P (DateOf v).
Hypothesis P_arr : forall items, Forall P items -> P (Arr items).
Hypothesis P_obj : forall props, Forall (fun kv => P (snd kv)) props -> P (Obj props).

Fixpoint value_induction (v : value) : P v :=
  match v with
  | Undefined => P_undefined
  | Null => P_null
  | Bool b => P_bool b
  | Num n => P_num n
  | Str s => P_str s
  | DateOf v' => P_date (value_induction v')
  | Arr items =>
      P_arr ((fix all (l : list value) : Forall P l :=
                match l with
                | [] => Forall_nil P
                | x :: r => Forall_cons x (value_induction x) (all r)
                end) items)
  | Obj props =>
      P_obj ((fix all (l : list (string * value)) : Forall (fun kv => P (snd kv)) l :=
                match l with
                | [] => Forall_nil _
                | kv :: r => Forall_cons kv (value_induction (snd kv)) (all r)
                end) props)
  end.

End ValueInduction.

Fixpoint lookup (k : string) (props : list (string * value)) : option value :=
  match props with
  | [] => None
  | (k', v) :: r => if String.eqb k k' then Some v else lookup k r
  end.

(** [o.k]: the property [k] of [o], [undefined] when there is none. *)
Definition get (o : value) (k : string) : value :=
  match o with
  | Obj props => match lookup k props with Some v => v | None => Undefined end
  | _ => Undefined
  end.

(** [k in o]. *)
Definition has_key (o : value) (k : string) : bool :=
  match o with
  | Obj props => match lookup k props with Some _ => true | None => false end
  | _ => false
  end.

Fixpoint assign (k : string) (v : value) (props : list (string * value))
    : list (string * value) :=
  match props with
  | [] => [(k, v)]
  | (k', v') :: r => if String.eqb k k' then (k', v) :: r else (k', v') :: assign k v r
  end.

(** [o.k = v]. *)
Definition set (o : value) (k : string) (v : value) : value :=
  match o with
  | Obj props => Obj (assign k v props)
  | _ => o
  end.

Definition keys (o : value) : list string :=
  match o with
  | Obj props => map fst props
  | _ => []
  end.

(** [v !== undefined]. *)
Definition defined (v : value) : bool :=
  match v with Undefined => false | _ => true end.

(** [ToBoolean]. *)
Definition truthy (v : value) : bool :=
  match v with
  | Undefined | Null => false
  | Bool b => b
  | Num NaN => false
  | Num (Finite m _) => negb (m =? 0)
  | Num (Infinity _) => true
  | Str s => negb (String.eqb s "")
  | DateOf _ | Arr _ | Obj _ => true
  end.

(** [a || b]. *)
Definition or_else (a b : value) : value := if truthy a then a else b.

(** [a ?? b]. *)
Definition coalesce (a b : value) : value :=
  match a with Undefined | Null => b | _ => a end.

(* ================================================================= *)
(** ** Regular expressions *)

Inductive regex : Type :=
| Void
| Eps
| Range (lo hi : N)
| Seq (r1 r2 : regex)
| Alt (r1 r2 : regex)
| Star (r : regex).

Definition chr (c : N) : regex := Range c c.
Definition digit : regex := Range 48 57.
Definition plus (r : regex) : regex := Seq r (Star r).
Definition opt (r : regex) : regex := Alt Eps r.

Fixpoint upto (n : nat) (r : regex) : regex :=
  match n with
  | O => Eps
  | S n' => opt (Seq r (upto n' r))
  end.

(** [r{lo,hi}]. *)
Fixpoint between (lo hi : nat) (r : regex) : regex :=
  match lo with
  | O => upto hi r
  | S lo' => Seq r (between lo' (pred hi) r)
  end.

Fixpoint nullable (r : regex) : bool :=
  match r with
  | Void => false
  | Eps => true
  | Range _ _ => false
  | Seq r1 r2 => nullable r1 && nullable r2
  | Alt r1 r2 => nullable r1 || nullable r2
  | Star _ => true
  end.

Fixpoint deriv (a : N) (r : regex) : regex :=
  match r with
  | Void => Void
  | Eps => Void
  | Range lo hi => if (lo <=? a)%N && (a <=? hi)%N then Eps else Void
  | Seq r1 r2 =>
      if nullable r1 then Alt (Seq (deriv a r1) r2) (deriv a r2)
      else Seq (deriv a r1) r2
  | Alt r1 r2 => Alt (deriv a r1) (deriv a r2)
  | Star r1 => Seq (deriv a r1) (Star r1)
  end.

Fixpoint accepts (r : regex) (l : list N) : bool :=
  match l with
  | [] => nullable r
  | a :: l' => accepts (deriv a r) l'
  end.

(** [/^r$/.test(s)]. *)
Definition test (r : regex) (s : string) : bool := accepts r (codes s).

(* ================================================================= *)
(** ** zod *)

Inductive issue_code : Type :=
| invalid_type
| invalid_union
| too_small
| invalid_string.

Inductive path_elem : Type :=
| Key (k : string)
| Index (i : nat).

(** [message] is the message given in the schema, when there is one. *)
Record issue : Type := mkIssue {
  code : issue_code;
  path : list path_elem;
  message : option string
}.

(** The result of parsing: valid; invalid with a value (checks failed,
    parsing went on); aborted (no value). *)
Inductive parsed : Type :=
| Ok (out : value)
| Dirty (out : value) (issues : list issue)
| Aborted (issues : list issue).

Definition schema : Type := value -> parsed.

Definition issues_of (p : parsed) : list issue :=
  match p with
  | Ok _ => []
  | Dirty _ iss | Aborted iss => iss
  end.

Definition out_of (p : parsed) : value :=
  match p with
  | Ok v | Dirty v _ => v
  | Aborted _ => Undefined
  end.

Definition aborted (p : parsed) : bool :=
  match p with Aborted _ => true | _ => false end.

Definition under (e : path_elem) (i : issue) : issue :=
  mkIssue (code i) (e :: path i) (message i).

(** The result of a container from the value built from its parts, the
    issues of its parts and whether one of them aborted. *)
Definition merged (v : value) (issues : list issue) (abort : bool) : parsed :=
  if abort then Aborted issues
  else match issues with
       | [] => Ok v
       | _ => Dirty v issues
       end.

(** [safeParse]. *)
Inductive validation : Type :=
| Valid (data : value)
| Invalid (issues : list issue).

Definition safeParse (s : schema) (v : value) : validation :=
  match s v with
  | Ok out => Valid out
  | Dirty _ iss | Aborted iss => Invalid iss
  end.

Module z.

Definition string : schema := fun v =>
  match v with
  | Str _ => Ok v
  | _ => Aborted [mkIssue invalid_type [] None]
  end.

(** A NaN is not a number for zod. *)
Definition number : schema := fun v =>
  match v with
  | Num n => if isNaN n then Aborted [mkIssue invalid_type [] None] else Ok v
  | _ => Aborted [mkIssue invalid_type [] None]
  end.

Definition boolean : schema := fun v =>
  match v with
  | Bool _ => Ok v
  | _ => Aborted [mkIssue invalid_type [] None]
  end.

Definition null : schema := fun v =>
  match v with
  | Null => Ok v
  | _ => Aborted [mkIssue invalid_type [] None]
  end.

(** A check added to a schema: it runs on the value parsed so far and
    adds [i] when [holds] fails. *)
Definition check (holds : value -> bool) (i : issue) (s : schema) : schema := fun v =>
  match s v with
  | Ok out => if holds out then Ok out else Dirty out [i]
  | Dirty out iss => if holds out then Dirty out iss else Dirty out (iss ++ [i])
  | Aborted iss => Aborted iss
  end.

(** [.min(n, msg)] of a string. *)
Definition min (n : nat) (msg : String.string) : schema -> schema :=
  check (fun v => match v with Str s => (n <=? js_length s)%nat | _ => true end)
        (mkIssue too_small [] (Some msg)).

(** [.regex(/^r$/, msg)]. *)
Definition regex (r : regex) (msg : String.string) : schema -> schema :=
  check (fun v => match v with Str s => test r s | _ => true end)
        (mkIssue invalid_string [] (Some msg)).

(** [.int()]. *)
Definition int : schema -> schema :=
  check (fun v => match v with Num n => isInteger n | _ => true end)
        (mkIssue invalid_type [] None).

(** [.positive()]. *)
Definition positive : schema -> schema :=
  check (fun v => match v with Num n => gt_zero n | _ => true end)
        (mkIssue too_small [] None).

Definition optional (s : schema) : schema := fun v =>
  match v with
  | Undefined => Ok Undefined
  | _ => s v
  end.

Definition nullable (s : schema) : schema := fun v =>
  match v with
  | Null => Ok Null
  | _ => s v
  end.

(** [.default(d)]. *)
Definition default (d : value) (s : schema) : schema := fun v =>
  match v with
  | Undefined => s d
  | _ => s v
  end.

(** [z.lazy(() => s)]. *)
Definition lazy (s : unit -> schema) : schema := fun v => s tt v.

(** The first option that is valid, else the first that is dirty. *)
Definition union (options : list schema) : schema := fun v =>
  let results := map (fun s => s v) options in
  match find (fun p => match p with Ok _ => true | _ => false end) results with
  | Some p => p
  | None =>
      match find (fun p => match p with Dirty _ _ => true | _ => false end) results with
      | Some p => p
      | None => Aborted [mkIssue invalid_union [] None]
      end
  end.

(** The issues of the items of an array, each under its index. *)
Fixpoint indexed (i : nat) (l : list parsed) : list issue :=
  match l with
  | [] => []
  | p :: r => (map (under (Index i)) (issues_of p) ++ indexed (S i) r)%list
  end.

Definition array (s : schema) : schema := fun v =>
  match v with
  | Arr items =>
      let results := map s items in
      merged (Arr (map out_of results)) (indexed O results) (existsb aborted results)
  | _ => Aborted [mkIssue invalid_type [] None]
  end.

(** [z.record(keyType, valueType)]. *)
Definition record (keyType valueType : schema) : schema := fun v =>
  match v with
  | Obj props =>
      let results :=
        map (fun '(k, x) => (k, (keyType (Str k), valueType x))) props in
      let issues :=
        flat_map (fun '(k, (pk, px)) =>
                    map (under (Key k)) (issues_of pk ++ issues_of px)) results in
      let out :=
        map (fun '(k, (pk, px)) =>
               (match out_of pk with Str k' => k' | _ => k end, out_of px)) results in
      merged (Obj out) issues
             (existsb (fun '(_, (pk, px)) => aborted pk || aborted px) results)
  | _ => Aborted [mkIssue invalid_type [] None]
  end.

Definition shape : Type := list (String.string * schema).

(** [z.object(shape)]: every key of the shape is parsed, the other keys
    are stripped; a key stays in the result when its value is defined
    or the key was in the input. *)
Definition object (sh : shape) : schema := fun v =>
  match v with
  | Obj _ =>
      let results := map (fun '(k, s) => (k, s (get v k))) sh in
      let issues :=
        flat_map (fun '(k, p) => map (under (Key k)) (issues_of p)) results in
      let out :=
        flat_map (fun '(k, p) =>
                    if defined (out_of p) || has_key v k then [(k, out_of p)] else [])
                 results in
      merged (Obj out) issues (existsb (fun '(_, p) => aborted p) results)
  | _ => Aborted [mkIssue invalid_type [] None]
  end.

(** [.partial()] of an object's shape. *)
Definition partial (sh : shape) : shape :=
  map (fun '(k, s) => (k, optional s)) sh.

(** [.extend(more)] of an object's shape: the keys of [more] replace
    those of the shape. *)
Definition extend (more : shape) (sh : shape) : shape :=
  (filter (fun '(k, _) => negb (existsb (fun '(k', _) => String.eqb k k') more)) sh
   ++ more)%list.

End z.

(* ================================================================= *)
(** ** Exceptions and effects *)

Inductive exn : Type :=
| PrismaClientKnownRequestError (code : string) (message : string)
| TypeError
| RangeError
| Error (message : string).

Inductive outcome (A : Type) : Type :=
| Returned (a : A)
| Thrown (e : exn).

Arguments Returned {A} a.
Arguments Thrown {A} e.

Class Monad (M : Type -> Type) : Type := {
  ret : forall {A : Type}, A -> M A;
  bind : forall {A B : Type}, M A -> (A -> M B) -> M B
}.

Notation "x <- m ;; k" := (bind m (fun x => k))
  (at level 61, m at next level, right associativity).
Notation "m ;; k" := (bind m (fun _ => k))
  (at level 61, right associativity).

#[global] Instance outcome_monad : Monad outcome := {
  ret := fun A a => Returned a;
  bind := fun A B m k => match m with Returned a => k a | Thrown e => Thrown e end
}.

(** [v.trim()]. *)
Definition trim_of (v : value) : outcome value :=
  match v with
  | Str s => Returned (Str (trim s))
  | _ => Thrown TypeError
  end.

(** [v?.trim()]. *)
Definition opt_trim (v : value) : outcome value :=
  match v with
  | Undefined | Null => Returned Undefined
  | _ => trim_of v
  end.

(* ================================================================= *)
(** ** The response envelope *)

(** A response: its status, and the value whose JSON text is its body
    ([Response.json] serialises it; [JSON_of] below is the value that the
    text denotes). *)
Record Response : Type := mkResponse {
  status : Z;
  body : value
}.

(** The null body statuses of the Fetch API. *)
Definition null_body_status (s : Z) : bool :=
  existsb (Z.eqb s) [101; 103; 204; 205; 304].

(** [Response.json(data, { status })] of the Fetch API: the status is
    converted to an unsigned 16-bit integer and must lie in 200..599,
    else a RangeError is thrown; the response has a body, so a null body
    status (204, 205, 304) is a TypeError. *)
Definition Response_json (data : value) (status : Z) : outcome Response :=
  let s := status mod 65536 in
  if (200 <=? s) && (s <=? 599) then
    if null_body_status s then Thrown TypeError
    else Returned (mkResponse s data)
  else Thrown RangeError.

Definition successResponse (data : value) (status : option Z) : outcome Response :=
  let status := match status with Some s => s | None => 200 end in
  Response_json (Obj [("success", Bool true); ("data", data)]) status.

Definition errorResponse (message : string) (status : option Z) : outcome Response :=
  let status := match status with Some s => s | None => 500 end in
  Response_json (Obj [("success", Bool false); ("error", Str message)]) status.

(* ================================================================= *)
(** ** The persistence client *)

Inductive operation : Type := findMany | create | update | delete.

(** [prisma.item]: each operation takes its argument object and the
    database, and returns or throws. *)
Record PrismaClient (db : Type) : Type := {
  item : operation -> value -> db -> outcome value * db
}.

Inductive event : Type :=
| Persistence (op : operation) (args : value)
| ConsoleError (label : string) (error : exn).

Record world (db : Type) : Type := mkWorld {
  store : db;
  trace : list event
}.

Definition M (db : Type) (A : Type) : Type := world db -> outcome A * world db.

#[global] Instance M_monad (db : Type) : Monad (M db) := {
  ret := fun A a w => (Returned a, w);
  bind := fun A B m k w =>
    match m w with
    | (Returned a, w') => k a w'
    | (Thrown e, w') => (Thrown e, w')
    end
}.

Section Effects.

Context {db : Type}.

Definition lift {A : Type} (o : outcome A) : M db A := fun w => (o, w).

(** [try { body } catch (error) { handler }]. *)
Definition try_catch {A : Type} (body : M db A) (handler : exn -> M db A) : M db A :=
  fun w =>
    match body w with
    | (Returned a, w') => (Returned a, w')
    | (Thrown e, w') => handler e w'
    end.

(** [console.error(label, error)]. *)
Definition console_error (label : string) (error : exn) : M db unit :=
  fun w => (Returned tt, mkWorld (store w) (trace w ++ [ConsoleError label error])).

(** [await prisma.item.op(args)]. *)
Definition await (prisma : PrismaClient db) (op : operation) (args : value) : M db value :=
  fun w =>
    let (r, s) := item prisma op args (store w) in
    (r, mkWorld s (trace w ++ [Persistence op args])).

End Effects.

(* ================================================================= *)
(** ** The schemas of [routes/items.ts] *)

Fixpoint jsonValueSchema (v : value) {struct v} : parsed :=
  z.lazy (fun _ =>
    z.union [z.string;
             z.number;
             z.boolean;
             z.null;
             z.array jsonValueSchema;
             z.record z.string jsonValueSchema]) v.

(** [/^\d+(\.\d{1,n})?$/]. *)
Definition decimal_pattern (n : nat) : regex :=
  Seq (plus digit) (opt (Seq (chr 46) (between 1 n digit))).

Section Schemas.

(** The test behind [z.string().datetime()], which belongs to zod. *)
Variable datetime_test : string -> bool.

Definition datetime (msg : string) : schema -> schema :=
  z.check (fun v => match v with Str s => datetime_test s | _ => true end)
          (mkIssue invalid_string [] (Some msg)).

Definition createItemShape : z.shape :=
  [ ("name", z.min 1 "名称不能为空" z.string);
    ("source", z.nullable (z.optional z.string));
    ("category", z.nullable (z.optional z.string));
    ("quantity",
      z.nullable (z.optional
        (z.regex (decimal_pattern 3) "数量格式无效，最多3位小数" z.string)));
    ("unit", z.nullable (z.optional z.string));
    ("usedQuantity",
      z.default (Str "0.0")
        (z.nullable (z.optional
          (z.regex (decimal_pattern 3) "已使用量格式无效，最多3位小数" z.string))));
    ("productionDate",
      z.nullable (z.optional (datetime "生产日期必须是 ISO 8601 格式" z.string)));
    ("expiryDate",
      z.nullable (z.optional (datetime "过期日期必须是 ISO 8601 格式" z.string)));
    ("locationId", z.nullable (z.optional (z.positive (z.int z.number))));
    ("price",
      z.nullable (z.optional
        (z.regex (decimal_pattern 2) "价格格式无效，最多2位小数" z.string)));
    ("extraInfo", z.optional (z.record z.string jsonValueSchema)) ].

Definition createItemSchema : schema := z.object createItemShape.

(** [createItemSchema.partial().extend({})]. *)
Definition updateItemSchema : schema :=
  z.object (z.extend [] (z.partial createItemShape)).

End Schemas.

(* ================================================================= *)
(** ** The handlers of [routes/items.ts] *)

Definition include : value :=
  Obj [("location", Bool true);
       ("images", Obj [("orderBy", Obj [("sortOrder", Str "asc")])])].

(** The [data] of [prisma.item.create] (lines 87-105). *)
Definition create_data (data : value) : outcome value :=
  name <- trim_of (get data "name") ;;
  source <- opt_trim (get data "source") ;;
  unit_ <- opt_trim (get data "unit") ;;
  ret (Obj
    [ ("name", name);
      ("source", or_else source Null);
      ("quantity", if truthy (get data "quantity") then get data "quantity" else Null);
      ("unit", or_else unit_ Null);
      ("usedQuantity", get data "usedQuantity");
      ("productionDate",
        if truthy (get data "productionDate") then DateOf (get data "productionDate") else Null);
      ("expiryDate",
        if truthy (get data "expiryDate") then DateOf (get data "expiryDate") else Null);
      ("locationId", coalesce (get data "locationId") Undefined);
      ("price", if truthy (get data "price") then get data "price" else Null);
      ("extraInfo", get data "extraInfo") ]).

(** [if (data.k !== undefined) updateData.k = rhs]. *)
Definition if_defined (data : value) (k : string) (rhs : outcome value)
    (updateData : value) : outcome value :=
  if defined (get data k) then v <- rhs ;; ret (set updateData k v)
  else ret updateData.

(** The [updateData] of [prisma.item.update] (lines 132-146). *)
Definition update_data (data : value) : outcome value :=
  updateData <- ret (Obj []) ;;
  updateData <- if_defined data "name"
    (t <- opt_trim (get data "name") ;; ret (or_else t Null)) updateData ;;
  updateData <- if_defined data "source"
    (t <- opt_trim (get data "source") ;; ret (or_else t Null)) updateData ;;
  updateData <- if_defined data "quantity" (ret (get data "quantity")) updateData ;;
  updateData <- if_defined data "unit"
    (t <- opt_trim (get data "unit") ;; ret (or_else t Null)) updateData ;;
  updateData <- if_defined data "usedQuantity" (ret (get data "usedQuantity")) updateData ;;
  updateData <- if_defined data "productionDate"
    (ret (if truthy (get data "productionDate")
          then DateOf (get data "productionDate") else Null)) updateData ;;
  updateData <- if_defined data "expiryDate"
    (ret (if truthy (get data "expiryDate")
          then DateOf (get data "expiryDate") else Null)) updateData ;;
  updateData <- if_defined data "locationId"
    (ret (coalesce (get data "locationId") Null)) updateData ;;
  updateData <- if_defined data "price" (ret (get data "price")) updateData ;;
  updateData <- if_defined data "extraInfo" (ret (get data "extraInfo")) updateData ;;
  ret updateData.

(** [error instanceof Prisma.PrismaClientKnownRequestError && error.code === 'P2025']. *)
Definition is_P2025 (error : exn) : bool :=
  match error with
  | PrismaClientKnownRequestError code _ => String.eqb code "P2025"
  | _ => false
  end.

Section Handlers.

Context {db : Type}.
Variable prisma : PrismaClient db.

(** [.get('/', ...)]. *)
Definition get_handler : M db Response :=
  try_catch
    (allItems <- await prisma findMany
       (Obj [("include", include);
             ("orderBy", Obj [("createdAt", Str "desc")])]) ;;
     lift (successResponse allItems None))
    (fun error =>
       console_error "Error fetching items:" error ;;
       lift (errorResponse "获取物品列表失败" (Some 500))).

(** [.post('/', ...)], after the validator. *)
Definition post_handler (data : value) : M db Response :=
  try_catch
    (d <- lift (create_data data) ;;
     newItem <- await prisma create (Obj [("data", d); ("include", include)]) ;;
     lift (successResponse newItem (Some 201)))
    (fun error =>
       console_error "Error creating item:" error ;;
       lift (errorResponse "创建物品失败" (Some 500))).

(** [.put('/:id', ...)], after the validator. *)
Definition put_handler (idParam : string) (data : value) : M db Response :=
  let id := Number idParam in
  if isNaN id || le_zero id then lift (errorResponse "无效的物品 ID" (Some 400))
  else
    updateData <- lift (update_data data) ;;
    try_catch
      (updatedItem <- await prisma update
         (Obj [("where", Obj [("id", Num id)]);
               ("data", updateData);
               ("include", include)]) ;;
       lift (successResponse updatedItem None))
      (fun error =>
         if is_P2025 error then lift (errorResponse "物品未找到" (Some 404))
         else
           console_error "Error updating item:" error ;;
           lift (errorResponse "更新物品失败" (Some 500))).

(** [.delete('/:id', ...)]. *)
Definition delete_handler (idParam : string) : M db Response :=
  let id := Number idParam in
  if isNaN id || le_zero id then lift (errorResponse "无效的物品 ID" (Some 400))
  else
    try_catch
      (await prisma delete (Obj [("where", Obj [("id", Num id)])]) ;;
       lift (successResponse (Obj [("message", Str "物品已成功删除")]) None))
      (fun error =>
         if is_P2025 error then lift (errorResponse "物品未找到" (Some 404))
         else
           console_error "Error deleting item:" error ;;
           lift (errorResponse "删除物品失败" (Some 500))).

(** *** The routes: the validator, then the handler *)

(** What a route answers: the handler's response, or the answer of
    [zValidator] to a payload that fails the schema (status 400 with the
    issues of [safeParse]). *)
Inductive reply : Type :=
| Handled (r : Response)
| Rejected (issues : list issue).

Variable datetime_test : string -> bool.

(** [zValidator('form', schema)] in front of [handler]. *)
Definition zValidator (s : schema) (handler : value -> M db Response)
    (payload : value) : M db reply :=
  match safeParse s payload with
  | Valid data => r <- handler data ;; ret (Handled r)
  | Invalid issues => ret (Rejected issues)
  end.

Definition items_get : M db reply :=
  r <- get_handler ;; ret (Handled r).

Definition items_post (payload : value) : M db reply :=
  zValidator (createItemSchema datetime_test) post_handler payload.

Definition items_put (idParam : string) (payload : value) : M db reply :=
  zValidator (updateItemSchema datetime_test) (put_handler idParam) payload.

Definition items_delete (idParam : string) : M db reply :=
  r <- delete_handler idParam ;; ret (Handled r).

End Handlers.

(* ================================================================= *)
(** ** A reference client

    An in-memory table that follows the contract of the ORM for the item
    model: [create] stores a row under a fresh id, [update] writes the
    defined keys of [data] and leaves the other columns, [delete] removes
    the row, and [update] and [delete] of a missing record throw the known
    request error [P2025].  The newest row comes first. *)

Record table : Type := mkTable {
  rows : list (Z * value);
  next_id : Z
}.

Definition empty_table : table := mkTable [] 1.

(** The number of an integer (exact below [2^53]). *)
Definition integer (i : Z) : number :=
  match i with
  | Zneg p => negate (normal (Zpos p) 0)
  | _ => normal i 0
  end.

(** The integer of a value, when it is an integral number. *)
Definition integer_of (v : value) : option Z :=
  match v with
  | Num (Finite m e) => if 0 <=? e then Some (m * 2 ^ e) else None
  | _ => None
  end.

Fixpoint find_row (i : Z) (l : list (Z * value)) : option value :=
  match l with
  | [] => None
  | (j, row) :: r => if i =? j then Some row else find_row i r
  end.

Fixpoint remove_row (i : Z) (l : list (Z * value)) : list (Z * value) :=
  match l with
  | [] => []
  | (j, row) :: r => if i =? j then remove_row i r else (j, row) :: remove_row i r
  end.

Fixpoint replace_row (i : Z) (row' : value) (l : list (Z * value)) : list (Z * value) :=
  match l with
  | [] => []
  | (j, row) :: r => if i =? j then (j, row') :: r else (j, row) :: replace_row i row' r
  end.

(** The row with the defined properties of [data] written over it. *)
Definition written (data row : value) : value :=
  match data with
  | Obj props =>
      fold_left (fun r '(k, v) => if defined v then set r k v else r) props row
  | _ => row
  end.

Definition not_found : exn :=
  PrismaClientKnownRequestError "P2025" "Record not found".

Definition memory_item (op : operation) (args : value) (t : table)
    : outcome value * table :=
  match op with
  | findMany => (Returned (Arr (map snd (rows t))), t)
  | create =>
      let row := written (get args "data") (Obj [("id", Num (integer (next_id t)))]) in
      (Returned row, mkTable ((next_id t, row) :: rows t) (next_id t + 1))
  | update =>
      match integer_of (get (get args "where") "id") with
      | None => (Thrown (Error "Invalid invocation"), t)
      | Some i =>
          match find_row i (rows t) with
          | None => (Thrown not_found, t)
          | Some row =>
              let row' := written (get args "data") row in
              (Returned row', mkTable (replace_row i row' (rows t)) (next_id t))
          end
      end
  | delete =>
      match integer_of (get (get args "where") "id") with
      | None => (Thrown (Error "Invalid invocation"), t)
      | Some i =>
          match find_row i (rows t) with
          | None => (Thrown not_found, t)
          | Some row => (Returned row, mkTable (remove_row i (rows t)) (next_id t))
          end
      end
  end.

Definition memory : PrismaClient table := {| item := memory_item |}.

(** A world with an empty table and nothing traced. *)
Definition start : world table := mkWorld empty_table [].

(** A test for the examples: the shape
    [YYYY-MM-DDTHH:MM:SS], an optional fraction, [Z]. *)
Definition datetime_pattern : regex :=
  Seq (between 4 4 digit) (Seq (chr 45) (Seq (between 2 2 digit) (Seq (chr 45)
  (Seq (between 2 2 digit) (Seq (chr 84) (Seq (between 2 2 digit) (Seq (chr 58)
  (Seq (between 2 2 digit) (Seq (chr 58) (Seq (between 2 2 digit)
  (Seq (opt (Seq (chr 46) (plus digit))) (chr 90)))))))))))).

Definition datetime_example (s : string) : bool := test datetime_pattern s.

(** A payload for the examples, and what the create schema returns for it. *)
Definition tagged_milk : value :=
  Obj [("name", Str " milk ");
       ("extraInfo", Obj [("a", Arr [Num (Finite 1 0); Str "b"; Obj [("c", Null)]])])].

Definition repriced : value :=
  Obj [("usedQuantity", Str "1.5"); ("price", Str "9.99")].

Definition blank_name : value :=
  Obj [("name", Str " "); ("usedQuantity", Str "1.5"); ("price", Str "9.99")].

Definition in_kilos : value :=
  Obj [("unit", Str " kg "); ("usedQuantity", Str "1.5")].

Definition unplaced : value :=
  Obj [("name", Str "x"); ("usedQuantity", Str "1.5"); ("locationId", Null)].

Definition tagged_milk_valid : value :=
  Obj [("name", Str " milk ");
       ("usedQuantity", Str "0.0");
       ("extraInfo", Obj [("a", Arr [Num (Finite 1 0); Str "b"; Obj [("c", Null)]])])].

(* ================================================================= *)
(** ** The vocabulary of the properties *)

(** The values [jsonValueSchema] takes: strings, numbers other than NaN,
    booleans, null, arrays and objects of such values. *)
Fixpoint accepted (v : value) : bool :=
  match v with
  | Str _ | Bool _ | Null => true
  | Num n => negb (isNaN n)
  | Arr items => forallb accepted items
  | Obj props => forallb (fun kv => accepted (snd kv)) props
  | Undefined | DateOf _ => false
  end.

(** A JSON value: object, array, string, number, boolean or null,
    recursively. *)
Fixpoint json (v : value) : bool :=
  match v with
  | Str _ | Bool _ | Null => true
  | Num (Finite _ _) => true
  | Num _ => false
  | Arr items => forallb json items
  | Obj props => forallb (fun kv => json (snd kv)) props
  | Undefined | DateOf _ => false
  end.

(** [typeof v === 'object'] for a plain object. *)
Definition is_object (v : value) : bool :=
  match v with Obj _ => true | _ => false end.

(** A string, null or undefined: what an optional, nullable string field
    holds. *)
Definition stringish (v : value) : Prop :=
  v = Undefined \/ v = Null \/ exists s, v = Str s.

(** [v?.trim()] of such a value. *)
Definition trimmed (v : value) : value :=
  match v with
  | Str s => Str (trim s)
  | _ => Undefined
  end.

(** What [z.object] computes from the fields of a shape: the result of
    each field, the issues under the field names, the properties of the
    validated object, and whether a field aborted. *)
Definition field_results (sh : z.shape) (v : value) : list (string * parsed) :=
  map (fun '(k, s) => (k, s (get v k))) sh.

Definition field_issues (results : list (string * parsed)) : list issue :=
  flat_map (fun '(k, p) => map (under (Key k)) (issues_of p)) results.

Definition field_values (v : value) (results : list (string * parsed))
    : list (string * value) :=
  flat_map (fun '(k, p) =>
              if defined (out_of p) || has_key v k then [(k, out_of p)] else [])
           results.

Definition field_aborted (results : list (string * parsed)) : bool :=
  existsb (fun '(_, p) => aborted p) results.

(** A result without issues. *)
Definition clean (p : parsed) : Prop := issues_of p = [] /\ aborted p = false.

(** [takes s ok]: whatever [s] parses without an issue satisfies [ok] and
    is returned unchanged. *)
Definition takes (s : schema) (ok : value -> Prop) : Prop :=
  forall v, clean (s v) -> out_of (s v) = v /\ ok v.

(** The fields that hold a string, null or undefined. *)
Definition text_fields : list string :=
  ["source"; "category"; "quantity"; "unit"; "productionDate"; "expiryDate"; "price"].

(** The fields the update handler writes. *)
Definition updated_fields : list string :=
  ["name"; "source"; "quantity"; "unit"; "usedQuantity";
   "productionDate"; "expiryDate"; "locationId"; "price"; "extraInfo"].

(** [updateData] after [if (data.k !== undefined) updateData.k = x]. *)
Definition when_defined (data : value) (k : string) (x : value) (updateData : value)
    : value :=
  if defined (get data k) then set updateData k x else updateData.

(** The date of a date field. *)
Definition dated (v : value) : value := if truthy v then DateOf v else Null.

(** The update set of a validated payload. *)
Definition update_set (data : value) : value :=
  when_defined data "extraInfo" (get data "extraInfo")
  (when_defined data "price" (get data "price")
  (when_defined data "locationId" (coalesce (get data "locationId") Null)
  (when_defined data "expiryDate" (dated (get data "expiryDate"))
  (when_defined data "productionDate" (dated (get data "productionDate"))
  (when_defined data "usedQuantity" (get data "usedQuantity")
  (when_defined data "unit" (or_else (trimmed (get data "unit")) Null)
  (when_defined data "quantity" (get data "quantity")
  (when_defined data "source" (or_else (trimmed (get data "source")) Null)
  (when_defined data "name" (or_else (trimmed (get data "name")) Null)
  (Obj [])))))))))).

(** The responses of the handlers. *)
Definition success (status : Z) (data : value) : Response :=
  mkResponse status (Obj [("success", Bool true); ("data", data)]).

Definition failure (status : Z) (message : string) : Response :=
  mkResponse status (Obj [("success", Bool false); ("error", Str message)]).

(** The argument objects of the persistence calls. *)
Definition findMany_args : value :=
  Obj [("include", include); ("orderBy", Obj [("createdAt", Str "desc")])].

Definition create_args (d : value) : value :=
  Obj [("data", d); ("include", include)].

Definition update_args (id : number) (updateData : value) : value :=
  Obj [("where", Obj [("id", Num id)]); ("data", updateData); ("include", include)].

Definition delete_args (id : number) : value :=
  Obj [("where", Obj [("id", Num id)])].

(** [isNaN(id) || id <= 0]. *)
Definition invalid_id (idParam : string) : bool :=
  isNaN (Number idParam) || le_zero (Number idParam).

(** The persistence calls of a trace, in order. *)
Definition calls (t : list event) : list (operation * value) :=
  flat_map (fun e => match e with
                     | Persistence op args => [(op, args)]
                     | ConsoleError _ _ => []
                     end) t.

(** A well-formed envelope. *)
Definition envelope (r : Response) : Prop :=
  (exists status data, r = success status data)
  \/ (exists status message, r = failure status message).

(** The object without the property [k]. *)
Definition omit (o : value) (k : string) : value :=
  match o with
  | Obj props => Obj (filter (fun kv => negb (String.eqb (fst kv) k)) props)
  | _ => o
  end.

(** The field, the digits after the point, the message of the schema. *)
Definition decimal_fields : list (string * nat * string) :=
  [ ("quantity", 3%nat, "数量格式无效，最多3位小数");
    ("usedQuantity", 3%nat, "已使用量格式无效，最多3位小数");
    ("price", 2%nat, "价格格式无效，最多2位小数") ].

(** An id "parses as an integer and is positive", in the words of the
    specification. *)
Definition positive_integer_id (idParam : string) : bool :=
  isInteger (Number idParam) && gt_zero (Number idParam).

(** The keys of the item schemas. *)
Definition item_fields : list string :=
  ["name"; "source"; "category"; "quantity"; "unit"; "usedQuantity";
   "productionDate"; "expiryDate"; "locationId"; "price"; "extraInfo"].

(** The language of a regular expression. *)
Inductive matches : regex -> list N -> Prop :=
| matches_eps : matches Eps []
| matches_range lo hi a :
    (lo <=? a)%N && (a <=? hi)%N = true -> matches (Range lo hi) [a]
| matches_seq r1 r2 l1 l2 :
    matches r1 l1 -> matches r2 l2 -> matches (Seq r1 r2) (l1 ++ l2)
| matches_alt_l r1 r2 l : matches r1 l -> matches (Alt r1 r2) l
| matches_alt_r r1 r2 l : matches r2 l -> matches (Alt r1 r2) l
| matches_star_nil r : matches (Star r) []
| matches_star_app r l1 l2 :
    matches r l1 -> matches (Star r) l2 -> matches (Star r) (l1 ++ l2).

(** [0-9]. *)
Definition is_digit (a : N) : bool := (48 <=? a)%N && (a <=? 57)%N.

(** Digits, then nothing or a point and between one and [n] digits. *)
Definition decimal_shape (n : nat) (l : list N) : Prop :=
  exists whole fraction,
    l = (whole ++ fraction)%list
    /\ whole <> []
    /\ forallb is_digit whole = true
    /\ (fraction = []
        \/ exists ds, fraction = 46%N :: ds
                      /\ forallb is_digit ds = true
                      /\ (1 <= length ds <= n)%nat).

(** Whether a byte sequence starts with a white space character that
    [w1], [w2], [w3] recognise. *)
Definition starts_ws (w1 : N -> bool) (w2 : N -> N -> bool) (w3 : N -> N -> N -> bool)
    (l : list N) : bool :=
  match l with
  | [] => false
  | a :: r1 =>
      w1 a
      || match r1 with
         | [] => false
         | b :: r2 =>
             w2 a b
             || match r2 with
                | [] => false
                | c :: _ => w3 a b c
                end
         end
  end.

(** [s.trim()] on bytes. *)
Definition trim_codes (l : list N) : list N := trimEnd_codes (trimStart_codes l).

(** The [console.error] calls of a trace, in order. *)
Definition logs (t : list event) : list (string * exn) :=
  flat_map (fun e => match e with
                     | ConsoleError label error => [(label, error)]
                     | Persistence _ _ => []
                     end) t.

(** [v?.trim() || null] as a function of the field: null for no string
    and for a blank one, the trimmed string otherwise. *)
Definition blank_to_null (v : value) : value :=
  match v with
  | Str s => if String.eqb (trim s) "" then Null else Str (trim s)
  | _ => Null
  end.

(** Null, or a string that is not empty and has no white space around it. *)
Definition trimmed_or_null (v : value) : Prop :=
  v = Null \/ exists t, v = Str t /\ t <> "" /\ trim t = t.

(** Null, or a string of the decimal pattern with [n] digits after the
    point at most. *)
Definition decimal_or_null (n : nat) (v : value) : Prop :=
  v = Null \/ exists s, v = Str s /\ decimal_shape n (codes s).

(** The date fields and the messages of the schema. *)
Definition date_fields : list (string * string) :=
  [ ("productionDate", "生产日期必须是 ISO 8601 格式");
    ("expiryDate", "过期日期必须是 ISO 8601 格式") ].

(** A route answered with one of [statuses], and the flag [success] of the
    body tells whether the status is below 300. *)
Definition answers (statuses : list Z) (r : Response) : Prop :=
  In (status r) statuses /\ get (body r) "success" = Bool (status r <? 300).

(** What the update handler writes for a field that is present. *)
Definition update_value (data : value) (k : string) : value :=
  if existsb (String.eqb k) ["name"; "source"; "unit"]
  then or_else (trimmed (get data k)) Null
  else if existsb (String.eqb k) ["productionDate"; "expiryDate"]
  then dated (get data k)
  else if String.eqb k "locationId"
  then coalesce (get data k) Null
  else get data k.

(** Between the worlds [w] and [w'] the exception that the persistence
    call [op args] of the request threw was logged under [label] when the
    response is a 500, and nothing was logged otherwise. *)
Definition logged {db : Type} (prisma : PrismaClient db) (label : string)
    (op : operation) (args : value) (w w' : world db) (r : Response) : Prop :=
  (status r = 500
   /\ exists e,
        fst (item prisma op args (store w)) = Thrown e
        /\ logs (trace w') = (logs (trace w) ++ [(label, e)])%list)
  \/ (status r <> 500 /\ logs (trace w') = logs (trace w)).

(** A byte sequence made of white space characters only, for the
    recognisers [w1], [w2], [w3] of the characters of one, two and three
    bytes. *)
Inductive white_by (w1 : N -> bool) (w2 : N -> N -> bool) (w3 : N -> N -> N -> bool)
    : list N -> Prop :=
| white_nil : white_by w1 w2 w3 []
| white_one a l :
    w1 a = true -> white_by w1 w2 w3 l -> white_by w1 w2 w3 (a :: l)
| white_two a b l :
    w2 a b = true -> white_by w1 w2 w3 l -> white_by w1 w2 w3 (a :: b :: l)
| white_three a b c l :
    w3 a b c = true -> white_by w1 w2 w3 l -> white_by w1 w2 w3 (a :: b :: c :: l).

(** White space only (the empty sequence included). *)
Definition white (l : list N) : Prop := white_by ws1 ws2 ws3 l.

(** Whether a byte sequence ends with a white space character. *)
Definition ends_ws (l : list N) : bool :=
  starts_ws ws1 (fun a b => ws2 b a) (fun a b c => ws3 c b a) (rev l).

(** [t] is [s] without the white space at its two ends: [s] is white
    space, then [t], then white space, and [t] neither starts nor ends
    with a white space character. *)
Definition trimmed_from (s t : string) : Prop :=
  exists front back,
    codes s = (front ++ codes t ++ back)%list
    /\ white front
    /\ white back
    /\ starts_ws ws1 ws2 ws3 (codes t) = false
    /\ ends_ws (codes t) = false.

(** What [zValidator('form', ...)] hands to the schema: an object with,
    for each field of the form, its string, or the array of its strings
    when the field is given more than once.  (A file part would be a
    [File], for which [value] has no constructor.) *)
Definition form_value (v : value) : bool :=
  match v with
  | Str _ => true
  | Arr items => forallb (fun x => match x with Str _ => true | _ => false end) items
  | _ => false
  end.

Definition form (payload : value) : bool :=
  match payload with
  | Obj props => forallb (fun kv => form_value (snd kv)) props
  | _ => false
  end.


(* ================================================================= *)
(** ** Properties of the zod combinators *)

Lemma merged_ok v iss ab o :
  merged v iss ab = Ok o <-> ab = false /\ iss = [] /\ o = v.
Proof.
  unfold merged. destruct ab; [split; [discriminate | intros (H & _); discriminate] |].
  destruct iss; split.
  - intros H. injection H as <-. auto.
  - intros (_ & _ & ->). reflexivity.
  - discriminate.
  - intros (_ & H & _). discriminate.
Qed.

Lemma indexed_nil i l :
  (forall p, In p l -> issues_of p = []) -> z.indexed i l = [].
Proof.
  revert i. induction l as [|p l IH]; intros i H; simpl; [reflexivity|].
  rewrite (H p) by (left; reflexivity). simpl. apply IH.
  intros q Hq. apply H. right. exact Hq.
Qed.

(** An array of items that the item schema returns unchanged or aborts
    on is returned unchanged when no item aborts, and aborts otherwise. *)
Lemma array_accepts (s : schema) (ok : value -> bool) (iss0 : list issue) items :
  Forall (fun x => s x = if ok x then Ok x else Aborted iss0) items ->
  z.array s (Arr items)
  = if forallb ok items then Ok (Arr items)
    else Aborted (z.indexed O (map s items)).
Proof.
  intros H. unfold z.array.
  assert (Hout : forallb ok items = true -> map out_of (map s items) = items).
  { clear - H. induction H as [|x l Hx Hl IH]; simpl; [reflexivity|].
    intros Hb. apply andb_prop in Hb as [Hb1 Hb2].
    rewrite Hx, Hb1. simpl. f_equal. apply IH, Hb2. }
  assert (Hab : existsb aborted (map s items) = negb (forallb ok items)).
  { clear - H. induction H as [|x l Hx Hl IH]; simpl; [reflexivity|].
    rewrite Hx, IH. destruct (ok x); reflexivity. }
  rewrite Hab. destruct (forallb ok items) eqn:Hb; simpl.
  - rewrite Hout by reflexivity.
    rewrite indexed_nil; [reflexivity|].
    intros p Hp. apply in_map_iff in Hp as (x & <- & Hx).
    rewrite Forall_forall in H. rewrite (H x Hx).
    rewrite forallb_forall in Hb. rewrite (Hb x Hx). reflexivity.
  - reflexivity.
Qed.

(** The same for a record with string keys. *)
Lemma record_accepts (s : schema) (ok : value -> bool) (iss0 : list issue) props :
  Forall (fun kv => s (snd kv) = if ok (snd kv) then Ok (snd kv) else Aborted iss0) props ->
  exists iss,
    z.record z.string s (Obj props)
    = if forallb (fun kv => ok (snd kv)) props then Ok (Obj props) else Aborted iss.
Proof.
  intros H. unfold z.record.
  set (results := map _ props).
  set (issues := flat_map _ results).
  set (abort := fun '(_, (pk, px)) => aborted pk || aborted px).
  set (rebuilt := fun '(k, (pk, px)) => (match out_of pk with Str k' => k' | _ => k end, out_of px)).
  exists issues.
  assert (Hab : existsb abort results = negb (forallb (fun kv => ok (snd kv)) props)).
  { subst results abort. clear - H. induction H as [|[k x] l Hx Hl IH]; [reflexivity|].
    cbn [map existsb forallb snd]. cbn [snd] in Hx. rewrite IH, Hx.
    destruct (ok x); reflexivity. }
  rewrite Hab. destruct (forallb _ props) eqn:Hb; cbn [negb merged]; [|reflexivity].
  assert (Hiss : issues = []).
  { subst issues results. clear - H Hb.
    induction H as [|[k x] l Hx Hl IH]; [reflexivity|].
    cbn [map flat_map forallb snd] in *. apply andb_prop in Hb as [Hb1 Hb2].
    rewrite Hx, Hb1, (IH Hb2). reflexivity. }
  assert (Hout : map rebuilt results = props).
  { subst results rebuilt. clear - H Hb.
    induction H as [|[k x] l Hx Hl IH]; [reflexivity|].
    cbn [map forallb snd] in *. apply andb_prop in Hb as [Hb1 Hb2].
    rewrite Hx, Hb1, (IH Hb2). reflexivity. }
  rewrite Hiss, Hout. reflexivity.
Qed.

Lemma jsonValueSchema_unfold v :
  jsonValueSchema v
  = z.union [z.string; z.number; z.boolean; z.null;
             z.array jsonValueSchema;
             z.record z.string jsonValueSchema] v.
Proof. destruct v; reflexivity. Qed.

(** [jsonValueSchema] returns the values it takes unchanged and aborts on
    the others. *)
Lemma jsonValueSchema_accepts v :
  jsonValueSchema v
  = if accepted v then Ok v else Aborted [mkIssue invalid_union [] None].
Proof.
  induction v using value_induction.
  - reflexivity.
  - reflexivity.
  - reflexivity.
  - destruct n; reflexivity.
  - reflexivity.
  - reflexivity.
  - rewrite jsonValueSchema_unfold. unfold z.union. cbn [map].
    rewrite (array_accepts _ accepted _ H).
    cbn [accepted]. destruct (forallb accepted items); reflexivity.
  - rewrite jsonValueSchema_unfold. unfold z.union. cbn [map].
    destruct (record_accepts _ accepted _ H) as [iss ->].
    cbn [accepted]. destruct (forallb _ props); reflexivity.
Qed.

Lemma json_accepted v : json v = true -> accepted v = true.
Proof.
  induction v using value_induction; simpl; try congruence.
  - destruct n; simpl; congruence.
  - intros Hb. rewrite forallb_forall in *. rewrite Forall_forall in H.
    intros x Hx. apply H; [exact Hx | apply Hb, Hx].
  - intros Hb. rewrite forallb_forall in *. rewrite Forall_forall in H.
    intros x Hx. apply H; [exact Hx | apply Hb, Hx].
Qed.

(** *** Objects *)

Lemma safeParse_object sh v :
  safeParse (z.object sh) v
  = match v with
    | Obj _ =>
        match merged (Obj (field_values v (field_results sh v)))
                     (field_issues (field_results sh v))
                     (field_aborted (field_results sh v))
        with
        | Ok out => Valid out
        | Dirty _ iss | Aborted iss => Invalid iss
        end
    | _ => Invalid [mkIssue invalid_type [] None]
    end.
Proof. destruct v; reflexivity. Qed.

Lemma field_issues_in sh v k s i :
  In (k, s) sh ->
  In i (issues_of (s (get v k))) ->
  In (under (Key k) i) (field_issues (field_results sh v)).
Proof.
  intros Hin Hi. unfold field_issues. apply in_flat_map.
  exists (k, s (get v k)). split.
  - unfold field_results. apply in_map_iff. exists (k, s). split; [reflexivity | exact Hin].
  - apply in_map. exact Hi.
Qed.

(** A payload the object schema rejects because of a field carries the
    issues of that field, under the field's name. *)
Lemma object_rejects (sh : z.shape) v k s i :
  is_object v = true ->
  In (k, s) sh ->
  In i (issues_of (s (get v k))) ->
  exists iss, safeParse (z.object sh) v = Invalid iss /\ In (under (Key k) i) iss.
Proof.
  intros Hobj Hin Hi. rewrite safeParse_object.
  destruct v; try discriminate.
  pose proof (field_issues_in sh (Obj props) k s i Hin Hi) as Hmem.
  exists (field_issues (field_results sh (Obj props))). unfold merged.
  destruct (field_aborted _); [split; [reflexivity | exact Hmem]|].
  destruct (field_issues _); [destruct Hmem | split; [reflexivity | exact Hmem]].
Qed.

Lemma lookup_stripped v k (l : list (string * parsed)) :
  ~ In k (map fst l) -> lookup k (field_values v l) = None.
Proof.
  unfold field_values.
  induction l as [|[k' p] l IH]; intros Hn; [reflexivity|].
  cbn [flat_map]. simpl in Hn.
  assert (Hk : String.eqb k k' = false).
  { apply String.eqb_neq. intros ->. apply Hn. left. reflexivity. }
  destruct (defined (out_of p) || has_key v k'); cbn [app lookup].
  - rewrite Hk. apply IH. tauto.
  - apply IH. tauto.
Qed.

Lemma field_results_keys sh v : map fst (field_results sh v) = map fst sh.
Proof.
  unfold field_results. rewrite map_map. apply map_ext. intros [? ?]. reflexivity.
Qed.

Lemma get_field_values v sh k s :
  NoDup (map fst sh) ->
  In (k, s) sh ->
  get (Obj (field_values v (field_results sh v))) k = out_of (s (get v k)).
Proof.
  intros Hnd Hin.
  induction sh as [|[k' s'] sh IH]; [destruct Hin|].
  simpl in Hnd. inversion Hnd as [|? ? Hnot Hnd']; subst.
  unfold get at 1, field_values, field_results. cbn [map flat_map].
  fold (field_results sh v). fold (field_values v (field_results sh v)).
  destruct Hin as [Heq | Hin].
  - injection Heq as -> ->.
    destruct (defined (out_of (s (get v k))) || has_key v k) eqn:Hc; cbn [app lookup].
    + rewrite String.eqb_refl. reflexivity.
    + rewrite lookup_stripped by (rewrite field_results_keys; exact Hnot).
      apply orb_false_elim in Hc as [Hc _].
      destruct (out_of (s (get v k))); try discriminate. reflexivity.
  - assert (Hk : String.eqb k k' = false).
    { apply String.eqb_neq. intros ->. apply Hnot.
      apply in_map_iff. exists (k', s). split; [reflexivity | exact Hin]. }
    specialize (IH Hnd' Hin). unfold get at 1 in IH.
    destruct (defined (out_of (s' (get v k'))) || has_key v k'); cbn [app lookup].
    + rewrite Hk. exact IH.
    + exact IH.
Qed.

(** What a payload the object schema takes looks like: every field of
    the shape parsed without an issue, and the validated object holds, under
    every key of the shape, what the field's schema returned. *)
Lemma object_valid (sh : z.shape) v data :
  safeParse (z.object sh) v = Valid data ->
  is_object v = true /\
  data = Obj (field_values v (field_results sh v)) /\
  (forall k s, In (k, s) sh ->
     issues_of (s (get v k)) = [] /\ aborted (s (get v k)) = false) /\
  (NoDup (map fst sh) ->
   forall k s, In (k, s) sh -> get data k = out_of (s (get v k))).
Proof.
  rewrite safeParse_object. destruct v; try discriminate.
  destruct (merged _ _ _) eqn:Hm; try discriminate.
  intros H. injection H as <-.
  apply merged_ok in Hm as (Hab & Hiss & ->).
  split; [reflexivity|]. split; [reflexivity|]. split.
  - intros k s Hin. split.
    + destruct (issues_of (s (get (Obj props) k))) as [|i l] eqn:Hi; [reflexivity|].
      exfalso.
      assert (Hmem : In (under (Key k) i) (field_issues (field_results sh (Obj props)))).
      { apply (field_issues_in sh (Obj props) k s i Hin). rewrite Hi. left. reflexivity. }
      rewrite Hiss in Hmem. destruct Hmem.
    + destruct (aborted (s (get (Obj props) k))) eqn:Ha; [|reflexivity].
      exfalso.
      assert (Hex : field_aborted (field_results sh (Obj props)) = true).
      { apply existsb_exists. exists (k, s (get (Obj props) k)). split; [|exact Ha].
        apply in_map_iff. exists (k, s). split; [reflexivity | exact Hin]. }
      congruence.
  - intros Hnd k s Hin. apply get_field_values; assumption.
Qed.

(** A payload whose fields all parse without an issue is taken. *)
Lemma object_accepts (sh : z.shape) v :
  is_object v = true ->
  (forall k s, In (k, s) sh ->
     issues_of (s (get v k)) = [] /\ aborted (s (get v k)) = false) ->
  safeParse (z.object sh) v = Valid (Obj (field_values v (field_results sh v))).
Proof.
  intros Hobj H. rewrite safeParse_object. destruct v; try discriminate.
  assert (Hiss : field_issues (field_results sh (Obj props)) = []).
  { unfold field_issues, field_results. induction sh as [|[k s] sh IH]; [reflexivity|].
    cbn [map flat_map]. destruct (H k s (or_introl eq_refl)) as [-> _].
    cbn [map app]. apply IH. intros k' s' Hin. apply H. right. exact Hin. }
  assert (Hab : field_aborted (field_results sh (Obj props)) = false).
  { clear Hiss. unfold field_aborted, field_results.
    induction sh as [|[k s] sh IH]; [reflexivity|].
    cbn [map existsb]. destruct (H k s (or_introl eq_refl)) as [_ ->].
    cbn [orb]. apply IH. intros k' s' Hin. apply H. right. exact Hin. }
  rewrite Hiss, Hab. reflexivity.
Qed.

(** *** Fields *)

Lemma clean_ok v : clean (Ok v).
Proof. split; reflexivity. Qed.

Lemma takes_string : takes z.string (fun v => exists s, v = Str s).
Proof.
  intros v [_ Ha]. destruct v; try discriminate. split; [reflexivity | eauto].
Qed.

Lemma takes_number : takes z.number (fun v => exists n, v = Num n /\ isNaN n = false).
Proof.
  intros v [_ Ha]. destruct v; try discriminate. unfold z.number in *.
  destruct (isNaN n) eqn:Hn; try discriminate. split; [reflexivity | eauto].
Qed.

Lemma takes_check holds i s ok :
  takes s ok -> takes (z.check holds i s) (fun v => ok v /\ holds v = true).
Proof.
  intros Hs v [Hi Ha]. unfold z.check in *.
  destruct (s v) as [out | out iss | iss] eqn:Hsv.
  - destruct (Hs v) as [Hout Hok]; [rewrite Hsv; apply clean_ok|].
    rewrite Hsv in Hout. simpl in Hout. subst out.
    destruct (holds v) eqn:Hh; [auto | discriminate].
  - destruct (holds out) eqn:Hh.
    + simpl in Hi. subst iss.
      destruct (Hs v) as [Hout Hok]; [rewrite Hsv; split; reflexivity|].
      rewrite Hsv in Hout. simpl in Hout. subst out. auto.
    + simpl in Hi. destruct iss; discriminate.
  - discriminate.
Qed.

Lemma takes_optional s ok :
  takes s ok -> takes (z.optional s) (fun v => v = Undefined \/ ok v).
Proof.
  intros Hs v Hc. unfold z.optional in *.
  destruct v; try (destruct (Hs _ Hc); auto). auto.
Qed.

Lemma takes_nullable s ok :
  takes s ok -> takes (z.nullable s) (fun v => v = Null \/ ok v).
Proof.
  intros Hs v Hc. unfold z.nullable in *.
  destruct v; try (destruct (Hs _ Hc); auto). auto.
Qed.

Lemma takes_weaken s (ok ok' : value -> Prop) :
  takes s ok -> (forall v, ok v -> ok' v) -> takes s ok'.
Proof. intros Hs H v Hc. destruct (Hs v Hc). auto. Qed.

Lemma record_json v :
  z.record z.string jsonValueSchema v
  = match v with
    | Obj props =>
        if forallb (fun kv => accepted (snd kv)) props then Ok v
        else Aborted (issues_of (z.record z.string jsonValueSchema v))
    | _ => Aborted [mkIssue invalid_type [] None]
    end.
Proof.
  destruct v; try reflexivity.
  destruct (record_accepts jsonValueSchema accepted [mkIssue invalid_union [] None] (props := props))
    as [iss H].
  { apply Forall_forall. intros kv _. apply jsonValueSchema_accepts. }
  rewrite H. destruct (forallb _ props); reflexivity.
Qed.

Lemma takes_record_json :
  takes (z.record z.string jsonValueSchema)
        (fun v => exists props, v = Obj props /\ accepted v = true).
Proof.
  intros v [_ Ha]. rewrite record_json in *.
  destruct v; try discriminate. simpl.
  destruct (forallb _ props) eqn:Hb; try discriminate.
  split; [reflexivity | eauto].
Qed.

(** A field of a validated object that a schema taking [ok] guards. *)
Lemma valid_field (sh : z.shape) payload data k s ok :
  safeParse (z.object sh) payload = Valid data ->
  NoDup (map fst sh) ->
  In (k, s) sh ->
  takes s ok ->
  get data k = get payload k /\ ok (get payload k).
Proof.
  intros Hv Hnd Hin Hs.
  destruct (object_valid _ _ Hv) as (_ & _ & Hclean & Hget).
  rewrite (Hget Hnd k s Hin). apply Hs. apply Hclean, Hin.
Qed.

Arguments valid_field sh payload data k [s ok].

Lemma default_defined d s v : defined v = true -> z.default d s v = s v.
Proof. destruct v; try reflexivity. discriminate. Qed.

Lemma opt_trim_stringish v : stringish v -> opt_trim v = Returned (trimmed v).
Proof. intros [-> | [-> | [s ->]]]; reflexivity. Qed.

(* ================================================================= *)
(** ** Properties of the item schemas *)

Ltac in_shape := cbn; repeat (first [left; reflexivity | right]).

Section ItemSchemas.

Variable datetime_test : string -> bool.

Lemma createItemShape_keys :
  map fst (createItemShape datetime_test)
  = ["name"; "source"; "category"; "quantity"; "unit"; "usedQuantity";
     "productionDate"; "expiryDate"; "locationId"; "price"; "extraInfo"].
Proof. reflexivity. Qed.

Lemma createItemShape_NoDup : NoDup (map fst (createItemShape datetime_test)).
Proof.
  rewrite createItemShape_keys.
  repeat (constructor; [cbn; intuition discriminate|]). constructor.
Qed.

Lemma updateItemShape_eq :
  z.extend [] (z.partial (createItemShape datetime_test))
  = map (fun '(k, s) => (k, z.optional s)) (createItemShape datetime_test).
Proof. reflexivity. Qed.

Lemma updateItemShape_NoDup :
  NoDup (map fst (z.extend [] (z.partial (createItemShape datetime_test)))).
Proof.
  rewrite updateItemShape_eq, map_map.
  erewrite map_ext; [apply createItemShape_NoDup|]. intros [? ?]. reflexivity.
Qed.

Lemma updateItemShape_in k s :
  In (k, s) (createItemShape datetime_test) ->
  In (k, z.optional s) (z.extend [] (z.partial (createItemShape datetime_test))).
Proof.
  intros H. rewrite updateItemShape_eq. apply in_map_iff.
  exists (k, s). split; [reflexivity | exact H].
Qed.

Lemma text_field_takes k :
  In k text_fields ->
  exists s, In (k, s) (createItemShape datetime_test) /\ takes s stringish.
Proof.
  unfold stringish.
  intros [<- | [<- | [<- | [<- | [<- | [<- | [<- | []]]]]]]];
    eexists; (split; [in_shape|]);
    (eapply takes_weaken;
     [ apply takes_nullable, takes_optional;
       first [ apply takes_string | apply takes_check, takes_string ]
     | cbv beta; intros v H; intuition eauto ]).
Qed.

(** *** The create schema *)

Section Create.

Variables payload data : value.
Hypothesis valid : safeParse (createItemSchema datetime_test) payload = Valid data.

Lemma create_name :
  exists s, get payload "name" = Str s /\ get data "name" = Str s
            /\ (1 <= js_length s)%nat.
Proof.
  destruct (valid_field _ _ _ "name" valid createItemShape_NoDup
              ltac:(in_shape) (takes_check _ _ takes_string))
    as (Hd & (s & Hs) & Hmin).
  exists s. rewrite Hd, Hs in *. repeat split.
  apply Nat.leb_le. exact Hmin.
Qed.

Lemma create_text k :
  In k text_fields -> get data k = get payload k /\ stringish (get payload k).
Proof.
  intros Hk. destruct (text_field_takes Hk) as (s & Hin & Hs).
  exact (valid_field _ _ _ k valid createItemShape_NoDup Hin Hs).
Qed.

Lemma create_usedQuantity :
  get data "usedQuantity"
  = if defined (get payload "usedQuantity") then get payload "usedQuantity"
    else Str "0.0".
Proof.
  destruct (object_valid _ _ valid) as (_ & _ & Hclean & Hget).
  rewrite (Hget createItemShape_NoDup "usedQuantity" _ ltac:(in_shape)).
  specialize (Hclean "usedQuantity" _ ltac:(in_shape)).
  destruct (defined (get payload "usedQuantity")) eqn:Hd.
  - rewrite default_defined in * by exact Hd.
    apply (takes_nullable (takes_optional (takes_check _ _ takes_string))).
    exact Hclean.
  - destruct (get payload "usedQuantity"); try discriminate. reflexivity.
Qed.

Lemma create_locationId :
  get data "locationId" = get payload "locationId".
Proof.
  apply (valid_field _ _ _ "locationId" valid createItemShape_NoDup ltac:(in_shape)
           (takes_nullable (takes_optional
              (takes_check _ _ (takes_check _ _ takes_number))))).
Qed.

Lemma create_extraInfo :
  get data "extraInfo" = get payload "extraInfo"
  /\ (get payload "extraInfo" = Undefined
      \/ exists props, get payload "extraInfo" = Obj props
                       /\ accepted (Obj props) = true).
Proof.
  destruct (valid_field _ _ _ "extraInfo" valid createItemShape_NoDup ltac:(in_shape)
              (takes_optional takes_record_json)) as (Hd & H).
  split; [exact Hd|]. destruct H as [H | (props & H & Ha)]; [auto|].
  right. exists props. rewrite H in Ha. auto.
Qed.

End Create.

(** *** The update schema *)

Section Update.

Variables payload data : value.
Hypothesis valid : safeParse (updateItemSchema datetime_test) payload = Valid data.

Lemma update_name :
  get data "name" = get payload "name"
  /\ (get payload "name" = Undefined
      \/ exists s, get payload "name" = Str s /\ (1 <= js_length s)%nat).
Proof.
  destruct (valid_field _ _ _ "name" valid updateItemShape_NoDup
              (@updateItemShape_in "name" _ ltac:(in_shape))
              (takes_optional (takes_check _ _ takes_string)))
    as (Hd & H).
  split; [exact Hd|]. destruct H as [H | ((s & Hs) & Hmin)]; [auto|].
  right. exists s. rewrite Hs in *. split; [reflexivity|].
  apply Nat.leb_le. exact Hmin.
Qed.

Lemma update_text k :
  In k text_fields -> get data k = get payload k /\ stringish (get payload k).
Proof.
  intros Hk. destruct (text_field_takes Hk) as (s & Hin & Hs).
  destruct (valid_field _ _ _ k valid updateItemShape_NoDup
              (updateItemShape_in Hin) (takes_optional Hs)) as (Hd & H).
  split; [exact Hd|]. destruct H as [H | H]; [left; exact H | exact H].
Qed.

Lemma update_locationId :
  get data "locationId" = get payload "locationId".
Proof.
  apply (valid_field _ _ _ "locationId" valid updateItemShape_NoDup
           (@updateItemShape_in "locationId" _ ltac:(in_shape))
           (takes_optional (takes_nullable (takes_optional
              (takes_check _ _ (takes_check _ _ takes_number)))))).
Qed.

End Update.

End ItemSchemas.

(* ================================================================= *)
(** ** Properties of the handlers *)

Lemma create_data_returns data name :
  get data "name" = Str name ->
  stringish (get data "source") ->
  stringish (get data "unit") ->
  create_data data
  = Returned (Obj
      [ ("name", Str (trim name));
        ("source", or_else (trimmed (get data "source")) Null);
        ("quantity", if truthy (get data "quantity") then get data "quantity" else Null);
        ("unit", or_else (trimmed (get data "unit")) Null);
        ("usedQuantity", get data "usedQuantity");
        ("productionDate", dated (get data "productionDate"));
        ("expiryDate", dated (get data "expiryDate"));
        ("locationId", coalesce (get data "locationId") Undefined);
        ("price", if truthy (get data "price") then get data "price" else Null);
        ("extraInfo", get data "extraInfo") ]).
Proof.
  intros Hn Hs Hu. unfold create_data.
  rewrite Hn, (opt_trim_stringish Hs), (opt_trim_stringish Hu). reflexivity.
Qed.

Lemma if_defined_returned data k x u :
  if_defined data k (Returned x) u = Returned (when_defined data k x u).
Proof. unfold if_defined, when_defined. destruct (defined (get data k)); reflexivity. Qed.

Lemma update_data_returns data :
  stringish (get data "name") ->
  stringish (get data "source") ->
  stringish (get data "unit") ->
  update_data data = Returned (update_set data).
Proof.
  intros Hn Hs Hu. unfold update_data.
  rewrite (opt_trim_stringish Hn), (opt_trim_stringish Hs), (opt_trim_stringish Hu).
  cbn [bind ret outcome_monad].
  rewrite !if_defined_returned. reflexivity.
Qed.

Lemma when_defined_object data k x u :
  is_object u = true -> is_object (when_defined data k x u) = true.
Proof.
  unfold when_defined. destruct (defined (get data k)); [|auto].
  destruct u; try discriminate. reflexivity.
Qed.

Lemma lookup_assign k k' x props :
  lookup k' (assign k x props)
  = if String.eqb k' k then Some x else lookup k' props.
Proof.
  induction props as [|[k0 v0] props IH]; cbn [assign lookup].
  - reflexivity.
  - destruct (String.eqb_spec k k0) as [-> | Hk]; cbn [lookup].
    + destruct (String.eqb k' k0); reflexivity.
    + rewrite IH. destruct (String.eqb_spec k' k0) as [-> | Hk'].
      * destruct (String.eqb_spec k0 k); [congruence | reflexivity].
      * reflexivity.
Qed.

Lemma has_key_when_defined data k x u k' :
  is_object u = true ->
  has_key (when_defined data k x u) k'
  = (String.eqb k' k && defined (get data k)) || has_key u k'.
Proof.
  intros Ho. destruct u; try discriminate. unfold when_defined.
  destruct (defined (get data k)).
  - cbn [set has_key]. rewrite lookup_assign.
    destruct (String.eqb k' k); reflexivity.
  - rewrite andb_false_r. reflexivity.
Qed.

Lemma get_when_defined data k x u k' :
  is_object u = true ->
  get (when_defined data k x u) k'
  = if String.eqb k' k && defined (get data k) then x else get u k'.
Proof.
  intros Ho. destruct u; try discriminate. unfold when_defined.
  destruct (defined (get data k)).
  - cbn [set get]. rewrite lookup_assign.
    destruct (String.eqb k' k); reflexivity.
  - rewrite andb_false_r. reflexivity.
Qed.

Ltac written_objects := repeat apply when_defined_object; reflexivity.

(** The keys of the update set: the fields the handler writes that are
    defined in the validated payload. *)
Lemma has_key_update_set data k :
  has_key (update_set data) k
  = existsb (String.eqb k) updated_fields && defined (get data k).
Proof.
  unfold update_set.
  repeat (rewrite has_key_when_defined by written_objects).
  cbn [has_key lookup existsb updated_fields].
  repeat match goal with
         | |- context [String.eqb k ?c] =>
             destruct (String.eqb_spec k c) as [-> | ?];
             [cbn; destruct (defined _); reflexivity |]
         end.
  reflexivity.
Qed.

Section HandlerRuns.

Context {db : Type}.
Variable prisma : PrismaClient db.

Lemma get_handler_run w :
  get_handler prisma w
  = match item prisma findMany findMany_args (store w) with
    | (Returned allItems, s) =>
        (Returned (success 200 allItems),
         mkWorld s (trace w ++ [Persistence findMany findMany_args]))
    | (Thrown e, s) =>
        (Returned (failure 500 "获取物品列表失败"),
         mkWorld s (trace w ++ [Persistence findMany findMany_args;
                                ConsoleError "Error fetching items:" e]))
    end.
Proof.
  unfold get_handler, try_catch, await. cbn [bind M_monad].
  fold findMany_args.
  destruct (item prisma findMany findMany_args (store w)) as [[allItems | e] s].
  - reflexivity.
  - cbn. rewrite <- app_assoc. reflexivity.
Qed.

Lemma post_handler_run data d w :
  create_data data = Returned d ->
  post_handler prisma data w
  = match item prisma create (create_args d) (store w) with
    | (Returned newItem, s) =>
        (Returned (success 201 newItem),
         mkWorld s (trace w ++ [Persistence create (create_args d)]))
    | (Thrown e, s) =>
        (Returned (failure 500 "创建物品失败"),
         mkWorld s (trace w ++ [Persistence create (create_args d);
                                ConsoleError "Error creating item:" e]))
    end.
Proof.
  intros Hd. unfold post_handler, try_catch, await, lift. cbn [bind M_monad].
  rewrite Hd. fold (create_args d).
  destruct (item prisma create (create_args d) (store w)) as [[newItem | e] s].
  - reflexivity.
  - cbn. rewrite <- app_assoc. reflexivity.
Qed.

Lemma put_handler_invalid idParam data w :
  invalid_id idParam = true ->
  put_handler prisma idParam data w = (Returned (failure 400 "无效的物品 ID"), w).
Proof.
  unfold invalid_id, put_handler. intros ->. reflexivity.
Qed.

Lemma put_handler_run idParam data u w :
  invalid_id idParam = false ->
  update_data data = Returned u ->
  put_handler prisma idParam data w
  = match item prisma update (update_args (Number idParam) u) (store w) with
    | (Returned updatedItem, s) =>
        (Returned (success 200 updatedItem),
         mkWorld s (trace w ++ [Persistence update (update_args (Number idParam) u)]))
    | (Thrown e, s) =>
        if is_P2025 e then
          (Returned (failure 404 "物品未找到"),
           mkWorld s (trace w ++ [Persistence update (update_args (Number idParam) u)]))
        else
          (Returned (failure 500 "更新物品失败"),
           mkWorld s (trace w ++ [Persistence update (update_args (Number idParam) u);
                                  ConsoleError "Error updating item:" e]))
    end.
Proof.
  unfold invalid_id, put_handler. intros -> Hu.
  unfold try_catch, await, lift. cbn [bind M_monad]. rewrite Hu.
  fold (update_args (Number idParam) u).
  destruct (item prisma update (update_args (Number idParam) u) (store w))
    as [[updatedItem | e] s].
  - reflexivity.
  - destruct (is_P2025 e).
    + reflexivity.
    + cbn. rewrite <- app_assoc. reflexivity.
Qed.

Lemma delete_handler_invalid idParam w :
  invalid_id idParam = true ->
  delete_handler prisma idParam w = (Returned (failure 400 "无效的物品 ID"), w).
Proof.
  unfold invalid_id, delete_handler. intros ->. reflexivity.
Qed.

Lemma delete_handler_run idParam w :
  invalid_id idParam = false ->
  delete_handler prisma idParam w
  = match item prisma delete (delete_args (Number idParam)) (store w) with
    | (Returned _, s) =>
        (Returned (success 200 (Obj [("message", Str "物品已成功删除")])),
         mkWorld s (trace w ++ [Persistence delete (delete_args (Number idParam))]))
    | (Thrown e, s) =>
        if is_P2025 e then
          (Returned (failure 404 "物品未找到"),
           mkWorld s (trace w ++ [Persistence delete (delete_args (Number idParam))]))
        else
          (Returned (failure 500 "删除物品失败"),
           mkWorld s (trace w ++ [Persistence delete (delete_args (Number idParam));
                                  ConsoleError "Error deleting item:" e]))
    end.
Proof.
  unfold invalid_id, delete_handler. intros ->.
  unfold try_catch, await, lift. cbn [bind M_monad].
  fold (delete_args (Number idParam)).
  destruct (item prisma delete (delete_args (Number idParam)) (store w))
    as [[deleted | e] s].
  - reflexivity.
  - destruct (is_P2025 e).
    + reflexivity.
    + cbn. rewrite <- app_assoc. reflexivity.
Qed.

End HandlerRuns.

(** *** Objects with a property left out or written *)

Lemma lookup_omit k k' props :
  lookup k' (filter (fun kv => negb (String.eqb (fst kv) k)) props)
  = if String.eqb k' k then None else lookup k' props.
Proof.
  induction props as [|[k0 v0] props IH]; cbn [filter lookup fst].
  - destruct (String.eqb k' k); reflexivity.
  - destruct (String.eqb_spec k0 k) as [-> | Hk]; cbn [negb lookup].
    + rewrite IH. destruct (String.eqb k' k); reflexivity.
    + rewrite IH. destruct (String.eqb_spec k' k0) as [-> | Hk'].
      * destruct (String.eqb_spec k0 k); [congruence | reflexivity].
      * reflexivity.
Qed.

Lemma get_omit o k k' :
  get (omit o k) k' = if String.eqb k' k then Undefined else get o k'.
Proof.
  destruct o; cbn [omit get]; try (destruct (String.eqb k' k); reflexivity).
  rewrite lookup_omit. destruct (String.eqb k' k); reflexivity.
Qed.

Lemma omit_object o k : is_object (omit o k) = is_object o.
Proof. destruct o; reflexivity. Qed.

Lemma get_set_other o k x k' : k' <> k -> get (set o k x) k' = get o k'.
Proof.
  intros Hk. destruct o; try reflexivity. cbn [set get].
  rewrite lookup_assign. destruct (String.eqb_spec k' k); [contradiction | reflexivity].
Qed.


(** *** The decimal fields *)

Lemma decimal_issue n msg v :
  v <> Undefined -> v <> Null ->
  (forall s, v = Str s -> test (decimal_pattern n) s = false) ->
  exists i,
    In i (issues_of (z.nullable (z.optional (z.regex (decimal_pattern n) msg z.string)) v))
    /\ path i = []
    /\ (forall s, v = Str s -> i = mkIssue invalid_string [] (Some msg)).
Proof.
  intros Hu Hn Hs.
  destruct v; try contradiction;
    try (exists (mkIssue invalid_type [] None); split; [left; reflexivity|];
         split; [reflexivity | intros ? ?; discriminate]).
  exists (mkIssue invalid_string [] (Some msg)).
  cbn [z.nullable z.optional]. unfold z.regex, z.check. cbn [z.string].
  rewrite (Hs s eq_refl). split; [left; reflexivity|]. split; reflexivity.
Qed.

Lemma decimal_field_in_shape datetime_test k n msg :
  In (k, n, msg) decimal_fields ->
  exists s,
    In (k, s) (createItemShape datetime_test)
    /\ forall v, v <> Undefined ->
         s v = z.nullable (z.optional (z.regex (decimal_pattern n) msg z.string)) v.
Proof.
  intros [H | [H | [H | []]]]; injection H as <- <- <-;
    eexists; (split; [in_shape|]); intros v Hv; try reflexivity.
  apply default_defined. destruct v; try reflexivity. contradiction.
Qed.

(** *** The reference client *)

Lemma find_row_removed i l : find_row i (remove_row i l) = None.
Proof.
  induction l as [|[j row] l IH]; [reflexivity|].
  cbn [remove_row]. destruct (i =? j) eqn:Hij; [exact IH|].
  cbn [find_row]. rewrite Hij. exact IH.
Qed.

Lemma memory_delete id i t :
  integer_of (Num id) = Some i ->
  item memory delete (delete_args id) t
  = match find_row i (rows t) with
    | None => (Thrown not_found, t)
    | Some row => (Returned row, mkTable (remove_row i (rows t)) (next_id t))
    end.
Proof.
  intros Hi. cbn [item memory memory_item].
  change (get (get (delete_args id) "where") "id") with (Num id).
  rewrite Hi. reflexivity.
Qed.

Lemma memory_update id i u t :
  integer_of (Num id) = Some i ->
  item memory update (update_args id u) t
  = match find_row i (rows t) with
    | None => (Thrown not_found, t)
    | Some row =>
        (Returned (written u row),
         mkTable (replace_row i (written u row) (rows t)) (next_id t))
    end.
Proof.
  intros Hi. cbn [item memory memory_item].
  change (get (get (update_args id u) "where") "id") with (Num id).
  change (get (update_args id u) "data") with u.
  rewrite Hi. reflexivity.
Qed.


(** *** Further facts about fields and objects *)

Lemma get_set_same o k x : is_object o = true -> get (set o k x) k = x.
Proof.
  destruct o; try discriminate. intros _. cbn [set get].
  rewrite lookup_assign, String.eqb_refl. reflexivity.
Qed.

Lemma set_object o k x : is_object (set o k x) = is_object o.
Proof. destruct o; reflexivity. Qed.


Lemma takes_optional_default d s ok :
  takes s ok -> takes (z.optional (z.default d s)) (fun v => v = Undefined \/ ok v).
Proof.
  intros Hs v Hc. destruct v; [auto | ..]; destruct (Hs _ Hc); auto.
Qed.

Lemma get_update_set_null data k :
  In k updated_fields -> get data k = Null -> get (update_set data) k = Null.
Proof.
  intros Hk Hn. unfold update_set.
  repeat (rewrite get_when_defined by written_objects).
  cbn in Hk.
  repeat (destruct Hk as [<- | Hk];
          [cbn -[get defined trimmed or_else coalesce dated];
           rewrite Hn; reflexivity |]).
  destruct Hk.
Qed.

(** Two payloads an object schema takes, equal at a key, give validated
    objects equal at that key. *)
Lemma valid_agree (sh : z.shape) p1 d1 p2 d2 k :
  safeParse (z.object sh) p1 = Valid d1 ->
  safeParse (z.object sh) p2 = Valid d2 ->
  NoDup (map fst sh) ->
  In k (map fst sh) ->
  get p1 k = get p2 k ->
  get d1 k = get d2 k.
Proof.
  intros H1 H2 Hnd Hk Heq.
  apply in_map_iff in Hk as ([k' s] & Hfst & Hin). cbn in Hfst. subst k'.
  destruct (object_valid _ _ H1) as (_ & _ & _ & Hg1).
  destruct (object_valid _ _ H2) as (_ & _ & _ & Hg2).
  rewrite (Hg1 Hnd k s Hin), (Hg2 Hnd k s Hin), Heq. reflexivity.
Qed.

(* ================================================================= *)
(** ** Properties of the routes *)

Lemma calls_app t t' : calls (t ++ t') = (calls t ++ calls t')%list.
Proof. apply flat_map_app. Qed.

Lemma envelope_success status data : envelope (success status data).
Proof. left. eauto. Qed.

Lemma envelope_failure status message : envelope (failure status message).
Proof. right. eauto. Qed.

Section RouteRuns.

Context {db : Type}.
Variable prisma : PrismaClient db.
Variable datetime_test : string -> bool.

Lemma items_get_run w :
  items_get prisma w
  = match item prisma findMany findMany_args (store w) with
    | (Returned allItems, s) =>
        (Returned (Handled (success 200 allItems)),
         mkWorld s (trace w ++ [Persistence findMany findMany_args]))
    | (Thrown e, s) =>
        (Returned (Handled (failure 500 "获取物品列表失败")),
         mkWorld s (trace w ++ [Persistence findMany findMany_args;
                                ConsoleError "Error fetching items:" e]))
    end.
Proof.
  unfold items_get. cbn [bind M_monad]. rewrite get_handler_run.
  destruct (item prisma findMany findMany_args (store w)) as [[? | ?] ?]; reflexivity.
Qed.

Lemma items_post_rejected payload issues w :
  safeParse (createItemSchema datetime_test) payload = Invalid issues ->
  items_post prisma datetime_test payload w = (Returned (Rejected issues), w).
Proof. unfold items_post, zValidator. intros ->. reflexivity. Qed.

Lemma items_put_rejected idParam payload issues w :
  safeParse (updateItemSchema datetime_test) payload = Invalid issues ->
  items_put prisma datetime_test idParam payload w = (Returned (Rejected issues), w).
Proof. unfold items_put, zValidator. intros ->. reflexivity. Qed.

Lemma create_data_valid payload data :
  safeParse (createItemSchema datetime_test) payload = Valid data ->
  exists name,
    get payload "name" = Str name /\ (1 <= js_length name)%nat
    /\ create_data data
       = Returned (Obj
           [ ("name", Str (trim name));
             ("source", or_else (trimmed (get data "source")) Null);
             ("quantity", if truthy (get data "quantity") then get data "quantity" else Null);
             ("unit", or_else (trimmed (get data "unit")) Null);
             ("usedQuantity", get data "usedQuantity");
             ("productionDate", dated (get data "productionDate"));
             ("expiryDate", dated (get data "expiryDate"));
             ("locationId", coalesce (get data "locationId") Undefined);
             ("price", if truthy (get data "price") then get data "price" else Null);
             ("extraInfo", get data "extraInfo") ]).
Proof.
  intros Hv. destruct (create_name _ _ Hv) as (name & Hp & Hd & Hlen).
  exists name. split; [exact Hp|]. split; [exact Hlen|].
  apply create_data_returns.
  - exact Hd.
  - destruct (@create_text _ _ _ Hv "source") as [-> H]; [in_shape | exact H].
  - destruct (@create_text _ _ _ Hv "unit") as [-> H]; [in_shape | exact H].
Qed.

Lemma update_data_valid payload data :
  safeParse (updateItemSchema datetime_test) payload = Valid data ->
  update_data data = Returned (update_set data).
Proof.
  intros Hv. apply update_data_returns.
  - destruct (update_name _ _ Hv) as [-> [H | (s & H & _)]]; rewrite H; red; eauto.
  - destruct (@update_text _ _ _ Hv "source") as [-> H]; [in_shape | exact H].
  - destruct (@update_text _ _ _ Hv "unit") as [-> H]; [in_shape | exact H].
Qed.

Lemma items_post_run payload data d w :
  safeParse (createItemSchema datetime_test) payload = Valid data ->
  create_data data = Returned d ->
  items_post prisma datetime_test payload w
  = match item prisma create (create_args d) (store w) with
    | (Returned newItem, s) =>
        (Returned (Handled (success 201 newItem)),
         mkWorld s (trace w ++ [Persistence create (create_args d)]))
    | (Thrown e, s) =>
        (Returned (Handled (failure 500 "创建物品失败")),
         mkWorld s (trace w ++ [Persistence create (create_args d);
                                ConsoleError "Error creating item:" e]))
    end.
Proof.
  intros Hv Hd. unfold items_post, zValidator. rewrite Hv.
  cbn [bind M_monad]. rewrite (post_handler_run _ _ _ Hd).
  destruct (item prisma create (create_args d) (store w)) as [[? | ?] ?]; reflexivity.
Qed.

Lemma items_put_invalid idParam payload data w :
  safeParse (updateItemSchema datetime_test) payload = Valid data ->
  invalid_id idParam = true ->
  items_put prisma datetime_test idParam payload w
  = (Returned (Handled (failure 400 "无效的物品 ID")), w).
Proof.
  intros Hv Hid. unfold items_put, zValidator. rewrite Hv.
  cbn [bind M_monad]. rewrite put_handler_invalid by exact Hid. reflexivity.
Qed.

Lemma items_put_run idParam payload data w :
  safeParse (updateItemSchema datetime_test) payload = Valid data ->
  invalid_id idParam = false ->
  items_put prisma datetime_test idParam payload w
  = let args := update_args (Number idParam) (update_set data) in
    match item prisma update args (store w) with
    | (Returned updatedItem, s) =>
        (Returned (Handled (success 200 updatedItem)),
         mkWorld s (trace w ++ [Persistence update args]))
    | (Thrown e, s) =>
        if is_P2025 e then
          (Returned (Handled (failure 404 "物品未找到")),
           mkWorld s (trace w ++ [Persistence update args]))
        else
          (Returned (Handled (failure 500 "更新物品失败")),
           mkWorld s (trace w ++ [Persistence update args;
                                  ConsoleError "Error updating item:" e]))
    end.
Proof.
  intros Hv Hid. unfold items_put, zValidator. rewrite Hv.
  cbn [bind M_monad].
  rewrite (put_handler_run _ _ _ _ Hid (@update_data_valid _ _ Hv)). cbv zeta.
  destruct (item prisma update _ (store w)) as [[? | e] ?]; [reflexivity|].
  destruct (is_P2025 e); reflexivity.
Qed.

Lemma items_delete_invalid idParam w :
  invalid_id idParam = true ->
  items_delete prisma idParam w = (Returned (Handled (failure 400 "无效的物品 ID")), w).
Proof.
  intros Hid. unfold items_delete. cbn [bind M_monad].
  rewrite delete_handler_invalid by exact Hid. reflexivity.
Qed.

Lemma items_delete_run idParam w :
  invalid_id idParam = false ->
  items_delete prisma idParam w
  = let args := delete_args (Number idParam) in
    match item prisma delete args (store w) with
    | (Returned _, s) =>
        (Returned (Handled (success 200 (Obj [("message", Str "物品已成功删除")]))),
         mkWorld s (trace w ++ [Persistence delete args]))
    | (Thrown e, s) =>
        if is_P2025 e then
          (Returned (Handled (failure 404 "物品未找到")),
           mkWorld s (trace w ++ [Persistence delete args]))
        else
          (Returned (Handled (failure 500 "删除物品失败")),
           mkWorld s (trace w ++ [Persistence delete args;
                                  ConsoleError "Error deleting item:" e]))
    end.
Proof.
  intros Hid. unfold items_delete. cbn [bind M_monad].
  rewrite (delete_handler_run _ _ _ Hid). cbv zeta.
  destruct (item prisma delete _ (store w)) as [[? | e] ?]; [reflexivity|].
  destruct (is_P2025 e); reflexivity.
Qed.

End RouteRuns.

(** *** The persistence calls of the routes *)

Section RouteCalls.

Context {db : Type}.
Variable prisma : PrismaClient db.
Variable datetime_test : string -> bool.

(** The one persistence call of a create that passes validation. *)
Lemma items_post_calls payload data w :
  safeParse (createItemSchema datetime_test) payload = Valid data ->
  exists name d,
    get payload "name" = Str name
    /\ create_data data = Returned d
    /\ get d "name" = Str (trim name)
    /\ get d "usedQuantity" = get data "usedQuantity"
    /\ get d "locationId" = coalesce (get data "locationId") Undefined
    /\ get d "extraInfo" = get data "extraInfo"
    /\ calls (trace (snd (items_post prisma datetime_test payload w)))
       = (calls (trace w) ++ [(create, create_args d)])%list.
Proof.
  intros Hv. edestruct create_data_valid as (name & Hn & _ & Hd); [exact Hv|].
  eexists name, _. split; [exact Hn|]. split; [exact Hd|].
  repeat (split; [reflexivity|]).
  erewrite items_post_run by eassumption.
  destruct (item prisma create _ (store w)) as [[? | ?] ?];
    cbn [snd trace]; rewrite calls_app; reflexivity.
Qed.

(** Replacing [extraInfo] in a payload the create schema takes. *)
Lemma create_with_extraInfo payload data v :
  safeParse (createItemSchema datetime_test) payload = Valid data ->
  issues_of (z.optional (z.record z.string jsonValueSchema) v) = [] ->
  aborted (z.optional (z.record z.string jsonValueSchema) v) = false ->
  exists data',
    safeParse (createItemSchema datetime_test) (set payload "extraInfo" v) = Valid data'.
Proof.
  intros Hv Hi Ha.
  destruct (object_valid _ _ Hv) as (Hobj & _ & Hclean & _).
  eexists. apply object_accepts.
  - rewrite set_object. exact Hobj.
  - intros k s Hin.
    assert (Hcases : (k = "extraInfo" /\ s = z.optional (z.record z.string jsonValueSchema))
                     \/ (k <> "extraInfo" /\ In (k, s) (createItemShape datetime_test))).
    { pose proof Hin as Hin'. cbn in Hin.
      repeat (destruct Hin as [Hin | Hin];
              [injection Hin as <- <-; first [left; split; reflexivity
                                             | right; split; [discriminate | exact Hin']]|]).
      destruct Hin. }
    destruct Hcases as [[-> ->] | [Hne Hin']].
    + rewrite get_set_same by exact Hobj. auto.
    + rewrite get_set_other by exact Hne. apply Hclean, Hin'.
Qed.

(** The update schema returns every field as it was given: no default
    is filled in. *)
Lemma update_fields_unchanged payload data k :
  safeParse (updateItemSchema datetime_test) payload = Valid data ->
  In k item_fields -> get data k = get payload k.
Proof.
  intros Hv Hk.
  assert (Htext : In k text_fields -> get data k = get payload k).
  { intros H. apply (@update_text _ _ _ Hv k H). }
  cbn in Hk.
  repeat (destruct Hk as [<- | Hk]; [try (apply Htext; solve [in_shape]) |]);
    try destruct Hk.
  - apply (@update_name _ _ _ Hv).
  - apply (valid_field _ _ _ "usedQuantity" Hv (updateItemShape_NoDup _)
             (@updateItemShape_in _ "usedQuantity" _ ltac:(in_shape))
             (takes_optional_default _
                (takes_nullable (takes_optional (takes_check _ _ takes_string))))).
  - apply (@update_locationId _ _ _ Hv).
  - apply (valid_field _ _ _ "extraInfo" Hv (updateItemShape_NoDup _)
             (@updateItemShape_in _ "extraInfo" _ ltac:(in_shape))
             (takes_optional (takes_optional takes_record_json))).
Qed.

Lemma items_put_calls idParam payload data w :
  safeParse (updateItemSchema datetime_test) payload = Valid data ->
  invalid_id idParam = false ->
  calls (trace (snd (items_put prisma datetime_test idParam payload w)))
  = (calls (trace w)
     ++ [(update, update_args (Number idParam) (update_set data))])%list.
Proof.
  intros Hv Hid. erewrite items_put_run by eassumption. cbv zeta.
  destruct (item prisma update _ (store w)) as [[? | e] ?];
    [| destruct (is_P2025 e)];
    cbn [snd trace]; rewrite calls_app; reflexivity.
Qed.

(** Leaving out a field that was null or undefined in a payload the
    create schema takes. *)
Lemma create_without_locationId payload data :
  safeParse (createItemSchema datetime_test) payload = Valid data ->
  exists data',
    safeParse (createItemSchema datetime_test) (omit payload "locationId") = Valid data'.
Proof.
  intros Hv.
  destruct (object_valid _ _ Hv) as (Hobj & _ & Hclean & _).
  eexists. apply object_accepts.
  - rewrite omit_object. exact Hobj.
  - intros k s Hin. rewrite get_omit.
    destruct (String.eqb_spec k "locationId") as [-> | Hne]; [|apply Hclean, Hin].
    cbn in Hin.
    repeat (destruct Hin as [Hin | Hin];
            [first [discriminate Hin
                   | injection Hin as <-; split; reflexivity] |]).
    destruct Hin.
Qed.

Lemma create_data_agree p1 d1 p2 d2 :
  safeParse (createItemSchema datetime_test) p1 = Valid d1 ->
  safeParse (createItemSchema datetime_test) p2 = Valid d2 ->
  (forall k, In k item_fields -> k <> "locationId" -> get p1 k = get p2 k) ->
  coalesce (get p1 "locationId") Undefined = coalesce (get p2 "locationId") Undefined ->
  create_data d1 = create_data d2.
Proof.
  intros H1 H2 Hagree Hloc.
  assert (Hd : forall k, In k item_fields -> k <> "locationId" -> get d1 k = get d2 k).
  { intros k Hk Hne.
    eapply valid_agree;
      [exact H1 | exact H2 | apply createItemShape_NoDup | | auto].
    rewrite createItemShape_keys. exact Hk. }
  destruct (@create_data_valid _ _ _ H1) as (n1 & Hn1 & _ & ->).
  destruct (@create_data_valid _ _ _ H2) as (n2 & Hn2 & _ & ->).
  assert (Hn : n1 = n2).
  { assert (H : Str n1 = Str n2)
      by (rewrite <- Hn1, <- Hn2; apply Hagree; [in_shape | discriminate]).
    injection H as ->. reflexivity. }
  rewrite (@create_locationId _ _ _ H1), (@create_locationId _ _ _ H2), Hloc, Hn.
  rewrite !(Hd "source"), !(Hd "quantity"), !(Hd "unit"), !(Hd "usedQuantity"),
    !(Hd "productionDate"), !(Hd "expiryDate"), !(Hd "price"), !(Hd "extraInfo");
    solve [reflexivity | in_shape | discriminate].
Qed.

End RouteCalls.

(* ================================================================= *)
(** ** The language of the patterns *)

Lemma matches_eps_inv l : matches Eps l -> l = [].
Proof. intros H. inversion H. reflexivity. Qed.

Lemma matches_range_inv lo hi l :
  matches (Range lo hi) l ->
  exists a, l = [a] /\ (lo <=? a)%N && (a <=? hi)%N = true.
Proof. intros H. inversion H; subst. eauto. Qed.

Lemma matches_seq_inv r1 r2 l :
  matches (Seq r1 r2) l ->
  exists l1 l2, l = (l1 ++ l2)%list /\ matches r1 l1 /\ matches r2 l2.
Proof. intros H. inversion H; subst. eauto. Qed.

Lemma matches_alt_inv r1 r2 l :
  matches (Alt r1 r2) l -> matches r1 l \/ matches r2 l.
Proof. intros H. inversion H; subst; auto. Qed.

Lemma nullable_matches r : nullable r = true <-> matches r [].
Proof.
  induction r; cbn [nullable]; split; intros H; try discriminate;
    try solve [constructor].
  - inversion H.
  - inversion H.
  - apply andb_prop in H as [H1 H2].
    change (@nil N) with (@nil N ++ [])%list.
    constructor; [apply IHr1 | apply IHr2]; assumption.
  - apply matches_seq_inv in H as (l1 & l2 & Heq & H1 & H2).
    symmetry in Heq. apply app_eq_nil in Heq as [-> ->].
    apply andb_true_intro. split; [apply IHr1 | apply IHr2]; assumption.
  - apply orb_prop in H as [H | H];
      [apply matches_alt_l, IHr1 | apply matches_alt_r, IHr2]; exact H.
  - apply orb_true_intro.
    apply matches_alt_inv in H as [H | H]; [left; apply IHr1 | right; apply IHr2]; exact H.
Qed.

Lemma matches_star_cons r a l :
  matches (Star r) (a :: l) ->
  exists l1 l2, l = (l1 ++ l2)%list /\ matches r (a :: l1) /\ matches (Star r) l2.
Proof.
  intros H. remember (Star r) as sr eqn:Hsr. remember (a :: l) as al eqn:Hal.
  revert a l Hal.
  induction H as [| | | | | |r' l1 l2 H1 _ H2 IH2]; try discriminate.
  injection Hsr as ->. intros a l Hal.
  destruct l1 as [|b l1].
  - cbn in Hal. apply (IH2 eq_refl a l Hal).
  - cbn in Hal. injection Hal as -> <-. exists l1, l2. auto.
Qed.

Lemma deriv_matches a r l : matches (deriv a r) l <-> matches r (a :: l).
Proof.
  revert l. induction r; intros l; cbn [deriv].
  - split; intros H; inversion H.
  - split; intros H; inversion H.
  - destruct ((lo <=? a)%N && (a <=? hi)%N) eqn:Hr; split; intros H.
    + apply matches_eps_inv in H. subst. constructor. exact Hr.
    + apply matches_range_inv in H as (b & Heq & _). injection Heq as _ ->. constructor.
    + inversion H.
    + apply matches_range_inv in H as (b & Heq & Hb). injection Heq as <- _. congruence.
  - assert (Hseq : forall l, matches (Seq (deriv a r1) r2) l ->
                             matches (Seq r1 r2) (a :: l)).
    { intros l0 H. apply matches_seq_inv in H as (l1 & l2 & -> & H1 & H2).
      change (a :: l1 ++ l2)%list with ((a :: l1) ++ l2)%list.
      constructor; [apply IHr1, H1 | exact H2]. }
    assert (Hinv : forall l, matches (Seq r1 r2) (a :: l) ->
                             matches (Seq (deriv a r1) r2) l
                             \/ (nullable r1 = true /\ matches (deriv a r2) l)).
    { intros l0 H. apply matches_seq_inv in H as (l1 & l2 & Heq & H1 & H2).
      destruct l1 as [|b l1].
      - cbn in Heq. subst l2. right.
        split; [apply nullable_matches, H1 | apply IHr2, H2].
      - cbn in Heq. injection Heq as <- ->. left.
        constructor; [apply IHr1, H1 | exact H2]. }
    destruct (nullable r1) eqn:Hn; split; intros H.
    + apply matches_alt_inv in H as [H | H]; [apply Hseq, H|].
      change (a :: l) with ([] ++ a :: l)%list.
      constructor; [apply nullable_matches, Hn | apply IHr2, H].
    + destruct (Hinv l H) as [H' | [_ H']];
        [apply matches_alt_l | apply matches_alt_r]; exact H'.
    + apply Hseq, H.
    + destruct (Hinv l H) as [H' | [H' _]]; [exact H' | discriminate].
  - split; intros H; apply matches_alt_inv in H as [H | H];
      solve [apply matches_alt_l, IHr1; assumption
            | apply matches_alt_r, IHr2; assumption].
  - split; intros H.
    + apply matches_seq_inv in H as (l1 & l2 & -> & H1 & H2).
      change (a :: l1 ++ l2)%list with ((a :: l1) ++ l2)%list.
      constructor; [apply IHr, H1 | exact H2].
    + apply matches_star_cons in H as (l1 & l2 & -> & H1 & H2).
      constructor; [apply IHr, H1 | exact H2].
Qed.

(** The matcher decides the language. *)
Lemma accepts_matches r l : accepts r l = true <-> matches r l.
Proof.
  revert r. induction l as [|a l IH]; intros r; cbn [accepts].
  - apply nullable_matches.
  - rewrite IH. apply deriv_matches.
Qed.


Lemma matches_digit l :
  matches digit l <-> exists a, l = [a] /\ is_digit a = true.
Proof.
  split.
  - intros H. apply matches_range_inv in H. exact H.
  - intros (a & -> & Ha). constructor. exact Ha.
Qed.

Lemma matches_star_digit l :
  matches (Star digit) l <-> forallb is_digit l = true.
Proof.
  split.
  - intros H. remember (Star digit) as sr eqn:Hsr.
    induction H as [| | | | | |r l1 l2 H1 _ H2 IH2]; try discriminate.
    + reflexivity.
    + injection Hsr as ->. apply matches_digit in H1 as (a & -> & Ha).
      cbn. rewrite Ha. apply IH2. reflexivity.
  - induction l as [|a l IH]; intros H; [constructor|].
    cbn in H. apply andb_prop in H as [Ha Hl].
    change (a :: l) with ([a] ++ l)%list.
    constructor; [apply matches_digit; eauto | apply IH, Hl].
Qed.

Lemma matches_upto_digit n l :
  matches (upto n digit) l
  <-> forallb is_digit l = true /\ (length l <= n)%nat.
Proof.
  revert l. induction n as [|n IH]; intros l; cbn [upto]; split.
  - intros H. apply matches_eps_inv in H. subst. split; [reflexivity | cbn; lia].
  - intros [_ Hlen]. destruct l; [constructor | cbn in Hlen; lia].
  - intros H. apply matches_alt_inv in H as [H | H].
    + apply matches_eps_inv in H. subst. split; [reflexivity | cbn; lia].
    + apply matches_seq_inv in H as (l1 & l2 & -> & H1 & H2).
      apply matches_digit in H1 as (a & -> & Ha).
      apply IH in H2 as [Hd Hlen]. cbn. rewrite Ha. split; [exact Hd | lia].
  - intros [Hd Hlen]. destruct l as [|a l]; [apply matches_alt_l; constructor|].
    cbn in Hd, Hlen. apply andb_prop in Hd as [Ha Hl].
    apply matches_alt_r. change (a :: l) with ([a] ++ l)%list.
    constructor; [apply matches_digit; eauto | apply IH; split; [exact Hl | lia]].
Qed.

Lemma matches_between_digit n l :
  (1 <= n)%nat ->
  matches (between 1 n digit) l
  <-> forallb is_digit l = true /\ (1 <= length l <= n)%nat.
Proof.
  intros Hn. change (between 1 n digit) with (Seq digit (upto (pred n) digit)). split.
  - intros H. apply matches_seq_inv in H as (l1 & l2 & -> & H1 & H2).
    apply matches_digit in H1 as (a & -> & Ha).
    apply matches_upto_digit in H2 as [Hd Hlen]. cbn. rewrite Ha. split; [exact Hd | lia].
  - intros [Hd Hlen]. destruct l as [|a l]; [cbn in Hlen; lia|].
    cbn in Hd, Hlen. apply andb_prop in Hd as [Ha Hl].
    change (a :: l) with ([a] ++ l)%list.
    constructor; [apply matches_digit; eauto|].
    apply matches_upto_digit. split; [exact Hl | lia].
Qed.

(** The strings of the decimal pattern: digits, then nothing or a point
    and between one and [n] digits. *)
Lemma matches_decimal_pattern n l :
  (1 <= n)%nat ->
  matches (decimal_pattern n) l <-> decimal_shape n l.
Proof.
  intros Hn. unfold decimal_pattern, decimal_shape, plus, opt, chr. split.
  - intros H. apply matches_seq_inv in H as (whole & fraction & -> & Hw & Hf).
    exists whole, fraction. split; [reflexivity|].
    apply matches_seq_inv in Hw as (l1 & l2 & -> & H1 & H2).
    apply matches_digit in H1 as (a & -> & Ha).
    apply matches_star_digit in H2.
    split; [discriminate|]. split; [cbn; rewrite Ha; exact H2|].
    apply matches_alt_inv in Hf as [Hf | Hf].
    + left. apply matches_eps_inv, Hf.
    + right. apply matches_seq_inv in Hf as (p & ds & -> & Hp & Hds).
      apply matches_range_inv in Hp as (c & -> & Hc).
      assert (c = 46%N) by (apply andb_prop in Hc as [H1 H3];
                            apply N.leb_le in H1, H3; lia).
      subst c. exists ds. split; [reflexivity|].
      apply matches_between_digit; assumption.
  - intros (whole & fraction & -> & Hne & Hw & Hf).
    constructor.
    + destruct whole as [|a whole]; [contradiction|].
      cbn in Hw. apply andb_prop in Hw as [Ha Hw].
      change (a :: whole) with ([a] ++ whole)%list.
      constructor; [apply matches_digit; eauto | apply matches_star_digit, Hw].
    + destruct Hf as [-> | (ds & -> & Hd & Hlen)].
      * apply matches_alt_l. constructor.
      * apply matches_alt_r. change (46%N :: ds) with ([46%N] ++ ds)%list.
        constructor; [constructor; reflexivity|].
        apply matches_between_digit; auto.
Qed.


(* ================================================================= *)
(** ** Trimming *)

Section Strip.

Variable w1 : N -> bool.
Variable w2 : N -> N -> bool.
Variable w3 : N -> N -> N -> bool.

Lemma strip_unchanged l : starts_ws w1 w2 w3 l = false -> strip w1 w2 w3 l = l.
Proof.
  destruct l as [|a [|b [|c r]]]; cbn [starts_ws strip]; intros H;
    repeat (apply orb_false_elim in H as [? H]);
    repeat match goal with Hx : _ = false |- _ => rewrite Hx; clear Hx end;
    try rewrite H; reflexivity.
Qed.

(** What [strip] returns is a suffix of its argument that starts with no
    white space. *)
Lemma strip_spec l :
  starts_ws w1 w2 w3 (strip w1 w2 w3 l) = false
  /\ exists p, l = (p ++ strip w1 w2 w3 l)%list.
Proof.
  remember (length l) as n eqn:Hn. revert l Hn.
  induction n as [n IH] using (well_founded_induction Wf_nat.lt_wf).
  intros l Hn. subst n.
  assert (Hrec : forall p r, l = (p ++ r)%list -> p <> [] ->
                 starts_ws w1 w2 w3 (strip w1 w2 w3 r) = false
                 /\ exists q, l = (q ++ strip w1 w2 w3 r)%list).
  { intros p r -> Hp.
    destruct (IH (length r)) with (l := r) as [H1 [q Hq]]; [|reflexivity|].
    - rewrite length_app. destruct p; [contradiction | cbn; lia].
    - split; [exact H1|]. exists (p ++ q)%list. rewrite <- app_assoc, <- Hq. reflexivity. }
  destruct l as [|a r1]; [split; [reflexivity | exists []; reflexivity]|].
  cbn [strip]. destruct (w1 a) eqn:H1.
  { apply (Hrec [a]); [reflexivity | discriminate]. }
  destruct r1 as [|b r2].
  { split; [cbn; rewrite H1; reflexivity | exists []; reflexivity]. }
  destruct (w2 a b) eqn:H2.
  { apply (Hrec [a; b]); [reflexivity | discriminate]. }
  destruct r2 as [|c r3].
  { split; [cbn; rewrite H1, H2; reflexivity | exists []; reflexivity]. }
  destruct (w3 a b c) eqn:H3.
  { apply (Hrec [a; b; c]); [reflexivity | discriminate]. }
  split; [cbn; rewrite H1, H2, H3; reflexivity | exists []; reflexivity].
Qed.

Lemma strip_idempotent l :
  strip w1 w2 w3 (strip w1 w2 w3 l) = strip w1 w2 w3 l.
Proof. apply strip_unchanged, strip_spec. Qed.

Lemma starts_ws_prefix p q :
  starts_ws w1 w2 w3 (p ++ q) = false -> starts_ws w1 w2 w3 p = false.
Proof.
  destruct p as [|a [|b [|c r]]]; cbn [starts_ws app]; intros H; try reflexivity.
  - apply orb_false_elim in H as [-> _]. reflexivity.
  - apply orb_false_elim in H as [-> H]. apply orb_false_elim in H as [-> _]. reflexivity.
  - exact H.
Qed.

End Strip.

Lemma trim_codes_idempotent l : trim_codes (trim_codes l) = trim_codes l.
Proof.
  unfold trim_codes, trimStart_codes, trimEnd_codes.
  set (v2 := fun a b => ws2 b a). set (v3 := fun a b c => ws3 c b a).
  set (m := strip ws1 ws2 ws3 l).
  destruct (strip_spec ws1 ws2 ws3 l) as [Hm _]. fold m in Hm.
  destruct (strip_spec ws1 v2 v3 (rev m)) as [_ [p Hp]].
  assert (Hstart : strip ws1 ws2 ws3 (rev (strip ws1 v2 v3 (rev m)))
                   = rev (strip ws1 v2 v3 (rev m))).
  { apply strip_unchanged. apply starts_ws_prefix with (q := rev p).
    rewrite <- rev_app_distr, <- Hp, rev_involutive. exact Hm. }
  rewrite Hstart, rev_involutive, strip_idempotent. reflexivity.
Qed.

Lemma trim_codes_suffix_prefix l :
  exists p q, l = (p ++ trim_codes l ++ q)%list.
Proof.
  unfold trim_codes, trimStart_codes, trimEnd_codes.
  destruct (strip_spec ws1 ws2 ws3 l) as [_ [p Hp]].
  set (m := strip ws1 ws2 ws3 l) in *.
  destruct (strip_spec ws1 (fun a b => ws2 b a) (fun a b c => ws3 c b a) (rev m))
    as [_ [q Hq]].
  exists p, (rev q). rewrite <- rev_app_distr, <- Hq, rev_involutive. exact Hp.
Qed.

Lemma codes_bounded s : Forall (fun a => (a < 256)%N) (codes s).
Proof.
  unfold codes. apply Forall_forall. intros a Ha.
  apply in_map_iff in Ha as (c & <- & _). apply N_ascii_bounded.
Qed.

Lemma codes_of_codes l :
  Forall (fun a => (a < 256)%N) l -> codes (of_codes l) = l.
Proof.
  intros H. unfold codes, of_codes.
  rewrite list_ascii_of_string_of_list_ascii, map_map.
  induction H as [|a l Ha _ IH]; [reflexivity|].
  cbn [map]. rewrite IH, N_ascii_embedding by exact Ha. reflexivity.
Qed.

Lemma of_codes_codes s : of_codes (codes s) = s.
Proof.
  unfold codes, of_codes. rewrite map_map.
  erewrite map_ext; [rewrite map_id; apply string_of_list_ascii_of_string|].
  intros c. apply ascii_N_embedding.
Qed.

Lemma codes_trim s : codes (trim s) = trim_codes (codes s).
Proof.
  unfold trim. fold (trim_codes (codes s)). apply codes_of_codes.
  destruct (trim_codes_suffix_prefix (codes s)) as (p & q & Heq).
  pose proof (codes_bounded s) as Hb. rewrite Heq in Hb.
  apply Forall_app in Hb as [_ Hb]. apply Forall_app in Hb as [Hb _]. exact Hb.
Qed.

(** Trimming a trimmed string changes nothing. *)
Lemma trim_idempotent s : trim (trim s) = trim s.
Proof.
  unfold trim at 1. fold (trim_codes (codes (trim s))).
  rewrite codes_trim, trim_codes_idempotent. reflexivity.
Qed.

(** *** What trimming removes *)

Section White.

Variable w1 : N -> bool.
Variable w2 : N -> N -> bool.
Variable w3 : N -> N -> N -> bool.

Lemma white_by_app p q :
  white_by w1 w2 w3 p -> white_by w1 w2 w3 q -> white_by w1 w2 w3 (p ++ q).
Proof.
  intros Hp Hq. induction Hp; cbn [app];
    [exact Hq | apply white_one | apply white_two | apply white_three]; assumption.
Qed.

(** What [strip] removes is white space. *)
Lemma strip_white l :
  exists p, white_by w1 w2 w3 p /\ l = (p ++ strip w1 w2 w3 l)%list.
Proof.
  remember (length l) as n eqn:Hn. revert l Hn.
  induction n as [n IH] using (well_founded_induction Wf_nat.lt_wf).
  intros l Hn. subst n.
  assert (Hrec : forall p r, l = (p ++ r)%list -> p <> [] -> white_by w1 w2 w3 p ->
                 exists q, white_by w1 w2 w3 q /\ l = (q ++ strip w1 w2 w3 r)%list).
  { intros p r -> Hp Hw.
    destruct (IH (length r)) with (l := r) as (q & Hq & Heq); [|reflexivity|].
    - rewrite length_app. destruct p; [contradiction | cbn; lia].
    - exists (p ++ q)%list. split; [apply white_by_app; assumption|].
      rewrite <- app_assoc, <- Heq. reflexivity. }
  destruct l as [|a r1]; [exists []; split; [constructor | reflexivity]|].
  cbn [strip]. destruct (w1 a) eqn:H1.
  { apply (Hrec [a]); [reflexivity | discriminate |].
    apply white_one; [exact H1 | constructor]. }
  destruct r1 as [|b r2]; [exists []; split; [constructor | reflexivity]|].
  destruct (w2 a b) eqn:H2.
  { apply (Hrec [a; b]); [reflexivity | discriminate |].
    apply white_two; [exact H2 | constructor]. }
  destruct r2 as [|c r3]; [exists []; split; [constructor | reflexivity]|].
  destruct (w3 a b c) eqn:H3.
  { apply (Hrec [a; b; c]); [reflexivity | discriminate |].
    apply white_three; [exact H3 | constructor]. }
  exists []. split; [constructor | reflexivity].
Qed.

End White.

Lemma white_rev p :
  white_by ws1 (fun a b => ws2 b a) (fun a b c => ws3 c b a) p -> white (rev p).
Proof.
  intros H. induction H; cbn [rev]; [constructor | | |];
    rewrite <- ?app_assoc; cbn [app]; apply white_by_app; try assumption.
  - apply white_one; [assumption | constructor].
  - apply white_two; [assumption | constructor].
  - apply white_three; [assumption | constructor].
Qed.

(** The white space characters of one, two and three bytes start with
    different bytes. *)
Lemma ws2_not_ws1 a b : ws2 a b = true -> ws1 a = false.
Proof.
  unfold ws1, ws2. intros H.
  apply andb_prop in H as [H _]. apply N.eqb_eq in H. subst a. reflexivity.
Qed.

Lemma ws3_not_ws1_ws2 a b c : ws3 a b c = true -> ws1 a = false /\ ws2 a b = false.
Proof.
  unfold ws1, ws2, ws3. intros H.
  assert (Ha : a = 225%N \/ a = 226%N \/ a = 227%N \/ a = 239%N).
  { repeat (apply orb_prop in H as [H | H]);
      repeat (apply andb_prop in H as [H _]);
      apply N.eqb_eq in H; auto. }
  destruct Ha as [-> | [-> | [-> | ->]]]; split; reflexivity.
Qed.

Lemma strip_of_white l : white l -> strip ws1 ws2 ws3 l = [].
Proof.
  intros H. induction H as [|a l Ha _ IH|a b l Hab _ IH|a b c l Habc _ IH].
  - reflexivity.
  - cbn [strip]. rewrite Ha. exact IH.
  - cbn [strip]. rewrite (ws2_not_ws1 _ _ Hab), Hab. exact IH.
  - destruct (ws3_not_ws1_ws2 _ _ _ Habc) as [H1 H2].
    cbn [strip]. rewrite H1, H2, Habc. exact IH.
Qed.

(** [trim] on bytes: what is removed at the two ends is white space, and
    what is left neither starts nor ends with white space. *)
Lemma trim_codes_spec l :
  exists front back,
    l = (front ++ trim_codes l ++ back)%list
    /\ white front /\ white back
    /\ starts_ws ws1 ws2 ws3 (trim_codes l) = false
    /\ ends_ws (trim_codes l) = false.
Proof.
  unfold ends_ws, trim_codes, trimStart_codes, trimEnd_codes.
  set (v2 := fun a b => ws2 b a). set (v3 := fun a b c => ws3 c b a).
  destruct (strip_white ws1 ws2 ws3 l) as (p & Hp & Hl).
  destruct (strip_spec ws1 ws2 ws3 l) as [Hm _].
  set (m := strip ws1 ws2 ws3 l) in *.
  destruct (strip_white ws1 v2 v3 (rev m)) as (q & Hq & Hr).
  destruct (strip_spec ws1 v2 v3 (rev m)) as [He _].
  set (t := strip ws1 v2 v3 (rev m)) in *.
  assert (Hmt : m = (rev t ++ rev q)%list)
    by (rewrite <- rev_app_distr, <- Hr, rev_involutive; reflexivity).
  exists p, (rev q). split; [rewrite <- Hmt; exact Hl|].
  split; [exact Hp|]. split; [apply white_rev, Hq|]. split.
  - apply starts_ws_prefix with (q := rev q). rewrite <- Hmt. exact Hm.
  - rewrite rev_involutive. exact He.
Qed.

(** [trim] removes the white space at the two ends, and nothing else. *)
Lemma trim_spec s : trimmed_from s (trim s).
Proof.
  unfold trimmed_from. rewrite codes_trim. apply trim_codes_spec.
Qed.

Lemma codes_empty s : codes s = [] -> s = "".
Proof. destruct s; [reflexivity | discriminate]. Qed.

(** [trim] gives the empty string exactly for a string of white space. *)
Lemma trim_empty_iff s : trim s = "" <-> white (codes s).
Proof.
  split.
  - intros H. destruct (trim_spec s) as (front & back & Heq & Hf & Hb & _).
    rewrite H in Heq. cbn [codes list_ascii_of_string map app] in Heq.
    rewrite Heq. apply white_by_app; assumption.
  - intros H. unfold trim, trimStart_codes.
    rewrite (strip_of_white H). reflexivity.
Qed.

(** *** Form payloads, serialised values and the calls of a route *)

Lemma form_get payload k :
  form payload = true ->
  get payload k = Undefined \/ form_value (get payload k) = true.
Proof.
  destruct payload; try discriminate. cbn [form get].
  induction props as [|[k' v] r IH]; cbn [forallb lookup snd]; [auto|].
  intros H. apply andb_prop in H as [Hv Hr].
  destruct (String.eqb k k'); [right; exact Hv | apply IH, Hr].
Qed.

Lemma form_value_not_null v : form_value v = true -> v <> Null.
Proof. destruct v; discriminate. Qed.


Section CallsOfRoutes.

Context {db : Type}.
Variable prisma : PrismaClient db.
Variable datetime_test : string -> bool.

(** The one persistence call of a Create that passes validation. *)
Lemma items_post_call payload data d (w : world db) :
  safeParse (createItemSchema datetime_test) payload = Valid data ->
  create_data data = Returned d ->
  calls (trace (snd (items_post prisma datetime_test payload w)))
  = (calls (trace w) ++ [(create, create_args d)])%list.
Proof.
  intros Hv Hd.
  rewrite (@items_post_run _ prisma datetime_test _ _ _ w Hv Hd).
  destruct (item prisma create _ (store w)) as [[? | ?] ?];
    cbn [snd trace]; rewrite calls_app; reflexivity.
Qed.

(** A decimal field that is given, is not null and is not a string of
    its pattern is rejected, on Create and on Update. *)
Lemma decimal_field_rejects k n msg payload idParam (w : world db) :
  In (k, n, msg) decimal_fields ->
  get payload k <> Undefined ->
  get payload k <> Null ->
  (forall s, get payload k = Str s -> test (decimal_pattern n) s = false) ->
  exists i,
    path i = [Key k]
    /\ (forall s, get payload k = Str s ->
          i = mkIssue invalid_string [Key k] (Some msg))
    /\ (exists issues,
          In i issues
          /\ items_post prisma datetime_test payload w = (Returned (Rejected issues), w))
    /\ (exists issues,
          In i issues
          /\ items_put prisma datetime_test idParam payload w
             = (Returned (Rejected issues), w)).
Proof.
  intros Hk Hu Hn Hs.
  assert (Hobj : is_object payload = true).
  { destruct payload; try reflexivity; exfalso; apply Hu; reflexivity. }
  destruct (@decimal_field_in_shape datetime_test _ _ _ Hk) as (s & Hin & Heq).
  destruct (@decimal_issue n msg _ Hu Hn Hs) as (i0 & Hi0 & Hpath & Hstr).
  rewrite <- (Heq _ Hu) in Hi0.
  exists (under (Key k) i0). split; [|split; [|split]].
  - unfold under. cbn. rewrite Hpath. reflexivity.
  - intros s' Hs'. rewrite (Hstr s' Hs'). reflexivity.
  - destruct (@object_rejects (createItemShape datetime_test) payload k s i0
                Hobj Hin Hi0) as (issues & Hinv & Hmem).
    exists issues. split; [exact Hmem|]. apply items_post_rejected, Hinv.
  - assert (Hi1 : In i0 (issues_of (z.optional s (get payload k)))).
    { destruct (get payload k); try exact Hi0. contradiction. }
    destruct (@object_rejects _ payload k (z.optional s) i0 Hobj
                (@updateItemShape_in datetime_test k s Hin) Hi1)
      as (issues & Hinv & Hmem).
    exists issues. split; [exact Hmem|]. apply items_put_rejected, Hinv.
Qed.

End CallsOfRoutes.


(* ================================================================= *)
(** ** The claims *)

Section Claims.

Context {db : Type}.
Variable prisma : PrismaClient db.
Variable datetime_test : string -> bool.

(** C1 (amended).  For Update and Delete, an id whose number is NaN or
    not greater than zero is answered by the handler with the 400
    envelope and the world is left as it was: no persistence call, nothing
    logged.  On Update the validator runs before the handler, so this is
    the answer to a payload that passes validation; a payload that fails
    it is answered by the validator. *)
Theorem C1_invalid_id_is_rejected (idParam : string) (w : world db) :
  invalid_id idParam = true ->
  items_delete prisma idParam w
  = (Returned (Handled (failure 400 "无效的物品 ID")), w)
  /\ (forall payload data,
        safeParse (updateItemSchema datetime_test) payload = Valid data ->
        items_put prisma datetime_test idParam payload w
        = (Returned (Handled (failure 400 "无效的物品 ID")), w))
  /\ (forall payload issues,
        safeParse (updateItemSchema datetime_test) payload = Invalid issues ->
        items_put prisma datetime_test idParam payload w
        = (Returned (Rejected issues), w)).
Proof.
  intros Hid. split; [|split].
  - apply items_delete_invalid, Hid.
  - intros payload data Hv. eapply items_put_invalid; eassumption.
  - intros payload issues Hv. apply items_put_rejected, Hv.
Qed.

(** C2 (amended).  For [extraInfo] the create schema takes every JSON
    object (string keys, JSON values of any depth) and rejects a value
    that is not an object (a string, number, boolean, null or array);
    and the [extraInfo] of a create that passes validation is persisted
    as it was given. *)
Theorem C2_extraInfo_object_verbatim (payload data : value) (w : world db) :
  safeParse (createItemSchema datetime_test) payload = Valid data ->
  (forall props, json (Obj props) = true ->
     exists data',
       safeParse (createItemSchema datetime_test)
                 (set payload "extraInfo" (Obj props)) = Valid data'
       /\ get data' "extraInfo" = Obj props)
  /\ (forall v, v <> Undefined -> is_object v = false ->
        exists issues,
          safeParse (createItemSchema datetime_test)
                    (set payload "extraInfo" v) = Invalid issues
          /\ In (mkIssue invalid_type [Key "extraInfo"] None) issues)
  /\ (exists d,
        calls (trace (snd (items_post prisma datetime_test payload w)))
        = (calls (trace w) ++ [(create, create_args d)])%list
        /\ get d "extraInfo" = get payload "extraInfo").
Proof.
  intros Hv.
  assert (Hobj : is_object payload = true) by apply (object_valid _ _ Hv).
  split; [|split].
  - intros props Hj.
    assert (Hok : z.optional (z.record z.string jsonValueSchema) (Obj props)
                  = Ok (Obj props)).
    { cbn [z.optional]. rewrite record_json.
      apply json_accepted in Hj. cbn [accepted] in Hj. rewrite Hj. reflexivity. }
    edestruct create_with_extraInfo as [data' Hv'];
      [exact Hv | rewrite Hok; reflexivity | rewrite Hok; reflexivity |].
    exists data'. split; [exact Hv'|].
    destruct (@create_extraInfo _ _ _ Hv') as [-> _].
    apply get_set_same, Hobj.
  - intros v Hu Ho.
    apply (@object_rejects (createItemShape datetime_test) (set payload "extraInfo" v)
             "extraInfo" (z.optional (z.record z.string jsonValueSchema))
             (mkIssue invalid_type [] None)).
    + rewrite set_object. exact Hobj.
    + in_shape.
    + rewrite get_set_same by exact Hobj.
      destruct v; try contradiction; try discriminate; left; reflexivity.
  - destruct (@items_post_calls db prisma datetime_test payload data w Hv)
      as (name & d & _ & _ & _ & _ & _ & He & Hc).
    exists d. split; [exact Hc|].
    rewrite He. apply (@create_extraInfo _ _ _ Hv).
Qed.


(** C4.  A form payload whose quantity, used quantity or price is
    present and is not a string of the field's pattern is answered by the
    validator, on Create and on Update, with an issue under the field's
    name (with the message of the schema when the value is a string), and
    the world is left as it was: no persistence call. *)
Theorem C4_decimal_pattern_is_enforced
    (k : string) (n : nat) (msg : string) (payload : value)
    (idParam : string) (w : world db) :
  In (k, n, msg) decimal_fields ->
  form payload = true ->
  get payload k <> Undefined ->
  (forall s, get payload k = Str s -> test (decimal_pattern n) s = false) ->
  exists i,
    path i = [Key k]
    /\ (forall s, get payload k = Str s ->
          i = mkIssue invalid_string [Key k] (Some msg))
    /\ (exists issues,
          In i issues
          /\ items_post prisma datetime_test payload w = (Returned (Rejected issues), w))
    /\ (exists issues,
          In i issues
          /\ items_put prisma datetime_test idParam payload w
             = (Returned (Rejected issues), w)).
Proof.
  intros Hk Hform Hu Hs.
  apply decimal_field_rejects with (n := n); try assumption.
  destruct (form_get payload k Hform) as [H | H]; [contradiction|].
  apply form_value_not_null, H.
Qed.

(** C5.  For every payload the create schema takes, the item passed to
    persistence has the name of the payload without the white space at
    its two ends, and the used quantity [0.0] when the payload has
    none. *)
Theorem C5_create_name_trimmed_usedQuantity_default
    (payload data : value) (w : world db) :
  safeParse (createItemSchema datetime_test) payload = Valid data ->
  exists name d,
    get payload "name" = Str name
    /\ calls (trace (snd (items_post prisma datetime_test payload w)))
       = (calls (trace w) ++ [(create, create_args d)])%list
    /\ get d "name" = Str (trim name)
    /\ trimmed_from name (trim name)
    /\ (get payload "usedQuantity" = Undefined -> get d "usedQuantity" = Str "0.0").
Proof.
  intros Hv.
  destruct (@items_post_calls db prisma datetime_test payload data w Hv)
    as (name & d & Hn & _ & Hdn & Hdu & _ & _ & Hc).
  exists name, d. split; [exact Hn|]. split; [exact Hc|]. split; [exact Hdn|].
  split; [apply trim_spec|].
  intros Hu. rewrite Hdu, (@create_usedQuantity _ _ _ Hv).
  rewrite Hu. reflexivity.
Qed.

(** C6.  On Update and Delete the known request error with the code
    P2025, and no other exception, is answered with the 404 envelope;
    every other exception gets the 500 envelope.  On the reference client
    a Delete or Update of an id that has no record is a 404, and so is the
    second of two Deletes of the same id. *)
Theorem C6_not_found_is_404 (idParam : string) (w : world db) :
  invalid_id idParam = false ->
  (forall e, is_P2025 e = true
             <-> exists message, e = PrismaClientKnownRequestError "P2025" message)
  /\ (forall e s,
        item prisma delete (delete_args (Number idParam)) (store w) = (Thrown e, s) ->
        fst (items_delete prisma idParam w)
        = Returned (Handled (if is_P2025 e then failure 404 "物品未找到"
                             else failure 500 "删除物品失败")))
  /\ (forall payload data e s,
        safeParse (updateItemSchema datetime_test) payload = Valid data ->
        item prisma update (update_args (Number idParam) (update_set data)) (store w)
        = (Thrown e, s) ->
        fst (items_put prisma datetime_test idParam payload w)
        = Returned (Handled (if is_P2025 e then failure 404 "物品未找到"
                             else failure 500 "更新物品失败")))
  /\ (forall (m : world table) i,
        integer_of (Num (Number idParam)) = Some i ->
        (find_row i (rows (store m)) = None ->
         fst (items_delete memory idParam m)
         = Returned (Handled (failure 404 "物品未找到")))
        /\ fst (items_delete memory idParam (snd (items_delete memory idParam m)))
           = Returned (Handled (failure 404 "物品未找到"))
        /\ (forall payload data,
              safeParse (updateItemSchema datetime_test) payload = Valid data ->
              find_row i (rows (store m)) = None ->
              fst (items_put memory datetime_test idParam payload m)
              = Returned (Handled (failure 404 "物品未找到")))).
Proof.
  intros Hid. split; [|split; [|split]].
  - intros e. split.
    + destruct e; try discriminate. cbn. intros H.
      apply String.eqb_eq in H. subst. eauto.
    + intros [message ->]. reflexivity.
  - intros e s He. rewrite (items_delete_run prisma idParam w Hid). cbv zeta.
    rewrite He. destruct (is_P2025 e); reflexivity.
  - intros payload data e s Hv He.
    rewrite (@items_put_run _ prisma datetime_test idParam payload data w Hv Hid).
    cbv zeta. rewrite He. destruct (is_P2025 e); reflexivity.
  - intros m i Hi.
    assert (Hmissing : forall m' : world table,
               find_row i (rows (store m')) = None ->
               fst (items_delete memory idParam m')
               = Returned (Handled (failure 404 "物品未找到"))).
    { intros m' Hnone. rewrite (items_delete_run memory idParam m' Hid). cbv zeta.
      rewrite (@memory_delete _ _ _ Hi), Hnone. reflexivity. }
    split; [apply Hmissing|]. split.
    + apply Hmissing.
      rewrite (items_delete_run memory idParam m Hid). cbv zeta.
      rewrite (@memory_delete _ _ _ Hi).
      destruct (find_row i (rows (store m))) eqn:Hrow.
      * cbn [snd store rows]. apply find_row_removed.
      * cbn [is_P2025 not_found String.eqb]. cbn. exact Hrow.
    + intros payload data Hv Hnone.
      rewrite (@items_put_run _ memory datetime_test idParam payload data m Hv Hid).
      cbv zeta. rewrite (@memory_update _ _ _ _ Hi), Hnone. reflexivity.
Qed.

(** C7.  Every route returns: the response of the handler is a
    well-formed envelope whatever the persistence call does, and when the
    call throws (on Update and Delete: anything but the not-found error)
    the response is the 500 envelope with the fixed message of the
    operation, which does not depend on the exception. *)
Theorem C7_every_outcome_is_an_envelope
    (idParam : string) (payload : value) (w : world db) :
  (exists r w',
     items_get prisma w = (Returned (Handled r), w')
     /\ envelope r
     /\ forall e s,
          item prisma findMany findMany_args (store w) = (Thrown e, s) ->
          r = failure 500 "获取物品列表失败")
  /\ (exists reply w',
        items_post prisma datetime_test payload w = (Returned reply, w')
        /\ (forall r, reply = Handled r -> envelope r)
        /\ forall data d e s,
             safeParse (createItemSchema datetime_test) payload = Valid data ->
             create_data data = Returned d ->
             item prisma create (create_args d) (store w) = (Thrown e, s) ->
             reply = Handled (failure 500 "创建物品失败"))
  /\ (exists reply w',
        items_put prisma datetime_test idParam payload w = (Returned reply, w')
        /\ (forall r, reply = Handled r -> envelope r)
        /\ forall data e s,
             safeParse (updateItemSchema datetime_test) payload = Valid data ->
             invalid_id idParam = false ->
             item prisma update (update_args (Number idParam) (update_set data))
                  (store w) = (Thrown e, s) ->
             is_P2025 e = false ->
             reply = Handled (failure 500 "更新物品失败"))
  /\ (exists r w',
        items_delete prisma idParam w = (Returned (Handled r), w')
        /\ envelope r
        /\ forall e s,
             invalid_id idParam = false ->
             item prisma delete (delete_args (Number idParam)) (store w)
             = (Thrown e, s) ->
             is_P2025 e = false ->
             r = failure 500 "删除物品失败").
Proof.
  split; [|split; [|split]].
  - rewrite items_get_run.
    destruct (item prisma findMany findMany_args (store w)) as [[allItems | e] s];
      eexists _, _; (split; [reflexivity|]);
      (split; [first [apply envelope_success | apply envelope_failure]|]);
      intros e' s' H; [discriminate | reflexivity].
  - destruct (safeParse (createItemSchema datetime_test) payload) as [data | issues] eqn:Hv.
    + destruct (@create_data_valid _ _ _ Hv) as (name & _ & _ & Hd).
      rewrite (@items_post_run _ prisma datetime_test _ _ _ w Hv Hd).
      destruct (item prisma create _ (store w)) as [[newItem | e] s] eqn:Hcall;
        eexists _, _; (split; [reflexivity|]); split.
      * intros r H. injection H as <-. apply envelope_success.
      * intros data' d' e' s' Hv' Hd' H.
        injection Hv' as <-. rewrite Hd in Hd'. injection Hd' as <-.
        rewrite Hcall in H. discriminate.
      * intros r H. injection H as <-. apply envelope_failure.
      * reflexivity.
    + rewrite (items_post_rejected prisma _ _ w Hv).
      eexists _, _. split; [reflexivity|]. split; [discriminate|].
      intros data d e s H. discriminate.
  - destruct (safeParse (updateItemSchema datetime_test) payload) as [data | issues] eqn:Hv.
    + destruct (invalid_id idParam) eqn:Hid.
      * rewrite (@items_put_invalid _ prisma datetime_test idParam payload data w Hv Hid).
        eexists _, _. split; [reflexivity|]. split.
        -- intros r H. injection H as <-. apply envelope_failure.
        -- intros data' e s _ H. discriminate.
      * rewrite (@items_put_run _ prisma datetime_test idParam payload data w Hv Hid).
        cbv zeta.
        destruct (item prisma update _ (store w)) as [[updatedItem | e] s] eqn:Hcall;
          [| destruct (is_P2025 e) eqn:He];
          eexists _, _; (split; [reflexivity|]); split;
          try (intros r H; injection H as <-;
               first [apply envelope_success | apply envelope_failure]);
          intros data' e' s' Hv' _ H Hn; injection Hv' as <-;
          rewrite Hcall in H; try discriminate.
        -- injection H as <- <-. congruence.
        -- reflexivity.
    + rewrite (items_put_rejected prisma _ idParam _ w Hv).
      eexists _, _. split; [reflexivity|]. split; [discriminate|].
      intros data e s H. discriminate.
  - destruct (invalid_id idParam) eqn:Hid.
    + rewrite (items_delete_invalid prisma idParam w Hid).
      eexists _, _. split; [reflexivity|]. split; [apply envelope_failure|].
      intros e s H. discriminate.
    + rewrite (items_delete_run prisma idParam w Hid). cbv zeta.
      destruct (item prisma delete _ (store w)) as [[deleted | e] s] eqn:Hcall;
        [| destruct (is_P2025 e) eqn:He];
        eexists _, _; (split; [reflexivity|]);
        (split; [first [apply envelope_success | apply envelope_failure]|]);
        intros e' s' _ H Hn; try discriminate.
      * injection H as <- <-. congruence.
      * reflexivity.
Qed.

(** C10.  A null [locationId] is sent to persistence as undefined by
    Create: the one create call carries it so, and is the call that the
    payload without the field makes; Update writes it through: the one
    update call carries [locationId: null]. *)
Theorem C10_null_locationId (payload data : value) (w : world db) :
  get payload "locationId" = Null ->
  (safeParse (createItemSchema datetime_test) payload = Valid data ->
     exists d,
       calls (trace (snd (items_post prisma datetime_test payload w)))
       = (calls (trace w) ++ [(create, create_args d)])%list
       /\ get d "locationId" = Undefined
       /\ calls (trace (snd (items_post prisma datetime_test
                               (omit payload "locationId") w)))
          = (calls (trace w) ++ [(create, create_args d)])%list)
  /\ (safeParse (updateItemSchema datetime_test) payload = Valid data ->
        forall idParam,
          invalid_id idParam = false ->
          exists u,
            calls (trace (snd (items_put prisma datetime_test idParam payload w)))
            = (calls (trace w) ++ [(update, update_args (Number idParam) u)])%list
            /\ has_key u "locationId" = true
            /\ get u "locationId" = Null).
Proof.
  intros Hnull. split.
  - intros Hv.
    destruct (@create_data_valid _ _ _ Hv) as (name & Hn & _ & Hd).
    edestruct create_without_locationId as [data' Hv']; [exact Hv|].
    assert (Heq : create_data data' = create_data data).
    { eapply create_data_agree; [exact Hv' | exact Hv | |].
      - intros k _ Hne. rewrite get_omit.
        destruct (String.eqb_spec k "locationId"); [contradiction | reflexivity].
      - rewrite get_omit, Hnull. reflexivity. }
    eexists. split; [apply (@items_post_call _ prisma datetime_test _ _ _ w Hv Hd)|].
    split.
    + cbn -[get coalesce trimmed or_else dated truthy].
      rewrite (@create_locationId _ _ _ Hv), Hnull. reflexivity.
    + apply (@items_post_call _ prisma datetime_test _ _ _ w Hv' (eq_trans Heq Hd)).
  - intros Hv idParam Hid.
    assert (Hd : get data "locationId" = Null)
      by (rewrite (@update_locationId _ _ _ Hv); exact Hnull).
    exists (update_set data).
    split; [apply (@items_put_calls _ prisma datetime_test _ _ _ w Hv Hid)|]. split.
    + rewrite has_key_update_set, Hd. reflexivity.
    + apply get_update_set_null; [in_shape | exact Hd].
Qed.

End Claims.


(* ================================================================= *)
(** ** Examples *)

(** [Number] on some strings: a fraction, an exponent, white space, a
    hexadecimal literal, the empty string, an underflow, an overflow, and
    strings that are no numeric literal. *)
Example Number_examples :
  Number "1.5" = Finite 3 (-1)
  /\ Number "1e3" = Finite 125 3
  /\ Number " 12 " = Finite 3 2
  /\ Number "0x10" = Finite 1 4
  /\ Number "" = Finite 0 0
  /\ Number "-0" = Finite 0 0
  /\ Number "1e-400" = Finite 0 0
  /\ Number "1e400" = Infinity false
  /\ Number "-Infinity" = Infinity true
  /\ Number "0.1" = Finite 3602879701896397 (-55)
  /\ Number "9007199254740993" = Finite 1 53
  /\ Number "12px" = NaN
  /\ Number "1,5" = NaN
  /\ Number "." = NaN.
Proof. vm_compute. repeat split. Qed.

(** [trim] removes white space at both ends, the ideographic space and
    the no-break space included, and nothing inside. *)
Example trim_examples :
  trim "  a b  " = "a b"
  /\ trim " " = ""
  /\ trim (of_codes [227; 128; 128; 97; 194; 160]%N) = "a"
  /\ js_length " " = 1%nat.
Proof. vm_compute. repeat split. Qed.

(** The ids the specification names are invalid. *)
Example invalid_id_examples :
  invalid_id "0" = true /\ invalid_id "-1" = true /\ invalid_id "abc" = true
  /\ invalid_id "7" = false.
Proof. vm_compute. repeat split. Qed.

(** The strings the specification names fail the pattern of a quantity. *)
Example decimal_pattern_examples :
  test (decimal_pattern 3) "12.3456" = false
  /\ test (decimal_pattern 3) "abc" = false
  /\ test (decimal_pattern 3) "12.345" = true
  /\ test (decimal_pattern 3) "12" = true
  /\ test (decimal_pattern 2) "9.99" = true
  /\ test (decimal_pattern 2) "9.999" = false
  /\ test (decimal_pattern 3) "12." = false
  /\ test (decimal_pattern 3) ".5" = false.
Proof. repeat split; reflexivity. Qed.

Lemma C1_invalid_id_is_rejected_witness :
  invalid_id "abc" = true
  /\ items_delete memory "abc" start
     = (Returned (Handled (failure 400 "无效的物品 ID")), start).
Proof.
  split; [reflexivity|].
  apply (C1_invalid_id_is_rejected memory datetime_example "abc" start).
  reflexivity.
Defined.

(** C1, as stated, fails: the id [1.5] does not parse as an integer, yet
    the guard lets it through, the client is called with it and the answer
    is not a 400; and an Update with the id [0] and a payload that fails
    validation is answered by the validator, which ran first. *)
Lemma C1_counterexample :
  positive_integer_id "1.5" = false
  /\ items_delete memory "1.5" start
     = (Returned (Handled (failure 500 "删除物品失败")),
        mkWorld empty_table
          [Persistence delete (delete_args (Finite 3 (-1)));
           ConsoleError "Error deleting item:" (Error "Invalid invocation")])
  /\ items_put memory datetime_example "0" (Obj [("quantity", Str "abc")]) start
     = (Returned (Rejected [mkIssue invalid_string [Key "quantity"]
                              (Some "数量格式无效，最多3位小数")]),
        start).
Proof. vm_compute. repeat split. Qed.

Lemma C2_extraInfo_object_verbatim_witness :
  safeParse (createItemSchema datetime_example) tagged_milk = Valid tagged_milk_valid
  /\ exists d,
       calls (trace (snd (items_post memory datetime_example tagged_milk start)))
       = (calls (trace start) ++ [(create, create_args d)])%list
       /\ get d "extraInfo" = get tagged_milk "extraInfo".
Proof.
  split; [reflexivity|].
  destruct (@C2_extraInfo_object_verbatim table memory datetime_example
              tagged_milk tagged_milk_valid start eq_refl) as (_ & _ & H).
  exact H.
Defined.

(** C2, as stated, fails: a JSON string given as [extraInfo] is rejected
    by the create schema, and nothing is persisted. *)
Lemma C2_counterexample :
  json (Str "a") = true
  /\ items_post memory datetime_example
       (Obj [("name", Str "x"); ("extraInfo", Str "a")]) start
     = (Returned (Rejected [mkIssue invalid_type [Key "extraInfo"] None]), start).
Proof. split; reflexivity. Qed.



Lemma C4_decimal_pattern_is_enforced_witness :
  form (Obj [("name", Str "x"); ("quantity", Str "12.3456")]) = true
  /\ exists i,
       i = mkIssue invalid_string [Key "quantity"] (Some "数量格式无效，最多3位小数")
       /\ exists issues,
            In i issues
            /\ items_post memory datetime_example
                 (Obj [("name", Str "x"); ("quantity", Str "12.3456")]) start
               = (Returned (Rejected issues), start).
Proof.
  split; [reflexivity|].
  destruct (@C4_decimal_pattern_is_enforced table memory datetime_example
              "quantity" 3%nat "数量格式无效，最多3位小数"
              (Obj [("name", Str "x"); ("quantity", Str "12.3456")]) "1" start)
    as (i & _ & Hi & Hpost & _).
  - left. reflexivity.
  - reflexivity.
  - discriminate.
  - intros s H. injection H as <-. reflexivity.
  - exists i. split; [apply (Hi "12.3456"); reflexivity | exact Hpost].
Defined.

Lemma C5_create_name_trimmed_usedQuantity_default_witness :
  safeParse (createItemSchema datetime_example) (Obj [("name", Str " milk ")])
  = Valid (Obj [("name", Str " milk "); ("usedQuantity", Str "0.0")])
  /\ exists d,
       calls (trace (snd (items_post memory datetime_example
                            (Obj [("name", Str " milk ")]) start)))
       = [(create, create_args d)]
       /\ get d "name" = Str "milk"
       /\ get d "usedQuantity" = Str "0.0".
Proof.
  split; [reflexivity|].
  destruct (@C5_create_name_trimmed_usedQuantity_default table memory datetime_example
              (Obj [("name", Str " milk ")])
              (Obj [("name", Str " milk "); ("usedQuantity", Str "0.0")]) start eq_refl)
    as (name & d & Hn & Hc & Hname & _ & Hused).
  injection Hn as <-.
  exists d. split; [exact Hc|]. split; [exact Hname | exact (Hused eq_refl)].
Defined.

Lemma C6_not_found_is_404_witness :
  invalid_id "7" = false
  /\ fst (items_delete memory "7" start)
     = Returned (Handled (failure 404 "物品未找到")).
Proof.
  split; [reflexivity|].
  destruct (@C6_not_found_is_404 table memory datetime_example "7" start eq_refl)
    as (_ & _ & _ & H).
  destruct (H start 7 eq_refl) as (H1 & _).
  apply H1. reflexivity.
Defined.

Lemma C7_every_outcome_is_an_envelope_witness :
  exists r w',
    items_delete memory "7" start = (Returned (Handled r), w') /\ envelope r.
Proof.
  destruct (@C7_every_outcome_is_an_envelope table memory datetime_example
              "7" (Obj []) start)
    as (_ & _ & _ & r & w' & Hrun & Henv & _).
  exists r, w'. split; [exact Hrun | exact Henv].
Defined.



(** C9 fails on the code: a name of one space passes [min(1)], is
    trimmed afterwards, and Create stores the empty name; Update writes
    null for the same name. *)
Lemma C9_blank_name_is_stored_empty :
  safeParse (createItemSchema datetime_example) (Obj [("name", Str " ")])
  = Valid (Obj [("name", Str " "); ("usedQuantity", Str "0.0")])
  /\ map (fun c => get (get (snd c) "data") "name")
         (calls (trace (snd (items_post memory datetime_example
                               (Obj [("name", Str " ")]) start))))
     = [Str ""]
  /\ map (fun r => get (snd r) "name")
         (rows (store (snd (items_post memory datetime_example
                              (Obj [("name", Str " ")]) start))))
     = [Str ""]
  /\ safeParse (updateItemSchema datetime_example) (Obj [("name", Str " ")])
     = Valid (Obj [("name", Str " ")])
  /\ update_data (Obj [("name", Str " ")]) = Returned (Obj [("name", Null)]).
Proof. repeat split; reflexivity. Qed.

Lemma C10_null_locationId_witness :
  get unplaced "locationId" = Null
  /\ safeParse (createItemSchema datetime_example) unplaced = Valid unplaced
  /\ safeParse (updateItemSchema datetime_example) unplaced = Valid unplaced
  /\ invalid_id "7" = false
  /\ (exists d,
        calls (trace (snd (items_post memory datetime_example unplaced start)))
        = [(create, create_args d)]
        /\ get d "locationId" = Undefined
        /\ calls (trace (snd (items_post memory datetime_example
                                (Obj [("name", Str "x"); ("usedQuantity", Str "1.5")])
                                start)))
           = [(create, create_args d)])
  /\ exists u,
       calls (trace (snd (items_put memory datetime_example "7" unplaced start)))
       = [(update, update_args (Finite 7 0) u)]
       /\ get u "locationId" = Null.
Proof.
  split; [reflexivity|]. split; [reflexivity|]. split; [reflexivity|].
  split; [reflexivity|].
  destruct (@C10_null_locationId table memory datetime_example
              unplaced unplaced start eq_refl) as (Hcreate & Hupdate).
  split; [exact (Hcreate eq_refl)|].
  destruct (Hupdate eq_refl "7" eq_refl) as (u & Hc & _ & Hu).
  exists u. split; [exact Hc | exact Hu].
Defined.


(* ================================================================= *)
(** ** Further properties of the schemas *)

(** X1.  [jsonValueSchema] takes exactly the values built from strings,
    numbers other than NaN, booleans, null, arrays and objects, at any
    depth, and returns them unchanged; every JSON value is among them; a
    value with an undefined, a NaN or a date anywhere inside is refused. *)
Theorem jsonValueSchema_takes_plain_data (v : value) :
  safeParse jsonValueSchema v
  = (if accepted v then Valid v else Invalid [mkIssue invalid_union [] None])
  /\ (json v = true -> safeParse jsonValueSchema v = Valid v).
Proof.
  assert (H : safeParse jsonValueSchema v
              = if accepted v then Valid v else Invalid [mkIssue invalid_union [] None]).
  { unfold safeParse. rewrite jsonValueSchema_accepts. destruct (accepted v); reflexivity. }
  split; [exact H|]. intros Hj. rewrite H, (json_accepted _ Hj). reflexivity.
Qed.

(** X2.  The decimal patterns of quantity, used quantity and price take
    exactly the strings made of one or more digits, followed or not by a
    point and one to [n] digits. *)
Theorem decimal_pattern_language (n : nat) (s : string) :
  (1 <= n)%nat ->
  test (decimal_pattern n) s = true <-> decimal_shape n (codes s).
Proof.
  intros Hn. unfold test. rewrite accepts_matches. apply matches_decimal_pattern, Hn.
Qed.

Lemma optional_clean s v :
  issues_of (s v) = [] /\ aborted (s v) = false ->
  issues_of (z.optional s v) = [] /\ aborted (z.optional s v) = false.
Proof. destruct v; cbn [z.optional]; auto. Qed.

Lemma optional_defined s v :
  v <> Undefined -> z.optional s v = s v.
Proof. destruct v; try reflexivity. contradiction. Qed.

(** The fields of the create shape that take an undefined value. *)
Lemma create_field_undefined datetime_test k s :
  In (k, s) (createItemShape datetime_test) ->
  k <> "name" ->
  issues_of (s Undefined) = [] /\ aborted (s Undefined) = false.
Proof.
  intros Hin Hk. cbn in Hin.
  repeat (destruct Hin as [Hin | Hin];
          [injection Hin as <- <-; first [contradiction (Hk eq_refl) | split; reflexivity] |]).
  destruct Hin.
Qed.

Section SchemaProperties.

Variable datetime_test : string -> bool.

(** X3.  The update schema is the create schema without the obligation
    to give a name: a payload passes the create schema exactly when it
    passes the update schema and has a name. *)
Theorem update_schema_is_create_without_required_name (payload : value) :
  (exists data, safeParse (createItemSchema datetime_test) payload = Valid data)
  <-> (exists data, safeParse (updateItemSchema datetime_test) payload = Valid data)
      /\ get payload "name" <> Undefined.
Proof.
  split.
  - intros [data Hv].
    destruct (object_valid _ _ Hv) as (Hobj & _ & Hclean & _).
    split.
    + eexists. apply object_accepts; [exact Hobj|].
      intros k s Hin. rewrite updateItemShape_eq in Hin.
      apply in_map_iff in Hin as ([k' s'] & Heq & Hin). injection Heq as <- <-.
      apply optional_clean, Hclean, Hin.
    + destruct (create_name _ _ Hv) as (name & -> & _). discriminate.
  - intros [[data Hv] Hname].
    destruct (object_valid _ _ Hv) as (Hobj & _ & Hclean & _).
    eexists. apply object_accepts; [exact Hobj|].
    intros k s Hin.
    specialize (Hclean k (z.optional s) (updateItemShape_in Hin)).
    destruct (get payload k) eqn:Hk;
      try (rewrite optional_defined in Hclean by discriminate; exact Hclean).
    eapply create_field_undefined; [exact Hin|].
    intros ->. apply Hname. exact Hk.
Qed.

End SchemaProperties.


Lemma has_key_field_values v l k :
  has_key (Obj (field_values v l)) k = true -> In k (map fst l).
Proof.
  cbn [has_key]. unfold field_values.
  induction l as [|[k' p] l IH]; cbn [flat_map map fst lookup]; [discriminate|].
  destruct (defined (out_of p) || has_key v k'); cbn [app lookup].
  - destruct (String.eqb_spec k k') as [-> | _]; [left; reflexivity | intros H; right; auto].
  - intros H. right. auto.
Qed.

Lemma object_valid_keys (sh : z.shape) v data k :
  safeParse (z.object sh) v = Valid data ->
  has_key data k = true -> In k (map fst sh).
Proof.
  intros Hv Hk. destruct (object_valid _ _ Hv) as (_ & -> & _).
  apply has_key_field_values in Hk. rewrite field_results_keys in Hk. exact Hk.
Qed.

Lemma object_invalid_issues (sh : z.shape) v issues :
  is_object v = true ->
  safeParse (z.object sh) v = Invalid issues ->
  issues = field_issues (field_results sh v).
Proof.
  intros Hobj. rewrite safeParse_object. destruct v; try discriminate.
  unfold merged. destruct (field_aborted _); [congruence|].
  destruct (field_issues _); [discriminate | congruence].
Qed.

Lemma in_field_issues (sh : z.shape) v i :
  In i (field_issues (field_results sh v))
  <-> exists k s i0,
        In (k, s) sh /\ In i0 (issues_of (s (get v k))) /\ i = under (Key k) i0.
Proof.
  unfold field_issues, field_results. rewrite in_flat_map. split.
  - intros ([k p] & Hin & Hi). apply in_map_iff in Hin as ([k' s] & Heq & Hin).
    injection Heq as <- <-. apply in_map_iff in Hi as (i0 & <- & Hi0).
    exists k', s, i0. auto.
  - intros (k & s & i0 & Hin & Hi0 & ->). exists (k, s (get v k)). split.
    + apply in_map_iff. exists (k, s). auto.
    + apply in_map. exact Hi0.
Qed.

Section ValidationProperties.

Context {db : Type}.
Variable prisma : PrismaClient db.
Variable datetime_test : string -> bool.

Lemma create_fields_unchanged payload data k :
  safeParse (createItemSchema datetime_test) payload = Valid data ->
  In k item_fields -> k <> "usedQuantity" -> get data k = get payload k.
Proof.
  intros Hv Hk Hne.
  assert (Htext : In k text_fields -> get data k = get payload k).
  { intros H. apply (@create_text _ _ _ Hv k H). }
  cbn in Hk.
  repeat (destruct Hk as [<- | Hk]; [try (apply Htext; solve [in_shape]) |]);
    try destruct Hk.
  - destruct (create_name _ _ Hv) as (name & -> & -> & _). reflexivity.
  - contradiction.
  - apply (@create_locationId _ _ _ Hv).
  - apply (@create_extraInfo _ _ _ Hv).
Qed.

(** X4.  What validation hands to the handler holds no key outside the
    schema: on Create it is the payload on the keys of the schema, with the
    used quantity defaulted, and the data of the one create call has
    exactly the ten keys the handler writes (so neither an id nor a
    category given by the client reaches persistence); on Update it holds
    keys of the schema only, and the data of the one update call holds
    none but those ten keys. *)
Theorem validated_payload_has_the_schema_keys_only
    (idParam : string) (payload data : value) (w : world db) :
  (safeParse (createItemSchema datetime_test) payload = Valid data ->
     (forall k, has_key data k = true -> In k item_fields)
     /\ (forall k, In k item_fields -> k <> "usedQuantity" ->
                   get data k = get payload k)
     /\ exists d,
          calls (trace (snd (items_post prisma datetime_test payload w)))
          = (calls (trace w) ++ [(create, create_args d)])%list
          /\ keys d = updated_fields)
  /\ (safeParse (updateItemSchema datetime_test) payload = Valid data ->
        (forall k, has_key data k = true -> In k item_fields)
        /\ (invalid_id idParam = false ->
            exists u,
              calls (trace (snd (items_put prisma datetime_test idParam payload w)))
              = (calls (trace w) ++ [(update, update_args (Number idParam) u)])%list
              /\ forall k, has_key u k = true -> In k updated_fields)).
Proof.
  split.
  - intros Hv. split; [|split].
    + intros k Hk. apply (object_valid_keys _ _ _ Hv) in Hk.
      rewrite createItemShape_keys in Hk. exact Hk.
    + intros k Hk Hne. apply (@create_fields_unchanged _ _ _ Hv Hk Hne).
    + destruct (@create_data_valid _ _ _ Hv) as (name & _ & _ & Hd).
      eexists. split; [apply (@items_post_call _ prisma datetime_test _ _ _ w Hv Hd)|].
      reflexivity.
  - intros Hv. split.
    + intros k Hk. apply (object_valid_keys _ _ _ Hv) in Hk.
      rewrite updateItemShape_eq, map_map in Hk.
      erewrite map_ext in Hk; [rewrite createItemShape_keys in Hk; exact Hk|].
      intros [? ?]. reflexivity.
    + intros Hid. exists (update_set data).
      split; [apply (@items_put_calls _ prisma datetime_test _ _ _ w Hv Hid)|].
      intros k Hk. rewrite has_key_update_set in Hk.
      apply andb_prop in Hk as [Hin _].
      apply existsb_exists in Hin as (k' & Hin & Heq).
      apply String.eqb_eq in Heq. subst k'. exact Hin.
Qed.

(** X5.  A payload that fails validation is answered with the issues of
    all its fields together, each under the name of its field, and with
    nothing else; the handler does not run. *)
Theorem rejection_lists_the_issues_of_every_field
    (idParam : string) (payload : value) (w : world db) :
  is_object payload = true ->
  (forall issues,
     safeParse (createItemSchema datetime_test) payload = Invalid issues ->
     items_post prisma datetime_test payload w = (Returned (Rejected issues), w)
     /\ forall i,
          In i issues
          <-> exists k s i0,
                In (k, s) (createItemShape datetime_test)
                /\ In i0 (issues_of (s (get payload k)))
                /\ i = under (Key k) i0)
  /\ (forall issues,
        safeParse (updateItemSchema datetime_test) payload = Invalid issues ->
        items_put prisma datetime_test idParam payload w = (Returned (Rejected issues), w)
        /\ forall i,
             In i issues
             <-> exists k s i0,
                   In (k, s) (createItemShape datetime_test)
                   /\ In i0 (issues_of (z.optional s (get payload k)))
                   /\ i = under (Key k) i0).
Proof.
  intros Hobj. split; intros issues Hv.
  - split; [apply items_post_rejected, Hv|].
    intros i. rewrite (object_invalid_issues _ _ Hobj Hv). apply in_field_issues.
  - split; [apply items_put_rejected, Hv|].
    intros i. rewrite (object_invalid_issues _ _ Hobj Hv), in_field_issues.
    rewrite updateItemShape_eq. split.
    + intros (k & s & i0 & Hin & Hi0 & ->).
      apply in_map_iff in Hin as ([k' s'] & Heq & Hin). injection Heq as <- <-.
      exists k', s', i0. auto.
    + intros (k & s & i0 & Hin & Hi0 & ->).
      exists k, (z.optional s), i0. split; [|auto].
      apply in_map_iff. exists (k, s). auto.
Qed.

End ValidationProperties.


Section FieldProperties.

Context {db : Type}.
Variable prisma : PrismaClient db.
Variable datetime_test : string -> bool.

(** An issue of a field makes the validator answer, on Create and, when
    the field is given, on Update. *)
Lemma field_issue_rejects k s i0 idParam payload (w : world db) :
  is_object payload = true ->
  In (k, s) (createItemShape datetime_test) ->
  In i0 (issues_of (s (get payload k))) ->
  (exists issues,
     In (under (Key k) i0) issues
     /\ items_post prisma datetime_test payload w = (Returned (Rejected issues), w))
  /\ (get payload k <> Undefined ->
      exists issues,
        In (under (Key k) i0) issues
        /\ items_put prisma datetime_test idParam payload w
           = (Returned (Rejected issues), w)).
Proof.
  intros Hobj Hin Hi0. split.
  - destruct (@object_rejects (createItemShape datetime_test) payload k s i0
                Hobj Hin Hi0) as (issues & Hinv & Hmem).
    exists issues. split; [exact Hmem | apply items_post_rejected, Hinv].
  - intros Hdef. rewrite <- (optional_defined s Hdef) in Hi0.
    destruct (@object_rejects _ payload k (z.optional s) i0 Hobj
                (@updateItemShape_in datetime_test k s Hin) Hi0)
      as (issues & Hinv & Hmem).
    exists issues. split; [exact Hmem | apply items_put_rejected, Hinv].
Qed.

(** X6.  A payload whose name is not a string, or is the empty string, is
    answered by the validator with an issue under [name] (the message of
    the schema for the empty string) and nothing is persisted: always on
    Create, and on Update when a name is given. *)
Theorem name_must_be_a_non_empty_string
    (idParam : string) (payload : value) (w : world db) :
  is_object payload = true ->
  (forall s, get payload "name" = Str s -> s = "") ->
  exists i,
    path i = [Key "name"]
    /\ (get payload "name" = Str "" ->
        i = mkIssue too_small [Key "name"] (Some "名称不能为空"))
    /\ (exists issues,
          In i issues
          /\ items_post prisma datetime_test payload w = (Returned (Rejected issues), w))
    /\ (get payload "name" <> Undefined ->
        exists issues,
          In i issues
          /\ items_put prisma datetime_test idParam payload w
             = (Returned (Rejected issues), w)).
Proof.
  intros Hobj Hname.
  assert (Hi : exists i0,
             In i0 (issues_of (z.min 1 "名称不能为空" z.string (get payload "name")))
             /\ path i0 = []
             /\ (get payload "name" = Str "" ->
                 i0 = mkIssue too_small [] (Some "名称不能为空"))).
  { destruct (get payload "name") as [| | | | s | | |] eqn:Hn;
      try (exists (mkIssue invalid_type [] None); split; [left; reflexivity|];
           split; [reflexivity | discriminate]).
    rewrite (Hname s eq_refl). eexists. split; [left; reflexivity|].
    split; reflexivity. }
  destruct Hi as (i0 & Hi0 & Hpath & Hempty).
  destruct (@field_issue_rejects "name" _ i0 idParam payload w Hobj
              ltac:(in_shape) Hi0) as [Hpost Hput].
  exists (under (Key "name") i0). split; [|split; [|split]].
  - unfold under. cbn. rewrite Hpath. reflexivity.
  - intros H. rewrite (Hempty H). reflexivity.
  - exact Hpost.
  - exact Hput.
Qed.

(** X7.  A location id that is given and is neither null nor a number
    that is an integer above zero is answered by the validator with an
    issue under [locationId], on Create and on Update, and nothing is
    persisted; a location id given as a string is such a value. *)
Theorem locationId_must_be_a_positive_integer_number
    (idParam : string) (payload : value) (w : world db) :
  get payload "locationId" <> Undefined ->
  get payload "locationId" <> Null ->
  (forall n, get payload "locationId" = Num n -> isInteger n && gt_zero n = false) ->
  exists i,
    path i = [Key "locationId"]
    /\ (exists issues,
          In i issues
          /\ items_post prisma datetime_test payload w = (Returned (Rejected issues), w))
    /\ (exists issues,
          In i issues
          /\ items_put prisma datetime_test idParam payload w
             = (Returned (Rejected issues), w)).
Proof.
  intros Hu Hn Hnum.
  assert (Hobj : is_object payload = true).
  { destruct payload; try reflexivity; exfalso; apply Hu; reflexivity. }
  assert (Hi : exists i0,
             In i0 (issues_of (z.nullable (z.optional (z.positive (z.int z.number)))
                                 (get payload "locationId")))
             /\ path i0 = []).
  { destruct (get payload "locationId") as [| | | n | | | |] eqn:Hl;
      try contradiction;
      try (exists (mkIssue invalid_type [] None); split; [left; reflexivity | reflexivity]).
    specialize (Hnum n eq_refl).
    cbn [z.nullable z.optional]. unfold z.positive, z.int, z.check, z.number.
    destruct (isNaN n);
      [exists (mkIssue invalid_type [] None); split; [left; reflexivity | reflexivity]|].
    destruct (isInteger n); cbn [andb] in Hnum.
    - rewrite Hnum. eexists. split; [left; reflexivity | reflexivity].
    - destruct (gt_zero n); eexists; (split; [left; reflexivity | reflexivity]). }
  destruct Hi as (i0 & Hi0 & Hpath).
  destruct (@field_issue_rejects "locationId" _ i0 idParam payload w Hobj
              ltac:(in_shape) Hi0) as [Hpost Hput].
  exists (under (Key "locationId") i0). split; [|split].
  - unfold under. cbn. rewrite Hpath. reflexivity.
  - exact Hpost.
  - apply Hput, Hu.
Qed.

(** X8.  A date field given as a string that fails the datetime test is
    answered by the validator with the message of the schema under the
    field's name, on Create and on Update; on a Create that passes, the
    data of the one create call holds a date field as the date of its
    string, and as null when it is absent, null or the empty string. *)
Theorem date_fields_are_checked_and_converted
    (k msg : string) (idParam : string) (payload : value) (w : world db) :
  In (k, msg) date_fields ->
  (forall s, get payload k = Str s -> datetime_test s = false ->
     (exists issues,
        In (mkIssue invalid_string [Key k] (Some msg)) issues
        /\ items_post prisma datetime_test payload w = (Returned (Rejected issues), w))
     /\ (exists issues,
           In (mkIssue invalid_string [Key k] (Some msg)) issues
           /\ items_put prisma datetime_test idParam payload w
              = (Returned (Rejected issues), w)))
  /\ (forall data,
        safeParse (createItemSchema datetime_test) payload = Valid data ->
        exists d,
          calls (trace (snd (items_post prisma datetime_test payload w)))
          = (calls (trace w) ++ [(create, create_args d)])%list
          /\ get d k = match get payload k with
                       | Str s => if String.eqb s "" then Null else DateOf (Str s)
                       | _ => Null
                       end
          /\ forall s, get payload k = Str s -> datetime_test s = true).
Proof.
  intros Hk.
  assert (Hshape : In (k, z.nullable (z.optional (datetime datetime_test msg z.string)))
                      (createItemShape datetime_test)).
  { destruct Hk as [H | [H | []]]; injection H as <- <-; in_shape. }
  split.
  - intros s Hs Htest.
    assert (Hobj : is_object payload = true).
    { destruct payload; try reflexivity; discriminate. }
    assert (Hi0 : In (mkIssue invalid_string [] (Some msg))
                     (issues_of (z.nullable (z.optional (datetime datetime_test msg z.string))
                                   (get payload k)))).
    { rewrite Hs. cbn [z.nullable z.optional]. unfold datetime, z.check. cbn [z.string].
      rewrite Htest. left. reflexivity. }
    destruct (@field_issue_rejects k _ _ idParam payload w Hobj Hshape Hi0)
      as [Hpost Hput].
    split; [exact Hpost|]. apply Hput. rewrite Hs. discriminate.
  - intros data Hv.
    destruct (@create_data_valid _ _ _ Hv) as (name & _ & _ & Hd).
    destruct (valid_field _ _ _ k Hv (createItemShape_NoDup _) Hshape
                (takes_nullable (takes_optional (takes_check _ _ takes_string))))
      as (Hdata & Hok).
    eexists. split; [apply (@items_post_call _ prisma datetime_test _ _ _ w Hv Hd)|].
    split.
    + assert (Hget : get (Obj
         [("name", Str (trim name));
          ("source", or_else (trimmed (get data "source")) Null);
          ("quantity", if truthy (get data "quantity") then get data "quantity" else Null);
          ("unit", or_else (trimmed (get data "unit")) Null);
          ("usedQuantity", get data "usedQuantity");
          ("productionDate", dated (get data "productionDate"));
          ("expiryDate", dated (get data "expiryDate"));
          ("locationId", coalesce (get data "locationId") Undefined);
          ("price", if truthy (get data "price") then get data "price" else Null);
          ("extraInfo", get data "extraInfo")]) k = dated (get data k)).
      { destruct Hk as [H | [H | []]]; injection H as <- _; reflexivity. }
      rewrite Hget, Hdata.
      destruct Hok as [-> | [-> | [[s ->] _]]]; try reflexivity.
      unfold dated. cbn [truthy]. destruct (String.eqb s ""); reflexivity.
    + intros s Hs. rewrite Hs in Hok.
      destruct Hok as [H | [H | [_ H]]]; try discriminate. exact H.
Qed.

End FieldProperties.


(* ================================================================= *)
(** ** Further properties of the handlers *)

Lemma get_update_set data k :
  In k updated_fields ->
  get (update_set data) k
  = if defined (get data k) then update_value data k else Undefined.
Proof.
  intros Hk. unfold update_set.
  repeat (rewrite get_when_defined by written_objects).
  cbn in Hk.
  repeat (destruct Hk as [<- | Hk];
          [cbn -[get defined trimmed or_else coalesce dated];
           destruct (defined (get data _)); reflexivity |]).
  destruct Hk.
Qed.

Lemma or_else_trimmed v :
  stringish v -> or_else (trimmed v) Null = blank_to_null v.
Proof.
  intros [-> | [-> | [s ->]]]; try reflexivity.
  unfold or_else, trimmed, blank_to_null. cbn [truthy].
  destruct (String.eqb (trim s) ""); reflexivity.
Qed.

Lemma blank_to_null_trimmed v : trimmed_or_null (blank_to_null v).
Proof.
  destruct v; try (left; reflexivity). cbn [blank_to_null].
  destruct (String.eqb_spec (trim s) ""); [left; reflexivity|].
  right. exists (trim s). split; [reflexivity|]. split; [assumption | apply trim_idempotent].
Qed.

Lemma test_decimal_shape n s :
  (1 <= n)%nat ->
  test (decimal_pattern n) s = true -> decimal_shape n (codes s).
Proof.
  intros Hn H. apply matches_decimal_pattern; [exact Hn|].
  apply accepts_matches. exact H.
Qed.

Lemma decimal_fields_digits k n msg : In (k, n, msg) decimal_fields -> (1 <= n)%nat.
Proof. intros [H | [H | [H | []]]]; injection H as _ <- _; lia. Qed.

(** What a decimal field of the schema returns without an issue. *)
Lemma decimal_field_clean n msg v :
  issues_of (z.nullable (z.optional (z.regex (decimal_pattern n) msg z.string)) v) = []
  /\ aborted (z.nullable (z.optional (z.regex (decimal_pattern n) msg z.string)) v) = false ->
  out_of (z.nullable (z.optional (z.regex (decimal_pattern n) msg z.string)) v) = v
  /\ (v = Undefined \/ v = Null
      \/ exists s, v = Str s /\ test (decimal_pattern n) s = true).
Proof.
  intros [Hi Ha].
  destruct v; try (cbn in Ha; discriminate Ha);
    try (split; [reflexivity | auto]).
  revert Hi Ha. cbn [z.nullable z.optional]. unfold z.regex, z.check. cbn [z.string].
  destruct (test (decimal_pattern n) s) eqn:Ht;
    [intros _ _; split; [reflexivity | eauto] | intros Hi; discriminate Hi].
Qed.

Section TextProperties.

Context {db : Type}.
Variable prisma : PrismaClient db.
Variable datetime_test : string -> bool.

(** A decimal field of a validated payload. *)
Lemma create_decimal payload data k n msg :
  safeParse (createItemSchema datetime_test) payload = Valid data ->
  In (k, n, msg) decimal_fields ->
  get data k = Undefined \/ get data k = Null
  \/ exists s, get data k = Str s /\ test (decimal_pattern n) s = true.
Proof.
  intros Hv Hk.
  destruct (object_valid _ _ Hv) as (_ & _ & Hclean & Hget).
  destruct (@decimal_field_in_shape datetime_test _ _ _ Hk) as (s & Hin & Heq).
  rewrite (Hget (createItemShape_NoDup _) k s Hin).
  specialize (Hclean k s Hin).
  destruct (get payload k) eqn:Hp;
    try (rewrite Heq in * by discriminate;
         destruct (decimal_field_clean _ _ _ Hclean) as [-> H]; exact H).
  destruct Hk as [H | [H | [H | []]]]; injection H as <- <- <-;
    cbn in Hin;
    repeat (destruct Hin as [Hin | Hin];
            [first [discriminate Hin | injection Hin as <-] |]);
    try destruct Hin; cbn; eauto.
Qed.

Lemma update_decimal payload data k n msg :
  safeParse (updateItemSchema datetime_test) payload = Valid data ->
  In (k, n, msg) decimal_fields ->
  get data k = Undefined \/ get data k = Null
  \/ exists s, get data k = Str s /\ test (decimal_pattern n) s = true.
Proof.
  intros Hv Hk.
  destruct (object_valid _ _ Hv) as (_ & _ & Hclean & Hget).
  destruct (@decimal_field_in_shape datetime_test _ _ _ Hk) as (s & Hin & Heq).
  rewrite (Hget (updateItemShape_NoDup _) k _ (updateItemShape_in Hin)).
  specialize (Hclean k _ (updateItemShape_in Hin)).
  destruct (get payload k) eqn:Hp; [left; reflexivity | ..];
    rewrite optional_defined in * by discriminate;
    rewrite Heq in * by discriminate;
    destruct (decimal_field_clean _ _ _ Hclean) as [-> H]; exact H.
Qed.

Lemma decimal_truthy n s : test (decimal_pattern n) s = true -> truthy (Str s) = true.
Proof. destruct s; [discriminate | reflexivity]. Qed.

(** X9.  On a Create that passes validation the name is persisted
    trimmed, and the source and the unit are persisted as null when they
    are absent, null, empty or blank, and trimmed otherwise: never as an
    empty string, never with white space around. *)
Theorem create_persists_trimmed_text (payload data : value) (w : world db) :
  safeParse (createItemSchema datetime_test) payload = Valid data ->
  exists name d,
    get payload "name" = Str name
    /\ calls (trace (snd (items_post prisma datetime_test payload w)))
       = (calls (trace w) ++ [(create, create_args d)])%list
    /\ get d "name" = Str (trim name)
    /\ trim (trim name) = trim name
    /\ get d "source" = blank_to_null (get payload "source")
    /\ get d "unit" = blank_to_null (get payload "unit")
    /\ trimmed_or_null (get d "source")
    /\ trimmed_or_null (get d "unit").
Proof.
  intros Hv.
  destruct (@create_data_valid _ _ _ Hv) as (name & Hn & _ & Hd).
  destruct (@create_text _ _ _ Hv "source" ltac:(in_shape)) as [Hs Hss].
  destruct (@create_text _ _ _ Hv "unit" ltac:(in_shape)) as [Hu Hus].
  eexists name, _. split; [exact Hn|]. split.
  { rewrite (@items_post_run _ prisma datetime_test _ _ _ w Hv Hd).
    destruct (item prisma create _ (store w)) as [[? | ?] ?];
      cbn [snd trace]; rewrite calls_app; reflexivity. }
  split; [reflexivity|]. split; [apply trim_idempotent|].
  assert (H1 : or_else (trimmed (get data "source")) Null
               = blank_to_null (get payload "source"))
    by (rewrite Hs; apply or_else_trimmed, Hss).
  assert (H2 : or_else (trimmed (get data "unit")) Null
               = blank_to_null (get payload "unit"))
    by (rewrite Hu; apply or_else_trimmed, Hus).
  split; [exact H1|]. split; [exact H2|].
  split; [change (trimmed_or_null (or_else (trimmed (get data "source")) Null)); rewrite H1
         | change (trimmed_or_null (or_else (trimmed (get data "unit")) Null)); rewrite H2];
    apply blank_to_null_trimmed.
Qed.

(** X10.  No malformed decimal reaches persistence: the quantity, the
    used quantity and the price in the data of the one create call, and
    those in the data of the one update call, are null or a string of
    digits with, after a point, at most three digits (two for the
    price). *)
Theorem persisted_decimals_are_well_formed
    (k : string) (n : nat) (msg : string) (idParam : string)
    (payload data : value) (w : world db) :
  In (k, n, msg) decimal_fields ->
  (safeParse (createItemSchema datetime_test) payload = Valid data ->
     exists d,
       calls (trace (snd (items_post prisma datetime_test payload w)))
       = (calls (trace w) ++ [(create, create_args d)])%list
       /\ decimal_or_null n (get d k))
  /\ (safeParse (updateItemSchema datetime_test) payload = Valid data ->
        invalid_id idParam = false ->
        exists u,
          calls (trace (snd (items_put prisma datetime_test idParam payload w)))
          = (calls (trace w) ++ [(update, update_args (Number idParam) u)])%list
          /\ (has_key u k = true -> decimal_or_null n (get u k))).
Proof.
  intros Hk. pose proof (@decimal_fields_digits _ _ _ Hk) as Hn. split.
  - intros Hv.
    destruct (@create_data_valid _ _ _ Hv) as (name & _ & _ & Hd).
    pose proof (@create_decimal _ _ _ _ _ Hv Hk) as Hdec.
    eexists. split; [apply (@items_post_call _ prisma datetime_test _ _ _ w Hv Hd)|].
    assert (Hused : k = "usedQuantity" -> get data k <> Undefined).
    { intros -> H. rewrite (@create_usedQuantity _ _ _ Hv) in H.
      destruct (defined (get payload "usedQuantity")) eqn:Hdef; [|discriminate].
      rewrite H in Hdef. discriminate. }
    destruct Hk as [H | [H | [H | []]]]; injection H as <- <- <-;
      cbn [get lookup String.eqb Ascii.eqb Bool.eqb];
      (destruct Hdec as [H | [H | (s & H & Ht)]];
       [ try (contradiction (Hused eq_refl H)); rewrite H; left; reflexivity
       | rewrite H; left; reflexivity
       | rewrite H, ?(@decimal_truthy _ _ Ht); right; exists s;
         split; [reflexivity | apply (@test_decimal_shape _ _ Hn Ht)] ]).
  - intros Hv Hid. exists (update_set data).
    split; [apply (@items_put_calls _ prisma datetime_test _ _ _ w Hv Hid)|].
    intros Hkey. rewrite has_key_update_set in Hkey.
    apply andb_prop in Hkey as [Hin Hdef].
    assert (Hink : In k updated_fields).
    { apply existsb_exists in Hin as (k' & Hin & Heq).
      apply String.eqb_eq in Heq. subst k'. exact Hin. }
    rewrite (@get_update_set _ _ Hink), Hdef.
    assert (Hval : update_value data k = get data k).
    { destruct Hk as [H | [H | [H | []]]]; injection H as <- _ _; reflexivity. }
    rewrite Hval.
    destruct (@update_decimal _ _ _ _ _ Hv Hk) as [H | [H | (s & H & Ht)]].
    + rewrite H in Hdef. discriminate.
    + left. exact H.
    + right. exists s. split; [exact H | apply (@test_decimal_shape _ _ Hn Ht)].
Qed.

End TextProperties.


Section WriteProperties.

Context {db : Type}.
Variable prisma : PrismaClient db.
Variable datetime_test : string -> bool.

(** X11.  For a payload that both schemas take, the data of the update
    call holds, for a field that is present, the value that the data of
    the create call holds for it, with two exceptions: for a null location
    id the create call holds undefined and the update call null, and for a
    name of white space only the create call holds the empty string and
    the update call null. *)
Theorem update_writes_what_create_persists
    (idParam : string) (payload created updated : value) (k : string)
    (w w' : world db) :
  safeParse (createItemSchema datetime_test) payload = Valid created ->
  safeParse (updateItemSchema datetime_test) payload = Valid updated ->
  invalid_id idParam = false ->
  In k updated_fields ->
  get payload k <> Undefined ->
  exists d u,
    calls (trace (snd (items_post prisma datetime_test payload w)))
    = (calls (trace w) ++ [(create, create_args d)])%list
    /\ calls (trace (snd (items_put prisma datetime_test idParam payload w')))
       = (calls (trace w') ++ [(update, update_args (Number idParam) u)])%list
    /\ (k = "locationId" -> get payload k = Null ->
        get d k = Undefined /\ get u k = Null)
    /\ (k = "name" -> forall s, get payload k = Str s -> white (codes s) ->
        get d k = Str "" /\ get u k = Null)
    /\ ((k = "locationId" -> get payload k <> Null) ->
        (k = "name" -> forall s, get payload k = Str s -> ~ white (codes s)) ->
        get u k = get d k).
Proof.
  intros Hc Hu Hid Hk Hdef.
  destruct (@create_data_valid _ _ _ Hc) as (name & Hn & _ & Hd).
  eexists _, (update_set updated).
  split; [apply (@items_post_call _ prisma datetime_test _ _ _ w Hc Hd)|].
  split; [apply (@items_put_calls _ prisma datetime_test _ _ _ w' Hu Hid)|].
  assert (Hku : In k item_fields) by (cbn in Hk |- *; intuition).
  pose proof (@update_fields_unchanged _ _ _ k Hu Hku) as Hupd.
  rewrite (@get_update_set _ _ Hk), Hupd.
  assert (Hd' : defined (get payload k) = true)
    by (destruct (get payload k); try reflexivity; contradiction).
  rewrite Hd'. unfold update_value. rewrite Hupd.
  assert (Hcre : get created k = get payload k).
  { destruct (String.eqb_spec k "usedQuantity") as [-> | Hne].
    - rewrite (@create_usedQuantity _ _ _ Hc), Hd'. reflexivity.
    - apply (@create_fields_unchanged _ _ _ _ Hc Hku Hne). }
  assert (Hdec : forall n msg, In (k, n, msg) decimal_fields ->
            (if truthy (get payload k) then get payload k else Null) = get payload k).
  { intros n msg Hin. rewrite <- Hcre.
    destruct (@create_decimal _ _ _ _ _ _ Hc Hin) as [H | [H | (s & H & Ht)]];
      [rewrite Hcre in H; contradiction | rewrite H; reflexivity | rewrite H].
    rewrite (@decimal_truthy _ _ Ht). reflexivity. }
  split; [|split].
  - intros -> Hnull.
    cbn [existsb String.eqb Ascii.eqb Bool.eqb orb get lookup].
    rewrite Hcre, Hnull. split; reflexivity.
  - intros -> s Hs Hw.
    cbn [existsb String.eqb Ascii.eqb Bool.eqb orb get lookup].
    rewrite Hn in Hs. injection Hs as <-.
    apply trim_empty_iff in Hw. rewrite Hn, Hw.
    split; [reflexivity|]. unfold or_else, trimmed. rewrite Hw. reflexivity.
  - intros Hloc Hname. cbn in Hk.
    repeat (destruct Hk as [<- | Hk]); try destruct Hk;
      cbn [existsb String.eqb Ascii.eqb Bool.eqb orb get lookup];
      rewrite <- ?Hcre; try reflexivity.
    + rewrite Hcre, Hn. specialize (Hname eq_refl name Hn).
      unfold or_else, trimmed. cbn [truthy].
      destruct (trim name) eqn:Ht; [|reflexivity].
      contradiction Hname. apply trim_empty_iff, Ht.
    + rewrite Hcre. symmetry. eapply Hdec. left. reflexivity.
    + rewrite Hcre. specialize (Hloc eq_refl).
      destruct (get payload "locationId"); try reflexivity; contradiction.
    + rewrite Hcre. symmetry. eapply Hdec. right. right. left. reflexivity.
Qed.

(** X12.  A name, a source or a unit that is present in an Update is in
    the data of the one update call, as null when it is null or white
    space only (the empty string included), and otherwise as the string
    without the white space at its two ends: never an empty string, never
    white space around. *)
Theorem update_writes_trimmed_text
    (idParam : string) (payload data : value) (k : string) (w : world db) :
  safeParse (updateItemSchema datetime_test) payload = Valid data ->
  invalid_id idParam = false ->
  In k ["name"; "source"; "unit"] ->
  get payload k <> Undefined ->
  exists u,
    calls (trace (snd (items_put prisma datetime_test idParam payload w)))
    = (calls (trace w) ++ [(update, update_args (Number idParam) u)])%list
    /\ has_key u k = true
    /\ (get u k = Null
        <-> get payload k = Null
            \/ exists s, get payload k = Str s /\ white (codes s))
    /\ (get u k = Null
        \/ exists s t,
             get payload k = Str s /\ get u k = Str t
             /\ t = trim s /\ t <> "" /\ trimmed_from s t).
Proof.
  intros Hv Hid Hk Hdef.
  exists (update_set data).
  split; [apply (@items_put_calls _ prisma datetime_test _ _ _ w Hv Hid)|].
  assert (Hku : In k updated_fields) by (cbn in Hk |- *; intuition).
  assert (Hki : In k item_fields) by (cbn in Hk |- *; intuition).
  pose proof (@update_fields_unchanged _ _ _ k Hv Hki) as Hupd.
  assert (Hd' : defined (get payload k) = true)
    by (destruct (get payload k); try reflexivity; contradiction).
  assert (Hs : stringish (get payload k)).
  { destruct Hk as [<- | [<- | [<- | []]]].
    - destruct (@update_name _ _ _ Hv) as [_ [H | (s & H & _)]]; rewrite H; red; eauto.
    - apply (@update_text _ _ _ Hv "source"). in_shape.
    - apply (@update_text _ _ _ Hv "unit"). in_shape. }
  assert (Hval : get (update_set data) k = blank_to_null (get payload k)).
  { rewrite (@get_update_set _ _ Hku), Hupd, Hd'.
    unfold update_value. rewrite Hupd.
    destruct Hk as [<- | [<- | [<- | []]]];
      cbn [existsb String.eqb Ascii.eqb Bool.eqb orb];
      apply or_else_trimmed, Hs. }
  split.
  { rewrite has_key_update_set, Hupd, Hd', andb_true_r.
    destruct Hk as [<- | [<- | [<- | []]]]; reflexivity. }
  rewrite Hval.
  destruct Hs as [Hp | [Hp | [s Hp]]]; [contradiction | |]; rewrite Hp;
    cbn [blank_to_null].
  - split; [|left; reflexivity].
    split; [intros _; left; reflexivity | reflexivity].
  - destruct (String.eqb_spec (trim s) "") as [He | Hne].
    + split; [|left; reflexivity]. split; [|reflexivity].
      intros _. right. exists s. split; [reflexivity | apply trim_empty_iff, He].
    + split.
      * split; [discriminate|].
        intros [H | (s' & H & Hw)]; [discriminate|].
        injection H as <-. contradiction Hne. apply trim_empty_iff, Hw.
      * right. exists s, (trim s).
        split; [reflexivity|]. split; [reflexivity|]. split; [reflexivity|].
        split; [exact Hne | apply trim_spec].
Qed.

(** X13.  An Update whose payload has none of the fields name, source,
    quantity, unit, productionDate, expiryDate, locationId, price and
    extraInfo is neither refused nor skipped: it makes the one update
    call, and the data of that call holds no key but, at most,
    usedQuantity. *)
Theorem update_without_fields_is_still_sent
    (idParam : string) (payload data : value) (w : world db) :
  safeParse (updateItemSchema datetime_test) payload = Valid data ->
  invalid_id idParam = false ->
  (forall k, In k updated_fields -> k <> "usedQuantity" ->
             get payload k = Undefined) ->
  exists u,
    calls (trace (snd (items_put prisma datetime_test idParam payload w)))
    = (calls (trace w) ++ [(update, update_args (Number idParam) u)])%list
    /\ forall k, has_key u k = true -> k = "usedQuantity".
Proof.
  intros Hv Hid Hnone. exists (update_set data).
  split; [apply (@items_put_calls _ prisma datetime_test _ _ _ w Hv Hid)|].
  intros k Hk. rewrite has_key_update_set in Hk.
  apply andb_prop in Hk as [Hin Hdef].
  apply existsb_exists in Hin as (k' & Hin & Heq).
  apply String.eqb_eq in Heq. subst k'.
  destruct (String.eqb_spec k "usedQuantity") as [He | Hne]; [exact He|].
  exfalso.
  rewrite (@update_fields_unchanged _ _ _ k Hv), (Hnone k Hin Hne) in Hdef;
    [discriminate | cbn in Hin |- *; intuition].
Qed.

End WriteProperties.


(* ================================================================= *)
(** ** Further properties of the routes *)

Lemma logs_app t t' : logs (t ++ t') = (logs t ++ logs t')%list.
Proof. apply flat_map_app. Qed.

Ltac answered :=
  split; [cbn; auto 10 | reflexivity].

Section RouteProperties.

Context {db : Type}.
Variable prisma : PrismaClient db.
Variable datetime_test : string -> bool.

(** X14.  Every route answers with a status of its own list: 200 or 500
    for the list, 201 or 500 for Create, 200, 400, 404 or 500 for Update
    and Delete, 400 being the answer to an invalid id and to nothing else;
    the flag [success] of the body is true exactly below 300. *)
Theorem each_route_answers_with_its_statuses
    (idParam : string) (payload : value) (w : world db) :
  (exists r, fst (items_get prisma w) = Returned (Handled r)
             /\ answers [200; 500] r)
  /\ (forall data,
        safeParse (createItemSchema datetime_test) payload = Valid data ->
        exists r, fst (items_post prisma datetime_test payload w) = Returned (Handled r)
                  /\ answers [201; 500] r)
  /\ (forall data,
        safeParse (updateItemSchema datetime_test) payload = Valid data ->
        exists r, fst (items_put prisma datetime_test idParam payload w)
                  = Returned (Handled r)
                  /\ answers [200; 400; 404; 500] r
                  /\ (status r = 400 <-> invalid_id idParam = true))
  /\ (exists r, fst (items_delete prisma idParam w) = Returned (Handled r)
                /\ answers [200; 400; 404; 500] r
                /\ (status r = 400 <-> invalid_id idParam = true)).
Proof.
  split; [|split; [|split]].
  - rewrite items_get_run.
    destruct (item prisma findMany _ (store w)) as [[? | ?] ?];
      eexists; (split; [reflexivity | answered]).
  - intros data Hv.
    destruct (@create_data_valid _ _ _ Hv) as (name & _ & _ & Hd).
    rewrite (@items_post_run _ prisma datetime_test _ _ _ w Hv Hd).
    destruct (item prisma create _ (store w)) as [[? | ?] ?];
      eexists; (split; [reflexivity | answered]).
  - intros data Hv. destruct (invalid_id idParam) eqn:Hid.
    + rewrite (@items_put_invalid _ prisma datetime_test _ _ _ w Hv Hid).
      eexists. split; [reflexivity|]. split; [answered | split; reflexivity].
    + rewrite (@items_put_run _ prisma datetime_test _ _ _ w Hv Hid). cbv zeta.
      destruct (item prisma update _ (store w)) as [[? | e] ?];
        [| destruct (is_P2025 e)];
        eexists; (split; [reflexivity|]);
        (split; [answered | split; intros H; discriminate H]).
  - destruct (invalid_id idParam) eqn:Hid.
    + rewrite (@items_delete_invalid _ prisma _ w Hid).
      eexists. split; [reflexivity|]. split; [answered | split; reflexivity].
    + rewrite (@items_delete_run _ prisma _ w Hid). cbv zeta.
      destruct (item prisma delete _ (store w)) as [[? | e] ?];
        [| destruct (is_P2025 e)];
        eexists; (split; [reflexivity|]);
        (split; [answered | split; intros H; discriminate H]).
Qed.

(** X15.  A request is one persistence call at most, whatever the client
    answers: the list asks for all the items with their location and
    their images in order, newest first; Create, Update and Delete make
    the one call of their operation; an invalid id makes none. *)
Theorem a_request_is_one_persistence_call
    (idParam : string) (payload : value) (w : world db) :
  calls (trace (snd (items_get prisma w)))
  = (calls (trace w) ++ [(findMany, findMany_args)])%list
  /\ (forall data,
        safeParse (createItemSchema datetime_test) payload = Valid data ->
        exists d,
          create_data data = Returned d
          /\ calls (trace (snd (items_post prisma datetime_test payload w)))
             = (calls (trace w) ++ [(create, create_args d)])%list)
  /\ (forall data,
        safeParse (updateItemSchema datetime_test) payload = Valid data ->
        calls (trace (snd (items_put prisma datetime_test idParam payload w)))
        = (calls (trace w)
           ++ if invalid_id idParam then []
              else [(update, update_args (Number idParam) (update_set data))])%list)
  /\ calls (trace (snd (items_delete prisma idParam w)))
     = (calls (trace w)
        ++ if invalid_id idParam then []
           else [(delete, delete_args (Number idParam))])%list.
Proof.
  split; [|split; [|split]].
  - rewrite items_get_run.
    destruct (item prisma findMany _ (store w)) as [[? | ?] ?];
      cbn [snd trace]; rewrite calls_app; reflexivity.
  - intros data Hv.
    destruct (@create_data_valid _ _ _ Hv) as (name & _ & _ & Hd).
    eexists. split; [exact Hd|].
    rewrite (@items_post_run _ prisma datetime_test _ _ _ w Hv Hd).
    destruct (item prisma create _ (store w)) as [[? | ?] ?];
      cbn [snd trace]; rewrite calls_app; reflexivity.
  - intros data Hv. destruct (invalid_id idParam) eqn:Hid.
    + rewrite (@items_put_invalid _ prisma datetime_test _ _ _ w Hv Hid).
      cbn [snd]. rewrite app_nil_r. reflexivity.
    + rewrite (@items_put_run _ prisma datetime_test _ _ _ w Hv Hid). cbv zeta.
      destruct (item prisma update _ (store w)) as [[? | e] ?];
        [| destruct (is_P2025 e)];
        cbn [snd trace]; rewrite calls_app; reflexivity.
  - destruct (invalid_id idParam) eqn:Hid.
    + rewrite (@items_delete_invalid _ prisma _ w Hid).
      cbn [snd]. rewrite app_nil_r. reflexivity.
    + rewrite (@items_delete_run _ prisma _ w Hid). cbv zeta.
      destruct (item prisma delete _ (store w)) as [[? | e] ?];
        [| destruct (is_P2025 e)];
        cbn [snd trace]; rewrite calls_app; reflexivity.
Qed.

Ltac was_logged H :=
  first
    [ right; split; [discriminate | cbn [snd trace]; rewrite ?logs_app, ?app_nil_r; reflexivity]
    | left; split; [reflexivity|];
      eexists; split; [rewrite H; reflexivity|];
      cbn [snd trace]; rewrite logs_app; reflexivity ].

(** X16.  An error is logged exactly when the answer is a 500: then the
    exception that the persistence call of the request threw is logged
    once under the label of the route, and in every other case (success,
    400, 404) nothing is logged. *)
Theorem an_error_is_logged_exactly_with_a_500
    (idParam : string) (payload : value) (w : world db) :
  (exists r, fst (items_get prisma w) = Returned (Handled r)
             /\ logged prisma "Error fetching items:" findMany findMany_args
                  w (snd (items_get prisma w)) r)
  /\ (forall data,
        safeParse (createItemSchema datetime_test) payload = Valid data ->
        exists r d,
          fst (items_post prisma datetime_test payload w) = Returned (Handled r)
          /\ create_data data = Returned d
          /\ logged prisma "Error creating item:" create (create_args d)
               w (snd (items_post prisma datetime_test payload w)) r)
  /\ (forall data,
        safeParse (updateItemSchema datetime_test) payload = Valid data ->
        exists r, fst (items_put prisma datetime_test idParam payload w)
                  = Returned (Handled r)
                  /\ logged prisma "Error updating item:"
                       update (update_args (Number idParam) (update_set data))
                       w (snd (items_put prisma datetime_test idParam payload w)) r)
  /\ (exists r, fst (items_delete prisma idParam w) = Returned (Handled r)
                /\ logged prisma "Error deleting item:"
                     delete (delete_args (Number idParam))
                     w (snd (items_delete prisma idParam w)) r).
Proof.
  split; [|split; [|split]].
  - rewrite items_get_run.
    destruct (item prisma findMany _ (store w)) as [[? | ?] ?] eqn:Hrun;
      eexists; (split; [reflexivity | was_logged Hrun]).
  - intros data Hv.
    destruct (@create_data_valid _ _ _ Hv) as (name & _ & _ & Hd).
    rewrite (@items_post_run _ prisma datetime_test _ _ _ w Hv Hd).
    destruct (item prisma create _ (store w)) as [[? | ?] ?] eqn:Hrun;
      eexists _, _; (split; [reflexivity|]); (split; [exact Hd | was_logged Hrun]).
  - intros data Hv. destruct (invalid_id idParam) eqn:Hid.
    + rewrite (@items_put_invalid _ prisma datetime_test _ _ _ w Hv Hid).
      eexists. split; [reflexivity | was_logged Hid].
    + rewrite (@items_put_run _ prisma datetime_test _ _ _ w Hv Hid). cbv zeta.
      destruct (item prisma update _ (store w)) as [[? | e] ?] eqn:Hrun;
        [| destruct (is_P2025 e)];
        eexists; (split; [reflexivity | was_logged Hrun]).
  - destruct (invalid_id idParam) eqn:Hid.
    + rewrite (@items_delete_invalid _ prisma _ w Hid).
      eexists. split; [reflexivity | was_logged Hid].
    + rewrite (@items_delete_run _ prisma _ w Hid). cbv zeta.
      destruct (item prisma delete _ (store w)) as [[? | e] ?] eqn:Hrun;
        [| destruct (is_P2025 e)];
        eexists; (split; [reflexivity | was_logged Hrun]).
Qed.

End RouteProperties.


(* ================================================================= *)
(** ** Further examples *)

Lemma jsonValueSchema_takes_plain_data_witness :
  json (Arr [Num (Finite 1 0); Str "b"; Obj [("c", Null)]]) = true
  /\ safeParse jsonValueSchema (Arr [Num (Finite 1 0); Str "b"; Obj [("c", Null)]])
     = Valid (Arr [Num (Finite 1 0); Str "b"; Obj [("c", Null)]]).
Proof.
  split; [reflexivity|].
  destruct (jsonValueSchema_takes_plain_data
              (Arr [Num (Finite 1 0); Str "b"; Obj [("c", Null)]])) as [_ H].
  apply H. reflexivity.
Defined.

Lemma decimal_pattern_language_witness :
  (1 <= 3)%nat
  /\ (test (decimal_pattern 3) "12.5" = true <-> decimal_shape 3 (codes "12.5")).
Proof.
  split; [lia|]. apply (@decimal_pattern_language 3 "12.5"). lia.
Defined.

Lemma update_schema_is_create_without_required_name_witness :
  (exists data,
     safeParse (createItemSchema datetime_example) (Obj [("price", Str "9.99")])
     = Valid data)
  <-> (exists data,
         safeParse (updateItemSchema datetime_example) (Obj [("price", Str "9.99")])
         = Valid data)
      /\ get (Obj [("price", Str "9.99")]) "name" <> Undefined.
Proof.
  exact (@update_schema_is_create_without_required_name datetime_example
           (Obj [("price", Str "9.99")])).
Defined.

Lemma validated_payload_has_the_schema_keys_only_witness :
  safeParse (createItemSchema datetime_example)
    (Obj [("id", Num (Finite 7 0)); ("name", Str "milk"); ("category", Str "dairy")])
  = Valid (Obj [("name", Str "milk"); ("category", Str "dairy");
                ("usedQuantity", Str "0.0")])
  /\ exists d,
       calls (trace (snd (items_post memory datetime_example
                            (Obj [("id", Num (Finite 7 0)); ("name", Str "milk");
                                  ("category", Str "dairy")]) start)))
       = [(create, create_args d)]
       /\ keys d = updated_fields.
Proof.
  split; [reflexivity|].
  destruct (@validated_payload_has_the_schema_keys_only table memory datetime_example
              "7"
              (Obj [("id", Num (Finite 7 0)); ("name", Str "milk");
                    ("category", Str "dairy")])
              (Obj [("name", Str "milk"); ("category", Str "dairy");
                    ("usedQuantity", Str "0.0")]) start) as [H _].
  destruct (H eq_refl) as (_ & _ & Hd). exact Hd.
Defined.

Lemma rejection_lists_the_issues_of_every_field_witness :
  is_object (Obj [("name", Str ""); ("price", Str "9.999")]) = true
  /\ items_post memory datetime_example
       (Obj [("name", Str ""); ("price", Str "9.999")]) start
     = (Returned (Rejected
          [ mkIssue too_small [Key "name"] (Some "名称不能为空");
            mkIssue invalid_string [Key "price"] (Some "价格格式无效，最多2位小数") ]),
        start).
Proof.
  split; [reflexivity|].
  destruct (@rejection_lists_the_issues_of_every_field table memory datetime_example
              "7" (Obj [("name", Str ""); ("price", Str "9.999")]) start eq_refl)
    as [H _].
  destruct (H [ mkIssue too_small [Key "name"] (Some "名称不能为空");
                mkIssue invalid_string [Key "price"] (Some "价格格式无效，最多2位小数") ]
              eq_refl) as [Hrun _].
  exact Hrun.
Defined.

Lemma name_must_be_a_non_empty_string_witness :
  is_object (Obj [("name", Str "")]) = true
  /\ (forall s, get (Obj [("name", Str "")]) "name" = Str s -> s = "")
  /\ exists i,
       i = mkIssue too_small [Key "name"] (Some "名称不能为空")
       /\ exists issues,
            In i issues
            /\ items_post memory datetime_example (Obj [("name", Str "")]) start
               = (Returned (Rejected issues), start).
Proof.
  assert (Hname : forall s, get (Obj [("name", Str "")]) "name" = Str s -> s = "").
  { intros s H. injection H as <-. reflexivity. }
  split; [reflexivity|]. split; [exact Hname|].
  destruct (@name_must_be_a_non_empty_string table memory datetime_example
              "7" (Obj [("name", Str "")]) start eq_refl Hname)
    as (i & _ & Hi & Hpost & _).
  exists i. split; [apply Hi; reflexivity | exact Hpost].
Defined.

Lemma locationId_must_be_a_positive_integer_number_witness :
  get (Obj [("name", Str "milk"); ("locationId", Str "3")]) "locationId" <> Undefined
  /\ get (Obj [("name", Str "milk"); ("locationId", Str "3")]) "locationId" <> Null
  /\ exists i,
       path i = [Key "locationId"]
       /\ exists issues,
            In i issues
            /\ items_post memory datetime_example
                 (Obj [("name", Str "milk"); ("locationId", Str "3")]) start
               = (Returned (Rejected issues), start).
Proof.
  assert (Hu : get (Obj [("name", Str "milk"); ("locationId", Str "3")]) "locationId"
               <> Undefined) by discriminate.
  assert (Hn : get (Obj [("name", Str "milk"); ("locationId", Str "3")]) "locationId"
               <> Null) by discriminate.
  split; [exact Hu|]. split; [exact Hn|].
  destruct (@locationId_must_be_a_positive_integer_number table memory datetime_example
              "7" (Obj [("name", Str "milk"); ("locationId", Str "3")]) start Hu Hn)
    as (i & Hpath & Hpost & _).
  - intros n H. discriminate H.
  - exists i. split; [exact Hpath | exact Hpost].
Defined.

Lemma date_fields_are_checked_and_converted_witness :
  In ("expiryDate", "过期日期必须是 ISO 8601 格式") date_fields
  /\ safeParse (createItemSchema datetime_example)
       (Obj [("name", Str "milk"); ("expiryDate", Str "2026-01-01T00:00:00Z")])
     = Valid (Obj [("name", Str "milk"); ("usedQuantity", Str "0.0");
                   ("expiryDate", Str "2026-01-01T00:00:00Z")])
  /\ exists d,
       calls (trace (snd (items_post memory datetime_example
                            (Obj [("name", Str "milk");
                                  ("expiryDate", Str "2026-01-01T00:00:00Z")]) start)))
       = [(create, create_args d)]
       /\ get d "expiryDate" = DateOf (Str "2026-01-01T00:00:00Z").
Proof.
  assert (Hin : In ("expiryDate", "过期日期必须是 ISO 8601 格式") date_fields)
    by (right; left; reflexivity).
  split; [exact Hin|]. split; [reflexivity|].
  destruct (@date_fields_are_checked_and_converted table memory datetime_example
              "expiryDate" "过期日期必须是 ISO 8601 格式" "7"
              (Obj [("name", Str "milk"); ("expiryDate", Str "2026-01-01T00:00:00Z")])
              start Hin) as [_ H].
  destruct (H (Obj [("name", Str "milk"); ("usedQuantity", Str "0.0");
                    ("expiryDate", Str "2026-01-01T00:00:00Z")]) eq_refl)
    as (d & Hd & Hget & _).
  exists d. split; [exact Hd | exact Hget].
Defined.

Lemma create_persists_trimmed_text_witness :
  safeParse (createItemSchema datetime_example)
    (Obj [("name", Str " milk "); ("source", Str "  ")])
  = Valid (Obj [("name", Str " milk "); ("source", Str "  "); ("usedQuantity", Str "0.0")])
  /\ exists name d,
       get (Obj [("name", Str " milk "); ("source", Str "  ")]) "name" = Str name
       /\ get d "name" = Str (trim name)
       /\ get d "source" = Null.
Proof.
  split; [reflexivity|].
  destruct (@create_persists_trimmed_text table memory datetime_example
              (Obj [("name", Str " milk "); ("source", Str "  ")])
              (Obj [("name", Str " milk "); ("source", Str "  "); ("usedQuantity", Str "0.0")])
              start eq_refl)
    as (name & d & Hn & _ & Hname & _ & Hsource & _).
  exists name, d. split; [exact Hn|]. split; [exact Hname | exact Hsource].
Defined.

Lemma persisted_decimals_are_well_formed_witness :
  In ("price", 2%nat, "价格格式无效，最多2位小数") decimal_fields
  /\ safeParse (createItemSchema datetime_example)
       (Obj [("name", Str "milk"); ("price", Str "9.99")])
     = Valid (Obj [("name", Str "milk"); ("usedQuantity", Str "0.0");
                   ("price", Str "9.99")])
  /\ exists d,
       calls (trace (snd (items_post memory datetime_example
                            (Obj [("name", Str "milk"); ("price", Str "9.99")]) start)))
       = [(create, create_args d)]
       /\ decimal_or_null 2 (get d "price").
Proof.
  assert (Hin : In ("price", 2%nat, "价格格式无效，最多2位小数") decimal_fields)
    by (right; right; left; reflexivity).
  split; [exact Hin|]. split; [reflexivity|].
  destruct (@persisted_decimals_are_well_formed table memory datetime_example
              "price" 2%nat "价格格式无效，最多2位小数" "7"
              (Obj [("name", Str "milk"); ("price", Str "9.99")])
              (Obj [("name", Str "milk"); ("usedQuantity", Str "0.0");
                    ("price", Str "9.99")]) start Hin) as [H _].
  exact (H eq_refl).
Defined.

Lemma update_writes_what_create_persists_witness :
  safeParse (createItemSchema datetime_example) blank_name = Valid blank_name
  /\ safeParse (updateItemSchema datetime_example) blank_name = Valid blank_name
  /\ invalid_id "7" = false
  /\ white (codes " ")
  /\ exists d u,
       calls (trace (snd (items_post memory datetime_example blank_name start)))
       = [(create, create_args d)]
       /\ calls (trace (snd (items_put memory datetime_example "7" blank_name start)))
          = [(update, update_args (Finite 7 0) u)]
       /\ get d "name" = Str ""
       /\ get u "name" = Null.
Proof.
  assert (Hw : white (codes " ")) by (apply white_one; [reflexivity | constructor]).
  split; [reflexivity|]. split; [reflexivity|]. split; [reflexivity|].
  split; [exact Hw|].
  destruct (@update_writes_what_create_persists table memory datetime_example "7"
              blank_name blank_name blank_name "name" start start
              eq_refl eq_refl eq_refl)
    as (d & u & Hpost & Hput & _ & Hname & _).
  - left. reflexivity.
  - discriminate.
  - destruct (Hname eq_refl " " eq_refl Hw) as [Hd Hu].
    exists d, u. split; [exact Hpost|]. split; [exact Hput|].
    split; [exact Hd | exact Hu].
Defined.

Lemma update_writes_trimmed_text_witness :
  safeParse (updateItemSchema datetime_example) in_kilos = Valid in_kilos
  /\ invalid_id "7" = false
  /\ In "unit" ["name"; "source"; "unit"]
  /\ exists u,
       calls (trace (snd (items_put memory datetime_example "7" in_kilos start)))
       = [(update, update_args (Finite 7 0) u)]
       /\ get u "unit" = Str "kg".
Proof.
  assert (Hin : In "unit" ["name"; "source"; "unit"])
    by (right; right; left; reflexivity).
  split; [reflexivity|]. split; [reflexivity|]. split; [exact Hin|].
  destruct (@update_writes_trimmed_text table memory datetime_example "7"
              in_kilos in_kilos "unit" start eq_refl eq_refl Hin)
    as (u & Hc & _ & Hnull & Hcases).
  - discriminate.
  - exists u. split; [exact Hc|].
    destruct Hcases as [Hn | (s & t & Hp & Hu & Ht & _)].
    + exfalso. apply Hnull in Hn.
      destruct Hn as [Hn | (s & Hp & Hw)]; [discriminate Hn|].
      injection Hp as <-.
      change (white_by ws1 ws2 ws3 [32; 107; 103; 32]%N) in Hw.
      repeat match goal with
             | H : white_by _ _ _ (_ :: _) |- _ => inversion H; clear H; subst
             end; discriminate.
    + injection Hp as <-. rewrite Hu, Ht. reflexivity.
Defined.

Lemma update_without_fields_is_still_sent_witness :
  safeParse (updateItemSchema datetime_example)
    (Obj [("category", Str "dairy"); ("usedQuantity", Str "1.5")])
  = Valid (Obj [("category", Str "dairy"); ("usedQuantity", Str "1.5")])
  /\ invalid_id "7" = false
  /\ exists u,
       calls (trace (snd (items_put memory datetime_example "7"
                            (Obj [("category", Str "dairy"); ("usedQuantity", Str "1.5")])
                            start)))
       = (calls (trace start) ++ [(update, update_args (Number "7") u)])%list
       /\ forall k, has_key u k = true -> k = "usedQuantity".
Proof.
  split; [reflexivity|]. split; [reflexivity|].
  apply (@update_without_fields_is_still_sent table memory datetime_example
           "7" (Obj [("category", Str "dairy"); ("usedQuantity", Str "1.5")])
           (Obj [("category", Str "dairy"); ("usedQuantity", Str "1.5")])
           start eq_refl eq_refl).
  intros k Hk Hne. cbn in Hk.
  repeat (destruct Hk as [<- | Hk]; [first [reflexivity | contradiction Hne; reflexivity]|]).
  destruct Hk.
Defined.

Lemma each_route_answers_with_its_statuses_witness :
  safeParse (createItemSchema datetime_example) (Obj [("name", Str "milk")])
  = Valid (Obj [("name", Str "milk"); ("usedQuantity", Str "0.0")])
  /\ exists r,
       fst (items_post memory datetime_example (Obj [("name", Str "milk")]) start)
       = Returned (Handled r)
       /\ answers [201; 500] r.
Proof.
  split; [reflexivity|].
  destruct (@each_route_answers_with_its_statuses table memory datetime_example
              "7" (Obj [("name", Str "milk")]) start) as (_ & H & _).
  exact (H _ eq_refl).
Defined.

Lemma a_request_is_one_persistence_call_witness :
  safeParse (updateItemSchema datetime_example) (Obj [("price", Str "9.99")])
  = Valid (Obj [("price", Str "9.99")])
  /\ calls (trace (snd (items_put memory datetime_example "7"
                          (Obj [("price", Str "9.99")]) start)))
     = (calls (trace start)
        ++ if invalid_id "7" then []
           else [(update, update_args (Number "7")
                            (update_set (Obj [("price", Str "9.99")])))])%list.
Proof.
  split; [reflexivity|].
  destruct (@a_request_is_one_persistence_call table memory datetime_example
              "7" (Obj [("price", Str "9.99")]) start) as (_ & _ & H & _).
  exact (H _ eq_refl).
Defined.

Lemma an_error_is_logged_exactly_with_a_500_witness :
  safeParse (updateItemSchema datetime_example) repriced = Valid repriced
  /\ exists r,
       fst (items_put memory datetime_example "7" repriced start)
       = Returned (Handled r)
       /\ logged memory "Error updating item:"
            update (update_args (Number "7") (update_set repriced))
            start (snd (items_put memory datetime_example "7" repriced start)) r.
Proof.
  split; [reflexivity|].
  destruct (@an_error_is_logged_exactly_with_a_500 table memory datetime_example
              "7" repriced start) as (_ & _ & H & _).
  exact (H _ eq_refl).
Defined.
